(** * SatelliteOrbitPredictor: orbit prediction and close-approach analysis

    A shallow embedding of [src/orbit_predictor.py] (class
    [SatelliteOrbitPredictor]) and [src/collision_detector.py] (class
    [CollisionDetector]), and the properties of the specification that concern
    them.

    Modelling conventions.
    - Python floats and numpy float64 values are real numbers ([R]): rounding,
      infinities and NaN are outside this part of the model. The module
      [F64], at the end of the definitions, embeds the numerical code again
      over floats that may be infinite or NaN, for the properties that depend
      on such values.
    - A [datetime] is a count of microseconds on the UTC time line, a
      [timedelta] a signed count of microseconds; the calendar range of
      Python's [datetime] is not modelled.
    - The skyfield library is a parameter: a loaded [EarthSatellite] carries
      its own propagator [sat_at], and the TLE file loader is a field of the
      world.
    - Python exceptions are values of [exn]; every method is a computation in
      the monad [M] over the [world], which holds the two objects, the wall
      clock read by [datetime.utcnow()] and the standard output. *)

From Stdlib Require Import Reals Lra Lia ZArith.
From stdpp Require Import gmap strings list pretty.

Local Open Scope string_scope.
Local Open Scope Z_scope.

(** ** Numbers *)

Module Num.

(** Comparison of two floats, as a boolean. *)
Definition ltb (x y : R) : bool := if Rlt_dec x y then true else false.

(** Floor of a real number. *)
Definition floor (r : R) : Z := Int_part r.

(** Rounding to the nearest integer, ties to even: Python's [round]. *)
Definition round_half_even (r : R) : Z :=
  let f := floor r in
  let d := (r - IZR f)%R in
  if ltb d (1 / 2) then f
  else if ltb (1 / 2) d then f + 1
  else if Z.even f then f else f + 1.

End Num.

(** ** Time *)

(** [datetime]: microseconds on the UTC time line. *)
Definition datetime := Z.

(** [timedelta]: a signed number of microseconds. *)
Definition timedelta := Z.

(** [timedelta(hours=h)]: the constructor rounds to whole microseconds. *)
Definition timedelta_hours (h : R) : timedelta :=
  Num.round_half_even (h * 3600000000).

(** [d + td] on a datetime and a timedelta. *)
Definition datetime_add (d : datetime) (td : timedelta) : datetime := d + td.

(** A skyfield [Time] as the code builds it: whole seconds of UTC. *)
Definition Time := Z.

(** [ts.utc(d.year, d.month, d.day, d.hour, d.minute, d.second)]: the
    microsecond field of [d] is dropped. *)
Definition ts_utc (d : datetime) : Time := d / 1000000.

(** ** Exceptions and outcomes *)

(** A Python exception: its class name and its message ([str(e)]). *)
Inductive exn := Exn (cls : string) (msg : string).

Definition exn_str (e : exn) : string := let 'Exn _ m := e in m.

Definition ValueError (msg : string) : exn := Exn "ValueError" msg.
Definition IndexError (msg : string) : exn := Exn "IndexError" msg.

Inductive outcome (A : Type) :=
| Ok (a : A)
| Raise (e : exn).
Arguments Ok {A} a.
Arguments Raise {A} e.

(** ** Satellites, the two objects and the world *)

Definition vec3 : Type := R * R * R.

(** A skyfield [EarthSatellite]: its name, its epoch and its propagator
    [satellite.at(t)], which yields [geocentric.position.km]. *)
Record EarthSatellite := {
  sat_name : string;
  sat_epoch : Time;
  sat_at : Time -> outcome vec3
}.

Record SatelliteOrbitPredictor := {
  satellites : gmap string EarthSatellite
}.

Record CollisionDetector := {
  warning_distance_km : R;
  earth_radius : R
}.

(** [CollisionDetector.__init__]. *)
Definition CollisionDetector_init (warning_distance_km : R) : CollisionDetector :=
  {| warning_distance_km := warning_distance_km; earth_radius := 6371 |}.

(** [SatelliteOrbitPredictor.__init__]; the timescale [self.ts] is the
    library's and carries no state of the model. *)
Definition SatelliteOrbitPredictor_init : SatelliteOrbitPredictor :=
  {| satellites := ∅ |}.

Record world := World {
  predictor : SatelliteOrbitPredictor;
  detector : CollisionDetector;
  (** what skyfield's [load.tle_file] returns for a path *)
  tle_file : string -> outcome (list EarthSatellite);
  (** [now k] is the value of the [k]-th call of [datetime.utcnow()] *)
  now : nat -> datetime;
  (** number of clock readings so far *)
  ticks : nat;
  stdout : list string
}.

(** ** The monad of methods *)

Definition M (A : Type) : Type := world -> outcome A * world.

Definition ret {A} (a : A) : M A := fun w => (Ok a, w).
Definition raise {A} (e : exn) : M A := fun w => (Raise e, w).

Definition bind {A B} (m : M A) (k : A -> M B) : M B :=
  fun w => match m w with
           | (Ok a, w') => k a w'
           | (Raise e, w') => (Raise e, w')
           end.

(** [try: m except Exception as e: h e]. *)
Definition try_except {A} (m : M A) (h : exn -> M A) : M A :=
  fun w => match m w with
           | (Ok a, w') => (Ok a, w')
           | (Raise e, w') => h e w'
           end.

Definition lift {A} (o : outcome A) : M A := fun w => (o, w).

(** The monad operations as stdpp instances, which gives the do-notation
    [x ← m; k]. *)
#[global] Instance M_ret : MRet M := @ret.
#[global] Instance M_bind : MBind M := fun A B k m => bind m k.

Definition get_predictor : M SatelliteOrbitPredictor := fun w => (Ok (predictor w), w).
Definition get_detector : M CollisionDetector := fun w => (Ok (detector w), w).

Definition set_predictor (p : SatelliteOrbitPredictor) : M unit :=
  fun w => (Ok tt, World p (detector w) (tle_file w) (now w) (ticks w) (stdout w)).

(** [datetime.utcnow()]. *)
Definition utcnow : M datetime :=
  fun w => (Ok (now w (ticks w)),
            World (predictor w) (detector w) (tle_file w) (now w) (S (ticks w)) (stdout w)).

(** [print(s)]. *)
Definition print (s : string) : M unit :=
  fun w => (Ok tt,
            World (predictor w) (detector w) (tle_file w) (now w) (ticks w) (stdout w ++ [s])%list).

(** [load.tle_file(path)]. *)
Definition load_dot_tle_file (path : string) : M (list EarthSatellite) :=
  fun w => (tle_file w path, w).

(** [l[i]] for a non-negative index. *)
Definition getitem {A} (l : list A) (i : nat) : outcome A :=
  match l !! i with
  | Some a => Ok a
  | None => Raise (IndexError "index out of bounds")
  end.

(** [for x in l: s = body(x, s)], leaving the loop at the first exception. *)
Fixpoint for_each {A S} (l : list A) (body : A -> S -> M S) (s : S) : M S :=
  match l with
  | [] => ret s
  | x :: l' => s' ← body x s; for_each l' body s'
  end.

(** ** numpy *)

(** [np.linspace(start, stop, num)] (endpoint included): [num] samples
    [start + i * step] with [step = (stop - start) / (num - 1)], the last one
    set to [stop]; a negative [num] is refused. With [num = 1] the step is
    undefined and the only sample is [start + 0 * (stop - start)]. (numpy's
    separate path for a zero step computes the same real numbers.) *)
Definition np_linspace (start stop : R) (num : Z) : outcome (list R) :=
  if num <? 0 then
    Raise (ValueError ("Number of samples, " +:+ pretty num +:+ ", must be non-negative."))
  else
    let div := num - 1 in
    let delta := (stop - start)%R in
    let y := map (fun i : nat => IZR (Z.of_nat i)) (seq 0 (Z.to_nat num)) in
    let y := if 0 <? div
             then (let step := (delta / IZR div)%R in map (fun v => (v * step)%R) y)
             else map (fun v => (v * delta)%R) y in
    let y := map (fun v => (v + start)%R) y in
    Ok (if 1 <? num then <[Nat.pred (Z.to_nat num) := stop]> y else y).

(** [np.argmin(a)]: the first index of the least element. *)
Fixpoint argmin_from (l : list R) (i : nat) (best : R) (best_i : nat) : nat :=
  match l with
  | [] => best_i
  | x :: l' =>
      if Num.ltb x best then argmin_from l' (S i) x i
      else argmin_from l' (S i) best best_i
  end.

Definition np_argmin (a : list R) : outcome nat :=
  match a with
  | [] => Raise (ValueError "attempt to get argmin of an empty sequence")
  | x :: l => Ok (argmin_from l 1 x 0)
  end.

(** [a < b] on an array and a scalar: the boolean mask. *)
Definition np_less (a : list R) (b : R) : list bool :=
  map (fun x => Num.ltb x b) a.

(** [np.where(mask)[0]]: the indices at which the mask is true. *)
Fixpoint where_from (i : nat) (mask : list bool) : list nat :=
  match mask with
  | [] => []
  | b :: mask' => if b then i :: where_from (S i) mask' else where_from (S i) mask'
  end.

Definition np_where (mask : list bool) : list nat := where_from 0 mask.

(** ** src/orbit_predictor.py *)

(** The three coordinate arrays [(x, y, z)] of a sampled orbit. *)
Definition path : Type := list R * list R * list R.

(** [SatelliteOrbitPredictor.load_tle_file]. *)
Definition load_tle_file (tle_filepath : string) : M (gmap string EarthSatellite) :=
  _ ← print ("Loading TLE file: " +:+ tle_filepath);
  sats ← load_dot_tle_file tle_filepath;
  _ ← for_each sats
        (fun sat _ =>
           self ← get_predictor;
           set_predictor {| satellites := <[sat_name sat := sat]> (satellites self) |})
        tt;
  _ ← print ("Loaded " +:+ pretty (length sats) +:+ " satellites");
  mret (foldl (fun d sat => <[sat_name sat := sat]> d) ∅ sats).

(** [SatelliteOrbitPredictor.predict_position]. *)
Definition predict_position (satellite_name : string) (time_utc : datetime) : M vec3 :=
  self ← get_predictor;
  match satellites self !! satellite_name with
  | None => raise (ValueError ("Satellite '" +:+ satellite_name +:+ "' not found"))
  | Some satellite =>
      let t := ts_utc time_utc in
      lift (sat_at satellite t)
  end.

(** [SatelliteOrbitPredictor.generate_orbit_path]. *)
Definition generate_orbit_path (satellite_name : string) (duration_hours : R)
    (points : Z) : M path :=
  self ← get_predictor;
  match satellites self !! satellite_name with
  | None => raise (ValueError ("Satellite '" +:+ satellite_name +:+ "' not found"))
  | Some satellite =>
      start_time ← utcnow;
      time_deltas ← lift (np_linspace 0 duration_hours points);
      positions ← for_each time_deltas
        (fun delta positions =>
           let dt := datetime_add start_time (timedelta_hours delta) in
           let t := ts_utc dt in
           km ← lift (sat_at satellite t);
           mret (positions ++ [km])%list)
        [];
      (* positions[:, 0] on the array of an empty list has one dimension only *)
      match positions with
      | [] => raise (IndexError "too many indices for array")
      | _ => mret (map (fun p : vec3 => p.1.1) positions,
                   map (fun p : vec3 => p.1.2) positions,
                   map (fun p : vec3 => p.2) positions)
      end
  end.

(** ** src/collision_detector.py *)

(** The values stored in the result dictionary. *)
Inductive value :=
| VStr (s : string)
| VInt (n : Z)
| VFloat (r : R)
| VDatetime (d : datetime)
| VArray (a : list R)
| VList (l : list datetime).

(** [CollisionDetector.calculate_distance]. *)
Definition calculate_distance (pos1 pos2 : vec3) : R :=
  let '(x1, y1, z1) := pos1 in
  let '(x2, y2, z2) := pos2 in
  sqrt ((x2 - x1) ^ 2 + (y2 - y1) ^ 2 + (z2 - z1) ^ 2).

(** The loop of [analyze_close_approach] over [range(len(x1))]: one distance
    and one time per index. *)
Definition sample_loop (p1 p2 : path) (start_time : datetime) (duration_hours : R)
    (points : Z) : M (list R * list datetime) :=
  let '(x1, y1, z1) := p1 in
  let '(x2, y2, z2) := p2 in
  for_each (seq 0 (length x1))
    (fun i '(distances, times) =>
       a1 ← lift (getitem x1 i);
       b1 ← lift (getitem y1 i);
       c1 ← lift (getitem z1 i);
       a2 ← lift (getitem x2 i);
       b2 ← lift (getitem y2 i);
       c2 ← lift (getitem z2 i);
       let distance := calculate_distance (a1, b1, c1) (a2, b2, c2) in
       let time_delta := (duration_hours * INR i / IZR points)%R in
       mret ((distances ++ [distance])%list,
             (times ++ [datetime_add start_time (timedelta_hours time_delta)])%list))
    ([], []).

(** The relative velocity at the closest approach (lines 69-80). *)
Definition relative_velocity_at (distances : list R) (min_distance_idx : nat)
    (duration_hours : R) (points : Z) : M value :=
  if (0 <? Z.of_nat min_distance_idx)
     && (Z.of_nat min_distance_idx <? Z.of_nat (length distances) - 1)
  then
    let dt := (duration_hours / IZR points)%R in
    let dt_seconds := (dt * 3600)%R in
    dist_before ← lift (getitem distances (min_distance_idx - 1));
    dist_after ← lift (getitem distances (min_distance_idx + 1));
    mret (VFloat (Rabs (dist_after - dist_before) / (2 * dt_seconds)))
  else mret (VInt 0).

(** The three-tier risk label (line 88). *)
Definition collision_risk (min_distance : R) : string :=
  if Num.ltb min_distance 1 then "HIGH"
  else if Num.ltb min_distance 5 then "MEDIUM"
  else "LOW".

(** [CollisionDetector.analyze_close_approach]. The [try] block yields the two
    paths; the [except] branch leaves the method with the error dictionary. *)
Definition analyze_close_approach (sat1_name sat2_name : string) (duration_hours : R)
    (points : Z) : M (gmap string value) :=
  r ← try_except
        (p1 ← generate_orbit_path sat1_name duration_hours points;
         p2 ← generate_orbit_path sat2_name duration_hours points;
         mret (inl (p1, p2)))
        (fun e => mret (inr ({[ "error" := VStr ("Could not generate orbits: " +:+ exn_str e) ]}
                              : gmap string value)));
  match r with
  | inr d => mret d
  | inl (p1, p2) =>
      start_time ← utcnow;
      '(distances, times) ← sample_loop p1 p2 start_time duration_hours points;
      min_distance_idx ← lift (np_argmin distances);
      min_distance ← lift (getitem distances min_distance_idx);
      closest_time ← lift (getitem times min_distance_idx);
      self ← get_detector;
      let warning_indices := np_where (np_less distances (warning_distance_km self)) in
      relative_velocity ← relative_velocity_at distances min_distance_idx duration_hours points;
      mret (<["satellite_1" := VStr sat1_name]>
           (<["satellite_2" := VStr sat2_name]>
           (<["min_distance_km" := VFloat min_distance]>
           (<["closest_approach_time" := VDatetime closest_time]>
           (<["relative_velocity_km_s" := relative_velocity]>
           (<["collision_risk" := VStr (collision_risk min_distance)]>
           (<["warning_periods" := VInt (Z.of_nat (length warning_indices))]>
           (<["all_distances" := VArray distances]>
           (<["times" := VList times]> ∅)))))))))
  end.

(** ** Specification functions

    Pure descriptions of what the methods compute, against which the
    monadic definitions above are proved. *)

#[global] Instance R_inhabited : Inhabited R := populate 0%R.

(** The world after [k] further readings of the clock. *)
Definition advance (k : nat) (w : world) : world :=
  World (predictor w) (detector w) (tle_file w) (now w) (k + ticks w)%nat (stdout w).

(** The number of clock readings of a call of [generate_orbit_path]. *)
Definition reads (sats : gmap string EarthSatellite) (satellite_name : string) : nat :=
  match sats !! satellite_name with Some _ => 1 | None => 0 end.

(** The whole second at which the sample of offset [delta] hours is taken. *)
Definition sample_second (start_time : datetime) (delta : R) : Time :=
  ts_utc (datetime_add start_time (timedelta_hours delta)).

(** The positions of a satellite at the given hour offsets, up to the first
    failure of the propagator. *)
Fixpoint positions_at (sat : EarthSatellite) (start_time : datetime)
    (deltas : list R) : outcome (list vec3) :=
  match deltas with
  | [] => Ok []
  | delta :: deltas' =>
      match sat_at sat (sample_second start_time delta) with
      | Raise e => Raise e
      | Ok km =>
          match positions_at sat start_time deltas' with
          | Raise e => Raise e
          | Ok l => Ok (km :: l)
          end
      end
  end.

(** The path that [generate_orbit_path] yields when the clock reads
    [start_time]. *)
Definition orbit_path_of (sats : gmap string EarthSatellite) (satellite_name : string)
    (start_time : datetime) (duration_hours : R) (points : Z) : outcome path :=
  match sats !! satellite_name with
  | None => Raise (ValueError ("Satellite '" +:+ satellite_name +:+ "' not found"))
  | Some sat =>
      match np_linspace 0 duration_hours points with
      | Raise e => Raise e
      | Ok deltas =>
          match positions_at sat start_time deltas with
          | Raise e => Raise e
          | Ok [] => Raise (IndexError "too many indices for array")
          | Ok ps => Ok (map (fun p : vec3 => p.1.1) ps,
                         map (fun p : vec3 => p.1.2) ps,
                         map (fun p : vec3 => p.2) ps)
          end
      end
  end.

(** The distance at every paired sample index. *)
Definition pair_distances (p1 p2 : path) : list R :=
  let '(x1, y1, z1) := p1 in
  let '(x2, y2, z2) := p2 in
  map (fun i => calculate_distance (x1 !!! i, y1 !!! i, z1 !!! i)
                                   (x2 !!! i, y2 !!! i, z2 !!! i))
      (seq 0 (length x1)).

(** The times the analysis attaches to the [n] samples. *)
Definition sample_times (start_time : datetime) (duration_hours : R) (points : Z)
    (n : nat) : list datetime :=
  map (fun i => datetime_add start_time
                  (timedelta_hours (duration_hours * INR i / IZR points)))
      (seq 0 n).

(** The first index of the least element, [0] on the empty list. *)
Definition argmin (l : list R) : nat :=
  match l with
  | [] => 0%nat
  | x :: l' => argmin_from l' 1 x 0
  end.

(** The reported relative velocity. *)
Definition relative_velocity_of (distances : list R) (duration_hours : R) (points : Z)
    : value :=
  let i := argmin distances in
  if (0 <? Z.of_nat i) && (Z.of_nat i <? Z.of_nat (length distances) - 1)
  then VFloat (Rabs (distances !!! (i + 1)%nat - distances !!! (i - 1)%nat)
               / (2 * (duration_hours / IZR points * 3600)))
  else VInt 0.

(** The result dictionary of a successful analysis. *)
Definition result_dict (sat1_name sat2_name : string) (distances : list R)
    (times : list datetime) (warning : R) (duration_hours : R) (points : Z)
    : gmap string value :=
  let i := argmin distances in
  <["satellite_1" := VStr sat1_name]>
  (<["satellite_2" := VStr sat2_name]>
  (<["min_distance_km" := VFloat (distances !!! i)]>
  (<["closest_approach_time" := VDatetime (times !!! i)]>
  (<["relative_velocity_km_s" := relative_velocity_of distances duration_hours points]>
  (<["collision_risk" := VStr (collision_risk (distances !!! i))]>
  (<["warning_periods" :=
       VInt (Z.of_nat (length (np_where (np_less distances warning))))]>
  (<["all_distances" := VArray distances]>
  (<["times" := VList times]> ∅)))))))).

(** The dictionary returned when a path cannot be generated. *)
Definition error_dict (e : exn) : gmap string value :=
  {[ "error" := VStr ("Could not generate orbits: " +:+ exn_str e) ]}.

(** ** Concrete catalogs and worlds used to run the methods *)

Module Scenario.

(** An object moving along the x axis: 100, 50, 2, 60 and 120 km from the
    origin in the successive hours after the second 0. *)
Definition sat_A : EarthSatellite := {|
  sat_name := "A";
  sat_epoch := 0;
  sat_at := fun t =>
    Ok (match (t / 3600)%Z with
        | 0%Z => 100 | 1%Z => 50 | 2%Z => 2 | 3%Z => 60 | _ => 120
        end, 0, 0)%R
|}.

(** An object at rest at the origin. *)
Definition sat_B : EarthSatellite := {|
  sat_name := "B";
  sat_epoch := 0;
  sat_at := fun _ => Ok (0, 0, 0)%R
|}.

Definition catalog : gmap string EarthSatellite :=
  <["A" := sat_A]> (<["B" := sat_B]> ∅).

Definition no_file (path : string) : outcome (list EarthSatellite) :=
  Raise (Exn "FileNotFoundError" path).

(** Both objects loaded, warning distance 10 km, a clock that reads the
    instant 0 at every call. *)
Definition still : world :=
  World {| satellites := catalog |} (CollisionDetector_init 10) no_file
        (fun _ => 0) 0 [].

(** The same with a clock that advances by one second between readings. *)
Definition ticking : world :=
  World {| satellites := catalog |} (CollisionDetector_init 10) no_file
        (fun k => Z.of_nat k * 1000000) 0 [].

(** The same as [still] with warning distance 0. *)
Definition silent : world :=
  World {| satellites := catalog |} (CollisionDetector_init 0) no_file
        (fun _ => 0) 0 [].

(** The hour offsets, the sampled seconds and the analysis times of a window
    of 4 hours with 5 points starting at the instant 0. *)
Definition deltas : list R := [0; 1; 2; 3; 4]%R.
Definition distances : list R := [100; 50; 2; 60; 120]%R.
Definition zeros : list R := [0; 0; 0; 0; 0]%R.
Definition times : list datetime :=
  [0; 2880000000; 5760000000; 8640000000; 11520000000].

End Scenario.

Module Reload.

Definition iss : EarthSatellite :=
  {| sat_name := "ISS (ZARYA)"; sat_epoch := 0; sat_at := fun _ => Ok (6800, 0, 0)%R |}.

Definition hubble : EarthSatellite :=
  {| sat_name := "HST"; sat_epoch := 0; sat_at := fun _ => Ok (0, 6900, 0)%R |}.

Definition files (path : string) : outcome (list EarthSatellite) :=
  if decide (path = "stations.tle") then Ok [iss]
  else if decide (path = "science.tle") then Ok [hubble]
  else Raise (Exn "FileNotFoundError" path).

(** A fresh predictor and detector, before any load. *)
Definition fresh : world :=
  World SatelliteOrbitPredictor_init (CollisionDetector_init 10) files (fun _ => 0) 0 [].

End Reload.

(** ** Specification functions for the catalog *)

(** The catalog after storing the satellites of a list one by one. *)
Definition store_all (c : gmap string EarthSatellite) (sats : list EarthSatellite)
    : gmap string EarthSatellite :=
  foldl (fun d sat => <[sat_name sat := sat]> d) c sats.

(** The last satellite of a list that bears a name. *)
Definition last_named (name : string) (sats : list EarthSatellite)
    : option EarthSatellite :=
  last (filter (fun sat => sat_name sat = name) sats).

(** The world with a new catalog. *)
Definition with_catalog (c : gmap string EarthSatellite) (w : world) : world :=
  World {| satellites := c |} (detector w) (tle_file w) (now w) (ticks w) (stdout w).

(** The world after printing some lines. *)
Definition printed (out : list string) (w : world) : world :=
  World (predictor w) (detector w) (tle_file w) (now w) (ticks w)
        (stdout w ++ out)%list.

(** ** Exceptions without state *)

(** Functions that touch no state return an [outcome] directly. *)
#[global] Instance outcome_ret : MRet outcome := @Ok.
#[global] Instance outcome_bind : MBind outcome :=
  fun A B k o => match o with Ok a => k a | Raise e => Raise e end.

(** ** More of numpy *)

(** [np.max(a)] and [np.min(a)]: reductions with no identity, refused on an
    empty array. *)
Definition np_max (a : list R) : outcome R :=
  match a with
  | [] => Raise (ValueError
            "zero-size array to reduction operation maximum which has no identity")
  | x :: l => Ok (fold_left Rmax l x)
  end.

Definition np_min (a : list R) : outcome R :=
  match a with
  | [] => Raise (ValueError
            "zero-size array to reduction operation minimum which has no identity")
  | x :: l => Ok (fold_left Rmin l x)
  end.

(** [np.sign(a)]: -1, 0 or 1 for each element. *)
Definition sign (x : R) : R :=
  if Num.ltb x 0 then (-1)%R else if Num.ltb 0 x then 1%R else 0%R.

Definition np_sign (a : list R) : list R := map sign a.

(** [np.diff(a)]: the differences [a[i+1] - a[i]]. *)
Fixpoint np_diff (a : list R) : list R :=
  match a with
  | x :: (y :: _) as l => (y - x)%R :: np_diff l
  | _ => []
  end.

(** [x != b] on floats, and [a != b] on an array and a scalar. *)
Definition float_neb (x b : R) : bool := if Req_dec_T x b then false else true.

Definition np_not_equal (a : list R) (b : R) : list bool :=
  map (fun x => float_neb x b) a.

(** [np.sum(mask)] on a boolean array: the number of true entries. *)
Definition np_sum_bool (mask : list bool) : Z :=
  Z.of_nat (length (filter (fun b : bool => b = true) mask)).

(** ** src/ground_track.py *)

(** [GroundTrackCalculator.analyze_coverage]. The entries of the dictionary
    literal are evaluated in their order, so the first reduction of an empty
    array raises. *)
Definition analyze_coverage (latitudes longitudes : list R)
    : outcome (gmap string value) :=
  max_latitude ← np_max latitudes;
  min_latitude ← np_min latitudes;
  range_max ← np_max latitudes;
  range_min ← np_min latitudes;
  span_max ← np_max longitudes;
  span_min ← np_min longitudes;
  let equatorial_crossings :=
    np_sum_bool (np_not_equal (np_diff (np_sign latitudes)) 0) in
  mret (<["max_latitude" := VFloat max_latitude]>
       (<["min_latitude" := VFloat min_latitude]>
       (<["latitude_range" := VFloat (range_max - range_min)]>
       (<["longitude_span" := VFloat (span_max - span_min)]>
       (<["equatorial_crossings" := VInt equatorial_crossings]>
       (<["total_points" := VInt (Z.of_nat (length latitudes))]>
          (∅ : gmap string value))))))).

Section ground_track.

(** skyfield's [geocentric.subpoint()]: the latitude and the longitude, in
    degrees, of the point below a position at a time. *)
Variable subpoint : Time -> vec3 -> R * R.

(** [GroundTrackCalculator.calculate_ground_track]; the [predictor] argument
    is the predictor of the world. *)
Definition calculate_ground_track (satellite_name : string) (duration_hours : R)
    (points : Z) : M (list R * list R) :=
  predictor ← get_predictor;
  match satellites predictor !! satellite_name with
  | None => raise (ValueError ("Satellite '" +:+ satellite_name +:+ "' not found"))
  | Some satellite =>
      start_time ← utcnow;
      time_deltas ← lift (np_linspace 0 duration_hours points);
      '(latitudes, longitudes) ← for_each time_deltas
        (fun delta '(latitudes, longitudes) =>
           let dt := datetime_add start_time (timedelta_hours delta) in
           let t := ts_utc dt in
           geocentric ← lift (sat_at satellite t);
           let sp := subpoint t geocentric in
           mret ((latitudes ++ [sp.1])%list, (longitudes ++ [sp.2])%list))
        ([], []);
      mret (latitudes, longitudes)
  end.

End ground_track.

(** ** Specification functions for the ground track *)

(** The track that [calculate_ground_track] yields when the clock reads
    [start_time]: the subpoints of the positions at the sampled seconds. *)
Definition ground_track_of (subpoint : Time -> vec3 -> R * R)
    (sats : gmap string EarthSatellite) (satellite_name : string)
    (start_time : datetime) (duration_hours : R) (points : Z)
    : outcome (list R * list R) :=
  match sats !! satellite_name with
  | None => Raise (ValueError ("Satellite '" +:+ satellite_name +:+ "' not found"))
  | Some sat =>
      match np_linspace 0 duration_hours points with
      | Raise e => Raise e
      | Ok deltas =>
          match positions_at sat start_time deltas with
          | Raise e => Raise e
          | Ok ps =>
              let track :=
                zip_with (fun delta p => subpoint (sample_second start_time delta) p)
                         deltas ps in
              Ok (map fst track, map snd track)
          end
      end
  end.

(** ** src/collision_detector.py: the report *)

(** The line feed. *)
Definition nl : string := String (Ascii.ascii_of_nat 10) EmptyString.

(** [d[k]] on a dictionary: a [KeyError] whose text is the quoted key. *)
Definition dict_getitem (d : gmap string value) (k : string) : outcome value :=
  match d !! k with
  | Some v => Ok v
  | None => Raise (Exn "KeyError" ("'" +:+ k +:+ "'"))
  end.

(** The three recommendation texts of [generate_collision_report]. *)
Definition recommend_high : string :=
  "• IMMEDIATE ATTENTION REQUIRED" +:+ nl +:+
  "• Consider avoidance maneuver" +:+ nl +:+
  "• Continuous monitoring recommended".

Definition recommend_medium : string :=
  "• Increased monitoring recommended" +:+ nl +:+
  "• Prepare contingency plans" +:+ nl +:+
  "• Track approach closely".

Definition recommend_low : string :=
  "• Normal operations can continue" +:+ nl +:+
  "• Routine monitoring sufficient".

Section report.

(** The renderings of Python and numpy, taken as they are: [fixed n x] is
    [format(x, '.nf')] for a float, [strftime d fmt] is [d.strftime(fmt)],
    [render v] is [str(v)] for a value that is not a string, [type_name v] is
    the name of its type, and [array_is a s] is the truth of [a == s] on an
    array and a string when an [if] tests it. *)
Variable fixed : nat -> R -> string.
Variable strftime : datetime -> string -> string.
Variable render : value -> string.
Variable type_name : value -> string.
Variable array_is : list R -> string -> outcome bool.

(** [str(v)], which a replacement field without a format applies. *)
Definition py_str (v : value) : string :=
  match v with
  | VStr s => s
  | _ => render v
  end.

(** [format(v, '.nf')]: numbers are rendered, a string has no code [f], a
    datetime takes the format as a [strftime] pattern, and lists and arrays
    accept no format. *)
Definition format_f (digits : nat) (v : value) : outcome string :=
  match v with
  | VFloat r => Ok (fixed digits r)
  | VInt n => Ok (fixed digits (IZR n))
  | VStr _ => Raise (ValueError "Unknown format code 'f' for object of type 'str'")
  | VDatetime d => Ok (strftime d ("." +:+ pretty digits +:+ "f"))
  | VArray _ =>
      Raise (Exn "TypeError"
               "unsupported format string passed to numpy.ndarray.__format__")
  | VList _ =>
      Raise (Exn "TypeError" "unsupported format string passed to list.__format__")
  end.

(** [v.strftime(fmt)]: only a datetime has the method. *)
Definition call_strftime (v : value) (fmt : string) : outcome string :=
  match v with
  | VDatetime d => Ok (strftime d fmt)
  | _ => Raise (Exn "AttributeError"
                  ("'" +:+ type_name v +:+ "' object has no attribute 'strftime'"))
  end.

(** The test [v == s] of an [if] for a string [s]. *)
Definition eq_str (v : value) (s : string) : outcome bool :=
  match v with
  | VStr s' => Ok (bool_decide (s' = s))
  | VArray a => array_is a s
  | _ => Ok false
  end.

(** [CollisionDetector.generate_collision_report]. *)
Definition generate_collision_report (analysis_result : gmap string value) : M string :=
  if bool_decide (is_Some (analysis_result !! "error")) then
    e ← lift (dict_getitem analysis_result "error");
    mret ("ERROR: " +:+ py_str e)
  else
    satellite_1 ← lift (dict_getitem analysis_result "satellite_1");
    satellite_2 ← lift (dict_getitem analysis_result "satellite_2");
    collision_risk ← lift (dict_getitem analysis_result "collision_risk");
    min_distance_km ← lift (dict_getitem analysis_result "min_distance_km");
    min_distance_text ← lift (format_f 2 min_distance_km);
    closest_approach_time ← lift (dict_getitem analysis_result "closest_approach_time");
    closest_text ← lift (call_strftime closest_approach_time "%Y-%m-%d %H:%M:%S UTC");
    relative_velocity ← lift (dict_getitem analysis_result "relative_velocity_km_s");
    relative_velocity_text ← lift (format_f 3 relative_velocity);
    let report :=
      nl +:+ "=== SATELLITE COLLISION ANALYSIS REPORT ===" +:+ nl +:+
      nl +:+ "Satellites Analyzed:" +:+ nl +:+
      "- Primary: " +:+ py_str satellite_1 +:+ nl +:+
      "- Secondary: " +:+ py_str satellite_2 +:+ nl +:+
      nl +:+ "COLLISION ASSESSMENT:" +:+ nl +:+
      "- Risk Level: " +:+ py_str collision_risk +:+ nl +:+
      "- Minimum Distance: " +:+ min_distance_text +:+ " km" +:+ nl +:+
      "- Time of Closest Approach: " +:+ closest_text +:+ nl +:+
      "- Relative Velocity: " +:+ relative_velocity_text +:+ " km/s" +:+ nl +:+
      nl +:+ "RECOMMENDATIONS:" +:+ nl in
    risk ← lift (dict_getitem analysis_result "collision_risk");
    is_high ← lift (eq_str risk "HIGH");
    report ← (if is_high : bool then mret (report +:+ recommend_high)
              else
                risk ← lift (dict_getitem analysis_result "collision_risk");
                is_medium ← lift (eq_str risk "MEDIUM");
                if is_medium : bool then mret (report +:+ recommend_medium)
                else mret (report +:+ recommend_low));
    completed ← utcnow;
    mret (report +:+ nl +:+ nl +:+ "Analysis completed at: "
          +:+ strftime completed "%Y-%m-%d %H:%M:%S UTC").

End report.

(** The recommendation text that belongs to a minimum distance. *)
Definition recommendation_for (min_distance : R) : string :=
  if Num.ltb min_distance 1 then recommend_high
  else if Num.ltb min_distance 5 then recommend_medium
  else recommend_low.

(** Stand-ins for the renderings of the library, used to run the report on
    the concrete worlds: every number and every date is shown as a mark. *)
Module Marks.

Definition fixed (digits : nat) (x : R) : string := "#".
Definition strftime (d : datetime) (fmt : string) : string := "@".
Definition render (v : value) : string := "?".
Definition type_name (v : value) : string := "object".
Definition array_is (a : list R) (s : string) : outcome bool := Ok false.

End Marks.

(** A world whose only satellite has a propagator that always fails. *)
Module Failing.

Definition sat_F : EarthSatellite := {|
  sat_name := "F";
  sat_epoch := 0;
  sat_at := fun _ => Raise (Exn "RuntimeError" "propagation failed")
|}.

Definition world_F : world :=
  World {| satellites := <["F" := sat_F]> ∅ |} (CollisionDetector_init 10)
        Scenario.no_file (fun _ => 0) 0 [].

End Failing.

(** A stand-in for the library's subpoint, used to run the ground track on
    the concrete worlds: the x and y coordinates taken as degrees. *)
Definition flat_subpoint (t : Time) (p : vec3) : R * R := (p.1.1, p.1.2).

(** ** Floats that may be infinite or NaN

    The definitions above compute with real numbers. skyfield's propagator
    raises nothing when SGP4 fails for a time: it returns a position whose
    coordinates are NaN. The module [F64] embeds the same lines of
    [generate_orbit_path], [calculate_distance], [analyze_close_approach] and
    [analyze_coverage] over floats that are a real number, an infinity or
    NaN, with the arithmetic and the comparisons of IEEE 754 on the two
    infinities and on NaN. The arithmetic of finite values stays exact:
    rounding, overflow and underflow are not modelled. The clock and the
    detector are those of the [world]; the predictor is the argument
    [predictor] of the methods of the source. *)

Module F64.

Inductive float :=
| Real (r : R)
| PInf
| NInf
| NaN.

#[global] Instance float_inhabited : Inhabited float := populate NaN.

(** [np.isnan] and [np.isfinite]. *)
Definition isnan (a : float) : bool :=
  match a with NaN => true | _ => false end.

Definition isfinite (a : float) : bool :=
  match a with Real _ => true | _ => false end.

(** [a - b]. *)
Definition sub (a b : float) : float :=
  match a, b with
  | NaN, _ | _, NaN => NaN
  | Real x, Real y => Real (x - y)
  | PInf, PInf | NInf, NInf => NaN
  | PInf, _ | _, NInf => PInf
  | NInf, _ | _, PInf => NInf
  end.

(** [a + b]. *)
Definition add (a b : float) : float :=
  match a, b with
  | NaN, _ | _, NaN => NaN
  | Real x, Real y => Real (x + y)
  | PInf, NInf | NInf, PInf => NaN
  | PInf, _ | _, PInf => PInf
  | NInf, _ | _, NInf => NInf
  end.

(** [a ** 2]. *)
Definition square (a : float) : float :=
  match a with
  | Real x => Real (x ^ 2)
  | PInf | NInf => PInf
  | NaN => NaN
  end.

(** [np.sqrt(a)]: NaN below zero. *)
Definition sqrt (a : float) : float :=
  match a with
  | Real x => if Num.ltb x 0 then NaN else Real (Stdlib.Reals.R_sqrt.sqrt x)
  | PInf => PInf
  | NInf | NaN => NaN
  end.

(** [abs(a)]. *)
Definition abs (a : float) : float :=
  match a with
  | Real x => Real (Rabs x)
  | PInf | NInf => PInf
  | NaN => NaN
  end.

(** [a / b] for a numpy float [a] and a finite Python float [b]; a zero [b]
    gives NaN for [0 / 0] and an infinity otherwise. *)
Definition div (a : float) (b : R) : float :=
  match a with
  | Real x =>
      if Req_dec_T b 0 then
        (if Req_dec_T x 0 then NaN else if Num.ltb x 0 then NInf else PInf)
      else Real (x / b)
  | PInf => if Num.ltb b 0 then NInf else PInf
  | NInf => if Num.ltb b 0 then PInf else NInf
  | NaN => NaN
  end.

(** [a < b] and [a <= b]: false as soon as one side is NaN. *)
Definition ltb (a b : float) : bool :=
  match a, b with
  | NaN, _ | _, NaN => false
  | Real x, Real y => Num.ltb x y
  | _, NInf | PInf, _ => false
  | NInf, _ | _, PInf => true
  end.

Definition leb (a b : float) : bool :=
  match a, b with
  | NaN, _ | _, NaN => false
  | Real x, Real y => negb (Num.ltb y x)
  | NInf, _ | _, PInf => true
  | _, NInf | PInf, _ => false
  end.

(** [a != b]: true as soon as one side is NaN. *)
Definition neb (a b : float) : bool :=
  match a, b with
  | NaN, _ | _, NaN => true
  | Real x, Real y => float_neb x y
  | PInf, PInf | NInf, NInf => false
  | _, _ => true
  end.

(** *** numpy *)

(** [np.argmin(a)]: the first index of the least element; a NaN counts as
    the least, and the scan stops at the first one. *)
Fixpoint argmin_from (l : list float) (i : nat) (best : float) (best_i : nat) : nat :=
  match l with
  | [] => best_i
  | x :: l' =>
      if leb best x then argmin_from l' (S i) best best_i
      else if isnan x then i
      else argmin_from l' (S i) x i
  end.

Definition np_argmin (a : list float) : outcome nat :=
  match a with
  | [] => Raise (ValueError "attempt to get argmin of an empty sequence")
  | x :: l => Ok (if isnan x then 0%nat else argmin_from l 1 x 0)
  end.

(** [a < b] on an array and a scalar. *)
Definition np_less (a : list float) (b : float) : list bool :=
  map (fun x => ltb x b) a.

(** [np.maximum] and [np.minimum] of two floats: a NaN operand is the
    result. *)
Definition maximum (a b : float) : float :=
  if isnan a then a else if isnan b then b else if ltb a b then b else a.

Definition minimum (a b : float) : float :=
  if isnan a then a else if isnan b then b else if ltb b a then b else a.

(** [np.max(a)] and [np.min(a)]. *)
Definition np_max (a : list float) : outcome float :=
  match a with
  | [] => Raise (ValueError
            "zero-size array to reduction operation maximum which has no identity")
  | x :: l => Ok (fold_left maximum l x)
  end.

Definition np_min (a : list float) : outcome float :=
  match a with
  | [] => Raise (ValueError
            "zero-size array to reduction operation minimum which has no identity")
  | x :: l => Ok (fold_left minimum l x)
  end.

(** [np.sign(a)]: -1, 0 or 1, and NaN for NaN. *)
Definition sign (a : float) : float :=
  match a with
  | Real x => Real (sign x)
  | PInf => Real 1
  | NInf => Real (-1)
  | NaN => NaN
  end.

Definition np_sign (a : list float) : list float := map sign a.

(** [np.diff(a)]. *)
Fixpoint np_diff (a : list float) : list float :=
  match a with
  | x :: (y :: _) as l => sub y x :: np_diff l
  | _ => []
  end.

(** [a != b] on an array and a scalar. *)
Definition np_not_equal (a : list float) (b : float) : list bool :=
  map (fun x => neb x b) a.

(** *** src/orbit_predictor.py *)

Definition vec3 : Type := float * float * float.

(** A skyfield [EarthSatellite]: its name and its propagator, which may
    yield NaN coordinates. *)
Record EarthSatellite := {
  sat_name : string;
  sat_at : Time -> outcome vec3
}.

Record SatelliteOrbitPredictor := {
  satellites : gmap string EarthSatellite
}.

Definition path : Type := list float * list float * list float.

(** [SatelliteOrbitPredictor.generate_orbit_path]. *)
Definition generate_orbit_path (self : SatelliteOrbitPredictor)
    (satellite_name : string) (duration_hours : R) (points : Z) : M path :=
  match satellites self !! satellite_name with
  | None => raise (ValueError ("Satellite '" +:+ satellite_name +:+ "' not found"))
  | Some satellite =>
      start_time ← utcnow;
      time_deltas ← lift (np_linspace 0 duration_hours points);
      positions ← for_each time_deltas
        (fun delta positions =>
           let dt := datetime_add start_time (timedelta_hours delta) in
           let t := ts_utc dt in
           km ← lift (sat_at satellite t);
           mret (positions ++ [km])%list)
        [];
      match positions with
      | [] => raise (IndexError "too many indices for array")
      | _ => mret (map (fun p : vec3 => p.1.1) positions,
                   map (fun p : vec3 => p.1.2) positions,
                   map (fun p : vec3 => p.2) positions)
      end
  end.

(** *** src/collision_detector.py *)

Inductive value :=
| VStr (s : string)
| VInt (n : Z)
| VFloat (x : float)
| VDatetime (d : datetime)
| VArray (a : list float)
| VList (l : list datetime).

(** [CollisionDetector.calculate_distance]. *)
Definition calculate_distance (pos1 pos2 : vec3) : float :=
  let '(x1, y1, z1) := pos1 in
  let '(x2, y2, z2) := pos2 in
  sqrt (add (add (square (sub x2 x1)) (square (sub y2 y1))) (square (sub z2 z1))).

(** The loop over [range(len(x1))]. *)
Definition sample_loop (p1 p2 : path) (start_time : datetime) (duration_hours : R)
    (points : Z) : M (list float * list datetime) :=
  let '(x1, y1, z1) := p1 in
  let '(x2, y2, z2) := p2 in
  for_each (seq 0 (length x1))
    (fun i '(distances, times) =>
       a1 ← lift (getitem x1 i);
       b1 ← lift (getitem y1 i);
       c1 ← lift (getitem z1 i);
       a2 ← lift (getitem x2 i);
       b2 ← lift (getitem y2 i);
       c2 ← lift (getitem z2 i);
       let distance := calculate_distance (a1, b1, c1) (a2, b2, c2) in
       let time_delta := (duration_hours * INR i / IZR points)%R in
       mret ((distances ++ [distance])%list,
             (times ++ [datetime_add start_time (timedelta_hours time_delta)])%list))
    ([], []).

(** The relative velocity at the closest approach (lines 69-80). *)
Definition relative_velocity_at (distances : list float) (min_distance_idx : nat)
    (duration_hours : R) (points : Z) : M value :=
  if (0 <? Z.of_nat min_distance_idx)
     && (Z.of_nat min_distance_idx <? Z.of_nat (length distances) - 1)
  then
    let dt := (duration_hours / IZR points)%R in
    let dt_seconds := (dt * 3600)%R in
    dist_before ← lift (getitem distances (min_distance_idx - 1));
    dist_after ← lift (getitem distances (min_distance_idx + 1));
    mret (VFloat (div (abs (sub dist_after dist_before)) (2 * dt_seconds)))
  else mret (VInt 0).

(** The three-tier risk label (line 88). *)
Definition collision_risk (min_distance : float) : string :=
  if ltb min_distance (Real 1) then "HIGH"
  else if ltb min_distance (Real 5) then "MEDIUM"
  else "LOW".

(** [CollisionDetector.analyze_close_approach]. *)
Definition analyze_close_approach (predictor : SatelliteOrbitPredictor)
    (sat1_name sat2_name : string) (duration_hours : R) (points : Z)
    : M (gmap string value) :=
  r ← try_except
        (p1 ← generate_orbit_path predictor sat1_name duration_hours points;
         p2 ← generate_orbit_path predictor sat2_name duration_hours points;
         mret (inl (p1, p2)))
        (fun e => mret (inr ({[ "error" := VStr ("Could not generate orbits: " +:+ exn_str e) ]}
                              : gmap string value)));
  match r with
  | inr d => mret d
  | inl (p1, p2) =>
      start_time ← utcnow;
      '(distances, times) ← sample_loop p1 p2 start_time duration_hours points;
      min_distance_idx ← lift (np_argmin distances);
      min_distance ← lift (getitem distances min_distance_idx);
      closest_time ← lift (getitem times min_distance_idx);
      self ← get_detector;
      let warning_indices :=
        np_where (np_less distances (Real (warning_distance_km self))) in
      relative_velocity ← relative_velocity_at distances min_distance_idx duration_hours points;
      mret (<["satellite_1" := VStr sat1_name]>
           (<["satellite_2" := VStr sat2_name]>
           (<["min_distance_km" := VFloat min_distance]>
           (<["closest_approach_time" := VDatetime closest_time]>
           (<["relative_velocity_km_s" := relative_velocity]>
           (<["collision_risk" := VStr (collision_risk min_distance)]>
           (<["warning_periods" := VInt (Z.of_nat (length warning_indices))]>
           (<["all_distances" := VArray distances]>
           (<["times" := VList times]> ∅)))))))))
  end.

(** *** src/ground_track.py *)

(** [GroundTrackCalculator.analyze_coverage]. *)
Definition analyze_coverage (latitudes longitudes : list float)
    : outcome (gmap string value) :=
  max_latitude ← np_max latitudes;
  min_latitude ← np_min latitudes;
  range_max ← np_max latitudes;
  range_min ← np_min latitudes;
  span_max ← np_max longitudes;
  span_min ← np_min longitudes;
  let equatorial_crossings :=
    np_sum_bool (np_not_equal (np_diff (np_sign latitudes)) (Real 0)) in
  mret (<["max_latitude" := VFloat max_latitude]>
       (<["min_latitude" := VFloat min_latitude]>
       (<["latitude_range" := VFloat (sub range_max range_min)]>
       (<["longitude_span" := VFloat (sub span_max span_min)]>
       (<["equatorial_crossings" := VInt equatorial_crossings]>
       (<["total_points" := VInt (Z.of_nat (length latitudes))]>
          (∅ : gmap string value))))))).

(** *** Specification functions *)

(** Every entry of an array is finite: [np.isfinite(a).all()]. *)
Definition all_finite (a : list float) : bool := forallb isfinite a.

Definition finite_path (p : path) : bool :=
  all_finite p.1.1 && all_finite p.1.2 && all_finite p.2.

(** No entry of an array is NaN. *)
Definition no_nan (a : list float) : bool := forallb (fun x => negb (isnan x)) a.

(** The real number of a finite float. *)
Definition to_R (a : float) : R :=
  match a with Real r => r | _ => 0%R end.

Definition reads (self : SatelliteOrbitPredictor) (satellite_name : string) : nat :=
  match satellites self !! satellite_name with Some _ => 1 | None => 0 end.

Fixpoint positions_at (sat : EarthSatellite) (start_time : datetime)
    (deltas : list R) : outcome (list vec3) :=
  match deltas with
  | [] => Ok []
  | delta :: deltas' =>
      match sat_at sat (sample_second start_time delta) with
      | Raise e => Raise e
      | Ok km =>
          match positions_at sat start_time deltas' with
          | Raise e => Raise e
          | Ok l => Ok (km :: l)
          end
      end
  end.

(** The path that [generate_orbit_path] yields when the clock reads
    [start_time]. *)
Definition orbit_path_of (self : SatelliteOrbitPredictor) (satellite_name : string)
    (start_time : datetime) (duration_hours : R) (points : Z) : outcome path :=
  match satellites self !! satellite_name with
  | None => Raise (ValueError ("Satellite '" +:+ satellite_name +:+ "' not found"))
  | Some sat =>
      match np_linspace 0 duration_hours points with
      | Raise e => Raise e
      | Ok deltas =>
          match positions_at sat start_time deltas with
          | Raise e => Raise e
          | Ok [] => Raise (IndexError "too many indices for array")
          | Ok ps => Ok (map (fun p : vec3 => p.1.1) ps,
                         map (fun p : vec3 => p.1.2) ps,
                         map (fun p : vec3 => p.2) ps)
          end
      end
  end.

Definition pair_distances (p1 p2 : path) : list float :=
  let '(x1, y1, z1) := p1 in
  let '(x2, y2, z2) := p2 in
  map (fun i => calculate_distance (x1 !!! i, y1 !!! i, z1 !!! i)
                                   (x2 !!! i, y2 !!! i, z2 !!! i))
      (seq 0 (length x1)).

Definition argmin (l : list float) : nat :=
  match l with
  | [] => 0%nat
  | x :: l' => if isnan x then 0%nat else argmin_from l' 1 x 0
  end.

Definition relative_velocity_of (distances : list float) (duration_hours : R)
    (points : Z) : value :=
  let i := argmin distances in
  if (0 <? Z.of_nat i) && (Z.of_nat i <? Z.of_nat (length distances) - 1)
  then VFloat (div (abs (sub (distances !!! (i + 1)%nat) (distances !!! (i - 1)%nat)))
                   (2 * (duration_hours / IZR points * 3600)))
  else VInt 0.

Definition result_dict (sat1_name sat2_name : string) (distances : list float)
    (times : list datetime) (warning : R) (duration_hours : R) (points : Z)
    : gmap string value :=
  let i := argmin distances in
  <["satellite_1" := VStr sat1_name]>
  (<["satellite_2" := VStr sat2_name]>
  (<["min_distance_km" := VFloat (distances !!! i)]>
  (<["closest_approach_time" := VDatetime (times !!! i)]>
  (<["relative_velocity_km_s" := relative_velocity_of distances duration_hours points]>
  (<["collision_risk" := VStr (collision_risk (distances !!! i))]>
  (<["warning_periods" :=
       VInt (Z.of_nat (length (np_where (np_less distances (Real warning)))))]>
  (<["all_distances" := VArray distances]>
  (<["times" := VList times]> ∅)))))))).

Definition error_dict (e : exn) : gmap string value :=
  {[ "error" := VStr ("Could not generate orbits: " +:+ exn_str e) ]}.

(** *** A catalog with a decayed object *)

(** The object of [Scenario.sat_A], with the same positions. *)
Definition sat_A : EarthSatellite := {|
  sat_name := "A";
  sat_at := fun t =>
    Ok (Real (match (t / 3600)%Z with
              | 0%Z => 100 | 1%Z => 50 | 2%Z => 2 | 3%Z => 60 | _ => 120
              end), Real 0, Real 0)%R
|}.

(** An object for which SGP4 fails two hours after the second 0: 7000 and
    6900 km on the x axis in the first two hours, NaN coordinates from then
    on. *)
Definition sat_D : EarthSatellite := {|
  sat_name := "D";
  sat_at := fun t =>
    Ok (match (t / 3600)%Z with
        | 0%Z => (Real 7000, Real 0, Real 0)
        | 1%Z => (Real 6900, Real 0, Real 0)
        | _ => (NaN, NaN, NaN)
        end)
|}.

(** The object of [Scenario.sat_B], at rest at the origin. *)
Definition sat_B : EarthSatellite := {|
  sat_name := "B";
  sat_at := fun _ => Ok (Real 0, Real 0, Real 0)
|}.

Definition catalog : SatelliteOrbitPredictor :=
  {| satellites := <["A" := sat_A]> (<["B" := sat_B]> (<["D" := sat_D]> ∅)) |}.

(** The path of [D] over 4 hours with 5 points from the instant 0. *)
Definition path_D : path :=
  ([Real 7000; Real 6900; NaN; NaN; NaN],
   [Real 0; Real 0; NaN; NaN; NaN],
   [Real 0; Real 0; NaN; NaN; NaN]).

Definition path_A : path :=
  ([Real 100; Real 50; Real 2; Real 60; Real 120],
   [Real 0; Real 0; Real 0; Real 0; Real 0],
   [Real 0; Real 0; Real 0; Real 0; Real 0]).

Definition path_B : path :=
  ([Real 0; Real 0; Real 0; Real 0; Real 0],
   [Real 0; Real 0; Real 0; Real 0; Real 0],
   [Real 0; Real 0; Real 0; Real 0; Real 0]).

Definition distances_A_B : list float :=
  [Real 100; Real 50; Real 2; Real 60; Real 120].

Definition distances_D_D : list float := [Real 0; Real 0; NaN; NaN; NaN].

End F64.

(** A value of the real-number model as a value over floats. *)
Definition of_value (v : value) : F64.value :=
  match v with
  | VStr s => F64.VStr s
  | VInt n => F64.VInt n
  | VFloat r => F64.VFloat (F64.Real r)
  | VDatetime d => F64.VDatetime d
  | VArray a => F64.VArray (map F64.Real a)
  | VList l => F64.VList l
  end.

(** A position, a satellite, a predictor and a path of the real-number model
    as the same over floats: every coordinate is finite. *)
Definition of_vec3 (p : vec3) : F64.vec3 :=
  (F64.Real p.1.1, F64.Real p.1.2, F64.Real p.2).

Definition of_satellite (sat : EarthSatellite) : F64.EarthSatellite :=
  {| F64.sat_name := sat_name sat;
     F64.sat_at := fun t =>
       match sat_at sat t with
       | Ok p => Ok (of_vec3 p)
       | Raise e => Raise e
       end |}.

Definition of_predictor (p : SatelliteOrbitPredictor) : F64.SatelliteOrbitPredictor :=
  {| F64.satellites := of_satellite <$> satellites p |}.

Definition of_path (p : path) : F64.path :=
  (map F64.Real p.1.1, map F64.Real p.1.2, map F64.Real p.2).

(** * Properties *)

(** ** Numbers *)

Lemma ltb_lt (x y : R) : Num.ltb x y = true <-> (x < y)%R.
Proof. unfold Num.ltb. destruct (Rlt_dec x y); split; intros; try done. Qed.

Lemma ltb_ge (x y : R) : Num.ltb x y = false <-> (y <= x)%R.
Proof.
  unfold Num.ltb. destruct (Rlt_dec x y); split; intros; try done; lra.
Qed.

Lemma floor_IZR (z : Z) : Num.floor (IZR z) = z.
Proof.
  unfold Num.floor. symmetry. apply Int_part_spec. split; lra.
Qed.

Lemma round_half_even_IZR (z : Z) : Num.round_half_even (IZR z) = z.
Proof.
  unfold Num.round_half_even. rewrite floor_IZR.
  replace (IZR z - IZR z)%R with 0%R by lra.
  assert (H : Num.ltb 0 (1 / 2) = true) by (apply ltb_lt; lra).
  by rewrite H.
Qed.

Lemma timedelta_hours_IZR (k : Z) : timedelta_hours (IZR k) = k * 3600000000.
Proof.
  unfold timedelta_hours. rewrite <- mult_IZR. apply round_half_even_IZR.
Qed.

(** ** The monad *)

Lemma bind_run {A B} (m : M A) (k : A -> M B) (w : world) :
  (m ≫= k) w = match m w with
               | (Ok a, w') => k a w'
               | (Raise e, w') => (Raise e, w')
               end.
Proof. reflexivity. Qed.

Lemma ret_run {A} (a : A) (w : world) : (mret a : M A) w = (Ok a, w).
Proof. reflexivity. Qed.

Lemma raise_run {A} (e : exn) (w : world) : raise (A := A) e w = (Raise e, w).
Proof. reflexivity. Qed.

Lemma lift_run {A} (o : outcome A) (w : world) : lift o w = (o, w).
Proof. reflexivity. Qed.

Lemma try_except_run {A} (m : M A) (h : exn -> M A) (w : world) :
  try_except m h w = match m w with
                     | (Ok a, w') => (Ok a, w')
                     | (Raise e, w') => h e w'
                     end.
Proof. reflexivity. Qed.

Lemma utcnow_run (w : world) : utcnow w = (Ok (now w (ticks w)), advance 1 w).
Proof. reflexivity. Qed.

Lemma get_predictor_run (w : world) : get_predictor w = (Ok (predictor w), w).
Proof. reflexivity. Qed.

Lemma get_detector_run (w : world) : get_detector w = (Ok (detector w), w).
Proof. reflexivity. Qed.

Ltac run_M :=
  repeat (rewrite ?bind_run, ?ret_run, ?raise_run, ?lift_run, ?utcnow_run,
            ?get_predictor_run, ?get_detector_run; cbv beta iota).

Lemma advance_0 (w : world) : advance 0 w = w.
Proof. by destruct w. Qed.

Lemma advance_advance (j k : nat) (w : world) :
  advance j (advance k w) = advance (j + k) w.
Proof. unfold advance; simpl. f_equal. lia. Qed.

(** ** Path generation *)

Lemma np_linspace_length (a b : R) (n : Z) (l : list R) :
  np_linspace a b n = Ok l -> 0 <= n /\ length l = Z.to_nat n.
Proof.
  unfold np_linspace. destruct (Z.ltb_spec n 0); [done |].
  intros [= <-]. split; [done |].
  destruct (1 <? n); destruct (0 <? n - 1);
    rewrite ?length_insert, !length_map, length_seq; done.
Qed.

Lemma positions_at_length sat st deltas l :
  positions_at sat st deltas = Ok l -> length l = length deltas.
Proof.
  revert l. induction deltas as [| d ds IH]; simpl; intros l.
  - by intros [= <-].
  - destruct (sat_at sat _); [| done].
    destruct (positions_at sat st ds); [| done].
    intros [= <-]. simpl. f_equal. by apply IH.
Qed.

(** The sampling loop of [generate_orbit_path] reads no state. *)
Lemma positions_loop sat st deltas acc w :
  for_each deltas
    (fun delta positions =>
       km ← lift (sat_at sat (ts_utc (datetime_add st (timedelta_hours delta))));
       mret (positions ++ [km])%list) acc w
  = (match positions_at sat st deltas with
     | Ok l => Ok (acc ++ l)%list
     | Raise e => Raise e
     end, w).
Proof.
  revert acc. induction deltas as [| d ds IH]; intros acc; cbn [for_each positions_at].
  - by rewrite ret_run, app_nil_r.
  - run_M. fold (sample_second st d).
    destruct (sat_at sat _) as [km | e]; [| done].
    run_M. rewrite IH. destruct (positions_at sat st ds); [| done].
    by rewrite <- app_assoc.
Qed.

(** [generate_orbit_path] computes [orbit_path_of] at the current reading of
    the clock, and reads the clock once unless the name is unknown. *)
Lemma generate_orbit_path_spec name d pts w :
  generate_orbit_path name d pts w =
    (orbit_path_of (satellites (predictor w)) name (now w (ticks w)) d pts,
     advance (reads (satellites (predictor w)) name) w).
Proof.
  unfold generate_orbit_path, orbit_path_of, reads. run_M.
  destruct (satellites (predictor w) !! name) as [sat |] eqn:Hs;
    [| by rewrite advance_0].
  run_M. destruct (np_linspace 0 d pts) as [deltas | e]; [| done].
  run_M. rewrite positions_loop. simpl.
  destruct (positions_at sat (now w (ticks w)) deltas) as [[| p ps] | e]; done.
Qed.

Lemma orbit_path_of_length sats name st d pts x y z :
  orbit_path_of sats name st d pts = Ok (x, y, z) ->
  0 < pts /\ length x = Z.to_nat pts /\ length y = Z.to_nat pts
  /\ length z = Z.to_nat pts.
Proof.
  unfold orbit_path_of. destruct (sats !! name) as [sat |]; [| done].
  destruct (np_linspace 0 d pts) as [deltas |] eqn:HL; [| done].
  destruct (positions_at sat st deltas) as [ps |] eqn:HP; [| done].
  apply np_linspace_length in HL as [Hn HL].
  apply positions_at_length in HP.
  destruct ps as [| p ps]; [done |]. intros [= <- <- <-].
  simpl in *. rewrite !length_map. lia.
Qed.

(** ** The sampling loop of the analysis *)

Lemma getitem_lt {A} `{Inhabited A} (l : list A) (i : nat) :
  (i < length l)%nat -> getitem l i = Ok (l !!! i).
Proof.
  intros Hi. unfold getitem.
  destruct (lookup_lt_is_Some_2 l i Hi) as [a Ha].
  rewrite Ha. by rewrite (list_lookup_total_correct _ _ _ Ha).
Qed.

Lemma pair_distances_length (p1 p2 : path) :
  length (pair_distances p1 p2) = length p1.1.1.
Proof.
  destruct p1 as [[x1 y1] z1], p2 as [[x2 y2] z2]. simpl.
  by rewrite length_map, length_seq.
Qed.

Lemma sample_times_length st d pts n : length (sample_times st d pts n) = n.
Proof. unfold sample_times. by rewrite length_map, length_seq. Qed.

(** On paths whose six arrays have one length the loop raises nothing and
    yields the paired distances and the sample times. *)
Lemma sample_loop_spec x1 y1 z1 x2 y2 z2 st d pts w :
  length y1 = length x1 -> length z1 = length x1 ->
  length x2 = length x1 -> length y2 = length x1 -> length z2 = length x1 ->
  sample_loop (x1, y1, z1) (x2, y2, z2) st d pts w =
    (Ok (pair_distances (x1, y1, z1) (x2, y2, z2),
         sample_times st d pts (length x1)), w).
Proof.
  intros Hy1 Hz1 Hx2 Hy2 Hz2.
  unfold sample_loop, pair_distances, sample_times.
  match goal with |- for_each _ ?b _ _ = _ => set (body := b) end.
  set (f := fun i : nat => calculate_distance _ _).
  set (g := fun i : nat => datetime_add _ _).
  assert (Inv : forall k a ds ts, (a + k <= length x1)%nat ->
            for_each (seq a k) body (ds, ts) w =
              (Ok ((ds ++ map f (seq a k))%list, (ts ++ map g (seq a k))%list), w)).
  { induction k as [| k IH]; intros a ds ts Hk; cbn [seq for_each map].
    - by rewrite ret_run, !app_nil_r.
    - rewrite bind_run. unfold body at 1. cbv zeta. run_M.
      rewrite !getitem_lt by lia. run_M.
      rewrite IH by lia. by rewrite <- !app_assoc. }
  apply (Inv (length x1) 0%nat [] []). lia.
Qed.

(** ** argmin *)

Lemma argmin_from_range (l : list R) (i : nat) (best : R) (bi : nat) :
  let r := argmin_from l i best bi in
  r = bi \/ (i <= r < i + length l)%nat.
Proof.
  revert i best bi. induction l as [| x l IH]; intros i best bi; simpl.
  - by left.
  - destruct (Num.ltb x best).
    + destruct (IH (S i) x i) as [-> | ?]; right; lia.
    + destruct (IH (S i) best bi) as [-> | ?]; [by left | right; lia].
Qed.

Lemma argmin_lt_length (l : list R) : l <> [] -> (argmin l < length l)%nat.
Proof.
  destruct l as [| x l]; [done |]. intros _. simpl.
  destruct (argmin_from_range l 1 x 0) as [-> | ?]; simpl in *; lia.
Qed.

Lemma np_argmin_argmin (l : list R) : l <> [] -> np_argmin l = Ok (argmin l).
Proof. by destruct l. Qed.

(** ** The analysis as a function of the catalog, the warning distance and
    three readings of the clock *)

Lemma relative_velocity_at_spec (distances : list R) d pts w :
  relative_velocity_at distances (argmin distances) d pts w =
    (Ok (relative_velocity_of distances d pts), w).
Proof.
  unfold relative_velocity_at, relative_velocity_of.
  destruct (_ && _) eqn:Hc; [| done].
  apply andb_true_iff in Hc as [H0 H1].
  apply Z.ltb_lt in H0, H1.
  run_M. rewrite !getitem_lt by lia. by run_M.
Qed.

Lemma reads_known sats name st d pts p :
  orbit_path_of sats name st d pts = Ok p -> reads sats name = 1%nat.
Proof.
  unfold orbit_path_of, reads. by destruct (sats !! name).
Qed.

Theorem analyze_close_approach_spec s1 s2 d pts w :
  analyze_close_approach s1 s2 d pts w =
    let sats := satellites (predictor w) in
    match orbit_path_of sats s1 (now w (ticks w)) d pts with
    | Raise e => (Ok (error_dict e), advance (reads sats s1) w)
    | Ok p1 =>
        match orbit_path_of sats s2 (now w (1 + ticks w)%nat) d pts with
        | Raise e => (Ok (error_dict e), advance (1 + reads sats s2) w)
        | Ok p2 =>
            (Ok (result_dict s1 s2 (pair_distances p1 p2)
                   (sample_times (now w (2 + ticks w)%nat) d pts (length p1.1.1))
                   (warning_distance_km (detector w)) d pts),
             advance 3 w)
        end
    end.
Proof.
  cbv zeta. unfold analyze_close_approach.
  rewrite bind_run, try_except_run, bind_run, generate_orbit_path_spec.
  destruct (orbit_path_of _ s1 _ d pts) as [p1 | e1] eqn:H1; [| by run_M].
  rewrite (reads_known _ _ _ _ _ _ H1).
  rewrite bind_run, generate_orbit_path_spec. cbn [advance predictor now ticks].
  destruct (orbit_path_of _ s2 _ d pts) as [p2 | e2] eqn:H2;
    [| run_M; by rewrite advance_advance, Nat.add_comm].
  rewrite (reads_known _ _ _ _ _ _ H2), advance_advance. run_M.
  destruct p1 as [[x1 y1] z1], p2 as [[x2 y2] z2].
  apply orbit_path_of_length in H1 as (Hpts & Hx1 & Hy1 & Hz1).
  apply orbit_path_of_length in H2 as (_ & Hx2 & Hy2 & Hz2).
  rewrite sample_loop_spec by congruence. run_M.
  set (distances := pair_distances _ _).
  set (times := sample_times _ _ _ _).
  assert (Hlen : length distances = length x1)
    by apply (pair_distances_length (x1, y1, z1)).
  assert (Hne : distances <> []) by (intros E; rewrite E in Hlen; simpl in Hlen; lia).
  pose proof (argmin_lt_length _ Hne) as Hi.
  rewrite (np_argmin_argmin _ Hne). run_M.
  rewrite (getitem_lt distances) by done. run_M.
  rewrite (getitem_lt times)
    by (unfold times; rewrite sample_times_length; lia).
  run_M. rewrite relative_velocity_at_spec. run_M.
  rewrite advance_advance. reflexivity.
Qed.

(** ** The fields of the result dictionaries *)

Lemma result_satellite_1 s1 s2 distances times warning duration_hours points :
  result_dict s1 s2 distances times warning duration_hours points !! "satellite_1"
  = Some (VStr s1).
Proof. by unfold result_dict. Qed.

Lemma result_satellite_2 s1 s2 distances times warning duration_hours points :
  result_dict s1 s2 distances times warning duration_hours points !! "satellite_2"
  = Some (VStr s2).
Proof. by unfold result_dict. Qed.

Lemma result_min_distance s1 s2 distances times warning duration_hours points :
  result_dict s1 s2 distances times warning duration_hours points !! "min_distance_km"
  = Some (VFloat (distances !!! argmin distances)).
Proof. by unfold result_dict. Qed.

Lemma result_closest_time s1 s2 distances times warning duration_hours points :
  result_dict s1 s2 distances times warning duration_hours points !! "closest_approach_time"
  = Some (VDatetime (times !!! argmin distances)).
Proof. by unfold result_dict. Qed.

Lemma result_relative_velocity s1 s2 distances times warning duration_hours points :
  result_dict s1 s2 distances times warning duration_hours points !! "relative_velocity_km_s"
  = Some (relative_velocity_of distances duration_hours points).
Proof. by unfold result_dict. Qed.

Lemma result_collision_risk s1 s2 distances times warning duration_hours points :
  result_dict s1 s2 distances times warning duration_hours points !! "collision_risk"
  = Some (VStr (collision_risk (distances !!! argmin distances))).
Proof. by unfold result_dict. Qed.

Lemma result_warning_periods s1 s2 distances times warning duration_hours points :
  result_dict s1 s2 distances times warning duration_hours points !! "warning_periods"
  = Some (VInt (Z.of_nat (length (np_where (np_less distances warning))))).
Proof. by unfold result_dict. Qed.

Lemma result_all_distances s1 s2 distances times warning duration_hours points :
  result_dict s1 s2 distances times warning duration_hours points !! "all_distances"
  = Some (VArray distances).
Proof. by unfold result_dict. Qed.

Lemma result_times s1 s2 distances times warning duration_hours points :
  result_dict s1 s2 distances times warning duration_hours points !! "times"
  = Some (VList times).
Proof. by unfold result_dict. Qed.

Lemma result_no_error s1 s2 distances times warning duration_hours points :
  result_dict s1 s2 distances times warning duration_hours points !! "error"
  = None.
Proof. by unfold result_dict. Qed.


Lemma error_dict_error (e : exn) :
  error_dict e !! "error" = Some (VStr ("Could not generate orbits: " +:+ exn_str e)).
Proof. done. Qed.

Lemma error_dict_other (e : exn) (k : string) :
  k <> "error" -> error_dict e !! k = None.
Proof. intros Hk. unfold error_dict. by rewrite lookup_singleton_ne. Qed.

(** ** Running the methods on the concrete worlds *)

Ltac eval_R :=
  cbv -[IZR Rplus Rmult Rminus Rdiv Rinv Ropp sqrt Rabs Rlt_dec pow Rlt Rle].

Lemma timedelta_hours_exact (h : R) (k : Z) :
  (h * 3600000000 = IZR k)%R -> timedelta_hours h = k.
Proof. unfold timedelta_hours. intros ->. apply round_half_even_IZR. Qed.

Lemma sample_second_IZR (st k : Z) :
  sample_second st (IZR k) = (st + k * 3600000000) / 1000000.
Proof. unfold sample_second, datetime_add. by rewrite timedelta_hours_IZR. Qed.

Lemma ltb_true (x y : R) : (x < y)%R -> Num.ltb x y = true.
Proof. apply ltb_lt. Qed.

Lemma ltb_false (x y : R) : (y <= x)%R -> Num.ltb x y = false.
Proof. apply ltb_ge. Qed.

Lemma distance_on_x_axis (a : R) :
  (0 <= a)%R -> calculate_distance (a, 0, 0)%R (0, 0, 0)%R = a.
Proof.
  intros Ha. unfold calculate_distance.
  replace ((0 - a) ^ 2 + (0 - 0) ^ 2 + (0 - 0) ^ 2)%R with (a ^ 2)%R by lra.
  by apply sqrt_pow2.
Qed.

Module ScenarioRun.
Import Scenario.

Lemma linspace_4_5 : np_linspace 0 4 5 = Ok deltas.
Proof. eval_R. repeat (f_equal; try lra). Qed.

Lemma path_A : orbit_path_of catalog "A" 0 4 5 = Ok (distances, zeros, zeros).
Proof.
  unfold orbit_path_of. change (catalog !! "A") with (Some sat_A).
  rewrite linspace_4_5. unfold deltas. cbn [positions_at].
  rewrite !sample_second_IZR. reflexivity.
Qed.

Lemma path_B (st : datetime) :
  orbit_path_of catalog "B" st 4 5 = Ok (zeros, zeros, zeros).
Proof.
  unfold orbit_path_of. change (catalog !! "B") with (Some sat_B).
  rewrite linspace_4_5. reflexivity.
Qed.

Lemma distances_A_B :
  pair_distances (distances, zeros, zeros) (zeros, zeros, zeros) = distances.
Proof.
  unfold pair_distances, distances, zeros.
  cbn [length seq map lookup_total list_lookup_total].
  rewrite !distance_on_x_axis by lra. reflexivity.
Qed.

Lemma times_from_0 : sample_times 0 4 5 5 = times.
Proof.
  unfold sample_times, times, datetime_add. cbn [seq map].
  repeat (f_equal; try (apply timedelta_hours_exact; simpl; lra)).
Qed.

Lemma argmin_distances : argmin distances = 2%nat.
Proof.
  unfold argmin, distances. cbn [argmin_from].
  rewrite (ltb_true 50 100), (ltb_true 2 50), (ltb_false 60 2), (ltb_false 120 2)
    by lra.
  reflexivity.
Qed.

(** The analysis of [A] against [B] over 4 hours with 5 points, on the still
    clock. *)
Lemma analysis_still :
  analyze_close_approach "A" "B" 4 5 still =
    (Ok (result_dict "A" "B" distances times 10 4 5), advance 3 still).
Proof.
  rewrite analyze_close_approach_spec. cbv zeta.
  change (satellites (predictor still)) with catalog.
  change (now still _) with 0. rewrite path_A, path_B.
  change (now still _) with 0.
  rewrite distances_A_B. change (length _) with 5%nat. rewrite times_from_0.
  reflexivity.
Qed.

(** The same analysis on the ticking clock: the path of [A] is generated at
    the instant 0, the path of [B] one second later. *)
Lemma analysis_ticking :
  analyze_close_approach "A" "B" 4 5 ticking =
    (Ok (result_dict "A" "B" distances (sample_times 2000000 4 5 5) 10 4 5),
     advance 3 ticking).
Proof.
  rewrite analyze_close_approach_spec. cbv zeta.
  change (satellites (predictor ticking)) with catalog.
  change (now ticking (ticks ticking)) with 0. rewrite path_A, path_B.
  rewrite distances_A_B. reflexivity.
Qed.

(** The same analysis with warning distance 0. *)
Lemma analysis_silent :
  analyze_close_approach "A" "B" 4 5 silent =
    (Ok (result_dict "A" "B" distances times 0 4 5), advance 3 silent).
Proof.
  rewrite analyze_close_approach_spec. cbv zeta.
  change (satellites (predictor silent)) with catalog.
  change (now silent _) with 0. rewrite path_A, path_B.
  change (now silent _) with 0.
  rewrite distances_A_B. change (length _) with 5%nat. rewrite times_from_0.
  reflexivity.
Qed.

End ScenarioRun.

(** ** What a returned dictionary is *)

(** A dictionary returned without an error key is the result dictionary of the
    two generated paths. *)
Lemma analyze_no_error_inv s1 s2 d pts w dict w' :
  analyze_close_approach s1 s2 d pts w = (Ok dict, w') ->
  dict !! "error" = None ->
  exists p1 p2,
    orbit_path_of (satellites (predictor w)) s1 (now w (ticks w)) d pts = Ok p1 /\
    orbit_path_of (satellites (predictor w)) s2 (now w (1 + ticks w)%nat) d pts = Ok p2 /\
    dict = result_dict s1 s2 (pair_distances p1 p2)
             (sample_times (now w (2 + ticks w)%nat) d pts (length p1.1.1))
             (warning_distance_km (detector w)) d pts /\
    w' = advance 3 w.
Proof.
  rewrite analyze_close_approach_spec. cbv zeta.
  destruct (orbit_path_of _ s1 _ d pts) as [p1 | e1].
  - destruct (orbit_path_of _ s2 _ d pts) as [p2 | e2].
    + intros [= <- <-] _. by exists p1, p2.
    + intros [= <- <-]. by rewrite error_dict_error.
  - intros [= <- <-]. by rewrite error_dict_error.
Qed.

Lemma collision_risk_tiers (m : R) :
  ((m < 1)%R -> collision_risk m = "HIGH") /\
  ((1 <= m < 5)%R -> collision_risk m = "MEDIUM") /\
  ((5 <= m)%R -> collision_risk m = "LOW").
Proof.
  unfold collision_risk. repeat split; intros Hm.
  - by rewrite ltb_true.
  - by rewrite ltb_false, ltb_true by lra.
  - by rewrite !ltb_false by lra.
Qed.

(** * The claims *)

(** C1. For every close-approach analysis result without an error the risk
    label is a function of the minimum distance alone, by fixed thresholds:
    HIGH strictly below 1 km, MEDIUM from 1 km to strictly below 5 km, LOW
    otherwise. In particular, when the paired sample distances are
    [100, 50, 2, 60, 120] km the minimum distance is 2 km, found at index 2,
    and the risk is MEDIUM. *)
Theorem risk_is_three_tier_threshold :
  (forall s1 s2 d pts w dict w',
      analyze_close_approach s1 s2 d pts w = (Ok dict, w') ->
      dict !! "error" = None ->
      exists (m : R) (risk : string),
        dict !! "min_distance_km" = Some (VFloat m) /\
        dict !! "collision_risk" = Some (VStr risk) /\
        risk = collision_risk m /\
        ((m < 1)%R -> risk = "HIGH") /\
        ((1 <= m < 5)%R -> risk = "MEDIUM") /\
        ((5 <= m)%R -> risk = "LOW"))
  /\
  (forall s1 s2 d pts w dict w',
      analyze_close_approach s1 s2 d pts w = (Ok dict, w') ->
      dict !! "all_distances" = Some (VArray [100; 50; 2; 60; 120]%R) ->
      np_argmin [100; 50; 2; 60; 120]%R = Ok 2%nat /\
      dict !! "min_distance_km" = Some (VFloat 2) /\
      (exists times, dict !! "times" = Some (VList times) /\
                     dict !! "closest_approach_time" = VDatetime <$> times !! 2%nat) /\
      dict !! "collision_risk" = Some (VStr "MEDIUM")).
Proof.
  split.
  - intros s1 s2 d pts w dict w' Hrun Herr.
    destruct (analyze_no_error_inv _ _ _ _ _ _ _ Hrun Herr)
      as (p1 & p2 & _ & _ & -> & _).
    eexists _, _. split; [apply result_min_distance |].
    split; [apply result_collision_risk |].
    split; [done |]. apply collision_risk_tiers.
  - intros s1 s2 d pts w dict w' Hrun Hall.
    assert (Herr : dict !! "error" = None).
    { revert Hrun. rewrite analyze_close_approach_spec. cbv zeta.
      repeat case_match; intros [= <- <-];
        first [ apply result_no_error
              | by rewrite error_dict_other in Hall ]. }
    destruct (analyze_no_error_inv _ _ _ _ _ _ _ Hrun Herr)
      as (p1 & p2 & H1 & _ & -> & _).
    rewrite result_all_distances in Hall. injection Hall as Hd.
    change [100; 50; 2; 60; 120]%R with Scenario.distances in *.
    split; [by rewrite np_argmin_argmin, ScenarioRun.argmin_distances |].
    rewrite result_min_distance, result_collision_risk, result_times,
      result_closest_time, Hd.
    rewrite ScenarioRun.argmin_distances.
    change (Scenario.distances !!! 2%nat) with 2%R.
    split; [done |]. split.
    + eexists. split; [done |].
      destruct p1 as [[x1 y1] z1].
      assert (Hlen : length x1 = 5%nat).
      { pose proof (pair_distances_length (x1, y1, z1) p2) as HL.
        rewrite Hd in HL. symmetry. exact HL. }
      cbn [fst]. rewrite Hlen.
      set (ts := sample_times _ _ _ _).
      assert (Hts : (2 < length ts)%nat)
        by (unfold ts; rewrite sample_times_length; lia).
      destruct (lookup_lt_is_Some_2 ts 2 Hts) as [t Ht].
      by rewrite Ht, (list_lookup_total_correct _ _ _ Ht).
    + by rewrite (proj1 (proj2 (collision_risk_tiers 2))) by lra.
Qed.

(** The scenario itself runs: object [A] against object [B] at rest, 4 hours,
    5 points. *)
Lemma risk_is_three_tier_threshold_witness :
  exists dict w',
    analyze_close_approach "A" "B" 4 5 Scenario.still = (Ok dict, w') /\
    dict !! "error" = None /\
    dict !! "all_distances" = Some (VArray [100; 50; 2; 60; 120]%R) /\
    (exists (m : R) (risk : string),
        dict !! "min_distance_km" = Some (VFloat m) /\
        dict !! "collision_risk" = Some (VStr risk) /\
        risk = collision_risk m /\
        ((m < 1)%R -> risk = "HIGH") /\
        ((1 <= m < 5)%R -> risk = "MEDIUM") /\
        ((5 <= m)%R -> risk = "LOW")) /\
    dict !! "min_distance_km" = Some (VFloat 2) /\
    dict !! "collision_risk" = Some (VStr "MEDIUM").
Proof.
  eexists _, _. split; [apply ScenarioRun.analysis_still |].
  split; [apply result_no_error |].
  split; [apply result_all_distances |].
  split.
  - apply (proj1 risk_is_three_tier_threshold "A" "B" 4%R 5 Scenario.still _ _
             ScenarioRun.analysis_still).
    apply result_no_error.
  - pose proof (proj2 risk_is_three_tier_threshold "A" "B" 4%R 5 Scenario.still _ _
                  ScenarioRun.analysis_still (result_all_distances _ _ _ _ _ _ _))
      as (_ & Hmin & _ & Hrisk).
    split; [exact Hmin | exact Hrisk].
Defined.

(** ** The relative velocity *)

(** What the analysis reports: at an interior minimum the absolute difference
    of the two neighbouring distances over twice [duration_hours / points]
    hours in seconds, at a boundary minimum the integer 0. *)
Lemma relative_velocity_reported s1 s2 d pts w dict w' :
  analyze_close_approach s1 s2 d pts w = (Ok dict, w') ->
  dict !! "error" = None ->
  exists (distances : list R) (i : nat),
    dict !! "all_distances" = Some (VArray distances) /\
    np_argmin distances = Ok i /\
    dict !! "relative_velocity_km_s" =
      Some (if (0 <? Z.of_nat i) && (Z.of_nat i <? Z.of_nat (length distances) - 1)
            then VFloat (Rabs (distances !!! (i + 1)%nat - distances !!! (i - 1)%nat)
                         / (2 * (d / IZR pts * 3600)))
            else VInt 0).
Proof.
  intros Hrun Herr.
  destruct (analyze_no_error_inv _ _ _ _ _ _ _ Hrun Herr)
    as ([[x1 y1] z1] & p2 & H1 & _ & -> & _).
  eexists _, _. split; [apply result_all_distances |].
  split; [| apply result_relative_velocity].
  apply np_argmin_argmin. intros Hnil.
  apply orbit_path_of_length in H1 as (Hpts & Hx1 & _).
  pose proof (pair_distances_length (x1, y1, z1) p2) as HL.
  rewrite Hnil in HL. cbn [fst length] in HL. lia.
Qed.

(** C2, evaluated on the scenario (4 hours, 5 points, still clock). The five
    samples of each path are taken at the seconds 0, 3600, 7200, 10800 and
    14400: [np.linspace] includes both ends of the window, so neighbouring
    samples are [duration / (points - 1)] apart. The minimum is at the interior
    index 2 and its two neighbours, 50 km and 60 km, are 7200 s apart. The
    analysis reports [|60 - 50| / 5760]: it divides by twice
    [duration / points], which is not the time between the two samples. *)
Theorem relative_velocity_on_scenario :
  exists dict w' deltas v,
    analyze_close_approach "A" "B" 4 5 Scenario.still = (Ok dict, w') /\
    np_linspace 0 4 5 = Ok deltas /\
    (fun delta => ts_utc (datetime_add (now Scenario.still 0) (timedelta_hours delta)))
      <$> deltas = [0; 3600; 7200; 10800; 14400] /\
    generate_orbit_path "A" 4 5 Scenario.still
      = (Ok ([100; 50; 2; 60; 120], [0; 0; 0; 0; 0], [0; 0; 0; 0; 0])%R,
         advance 1 Scenario.still) /\
    dict !! "all_distances" = Some (VArray [100; 50; 2; 60; 120]%R) /\
    np_argmin [100; 50; 2; 60; 120]%R = Ok 2%nat /\
    dict !! "relative_velocity_km_s" = Some (VFloat v) /\
    v = (Rabs (60 - 50) / 5760)%R /\
    v <> (Rabs (60 - 50) / IZR (10800 - 3600))%R.
Proof.
  eexists _, _, _, _.
  split; [apply ScenarioRun.analysis_still |].
  split; [apply ScenarioRun.linspace_4_5 |].
  split; [unfold Scenario.deltas; cbn [fmap list_fmap];
          by rewrite !timedelta_hours_IZR |].
  split.
  { rewrite generate_orbit_path_spec.
    change (satellites (predictor Scenario.still)) with Scenario.catalog.
    change (now Scenario.still _) with 0.
    by rewrite ScenarioRun.path_A. }
  split; [apply result_all_distances |].
  split; [change [100; 50; 2; 60; 120]%R with Scenario.distances;
          by rewrite np_argmin_argmin, ScenarioRun.argmin_distances |].
  split.
  { rewrite result_relative_velocity. unfold relative_velocity_of.
    rewrite ScenarioRun.argmin_distances. reflexivity. }
  change (Scenario.distances !!! (2 + 1)%nat) with 60%R.
  change (Scenario.distances !!! (2 - 1)%nat) with 50%R.
  change (10800 - 3600) with 7200.
  replace (60 - 50)%R with 10%R by lra.
  rewrite Rabs_pos_eq by lra. split; lra.
Qed.

(** ** Position prediction *)

Lemma predict_position_run (name : string) (t : datetime) (w : world) :
  predict_position name t w =
    (match satellites (predictor w) !! name with
     | Some sat => sat_at sat (ts_utc t)
     | None => Raise (ValueError ("Satellite '" +:+ name +:+ "' not found"))
     end, w).
Proof.
  unfold predict_position. run_M. by destruct (satellites (predictor w) !! name).
Qed.

(** C3 as stated fails: whatever the bound, there are a loaded record and a
    time further from its epoch than the bound at which [predict_position]
    does not fail with a [PropagationError]. *)
Lemma validity_bound_counterexample :
  ~ exists bound : Z,
      forall (w : world) (name : string) (sat : EarthSatellite) (t : datetime),
        satellites (predictor w) !! name = Some sat ->
        bound < Z.abs (ts_utc t - sat_epoch sat) ->
        exists msg w',
          predict_position name t w = (Raise (Exn "PropagationError" msg), w').
Proof.
  intros [bound H].
  destruct (H Scenario.still "B" Scenario.sat_B ((Z.abs bound + 1) * 1000000))
    as (msg & w' & Hrun).
  - reflexivity.
  - unfold ts_utc. rewrite Z.div_mul by done. simpl. lia.
  - rewrite predict_position_run in Hrun.
    change (satellites (predictor Scenario.still) !! "B")
      with (Some Scenario.sat_B) in Hrun.
    discriminate Hrun.
Qed.

(** C3, amended. [predict_position] applies no validity bound: for a loaded
    record and any requested time it returns what the record's propagator
    yields at that time cut to whole seconds, and the world is unchanged; it
    raises an error of its own, a [ValueError], only for a name that is not in
    the catalog. *)
Theorem predict_position_delegates_to_propagator :
  forall (name : string) (t : datetime) (w : world),
    (forall sat, satellites (predictor w) !! name = Some sat ->
                 predict_position name t w = (sat_at sat (t / 1000000), w)) /\
    (satellites (predictor w) !! name = None ->
     predict_position name t w =
       (Raise (Exn "ValueError" ("Satellite '" +:+ name +:+ "' not found")), w)).
Proof.
  intros name t w. rewrite predict_position_run.
  split; [intros sat Hs | intros Hs]; by rewrite Hs.
Qed.

(** A thousand years after the epoch object [A] is still at 120 km, and an
    unknown name is refused. *)
Lemma predict_position_delegates_to_propagator_witness :
  predict_position "A" 31556952000000000 Scenario.still
    = (Ok (120, 0, 0)%R, Scenario.still) /\
  predict_position "C" 0 Scenario.still
    = (Raise (Exn "ValueError" "Satellite 'C' not found"), Scenario.still).
Proof.
  split.
  - apply (proj1 (predict_position_delegates_to_propagator
                    "A" 31556952000000000 Scenario.still) Scenario.sat_A).
    reflexivity.
  - apply (proj2 (predict_position_delegates_to_propagator "C" 0 Scenario.still)).
    reflexivity.
Defined.

(** ** Sampling of the two paths *)

(** C4 as stated fails. On the ticking clock the path of [A] is sampled at
    the seconds 0, 3600, ... and the path of [B] at the seconds 1, 3601, ...;
    the analysis does not fail: it returns a result without an error key. *)
Lemma mismatched_sampling_counterexample :
  exists deltas dict w',
    np_linspace 0 4 5 = Ok deltas /\
    sample_second (now Scenario.ticking 0) <$> deltas
      = [0; 3600; 7200; 10800; 14400] /\
    sample_second (now Scenario.ticking 1) <$> deltas
      = [1; 3601; 7201; 10801; 14401] /\
    analyze_close_approach "A" "B" 4 5 Scenario.ticking = (Ok dict, w') /\
    dict !! "error" = None /\
    dict !! "min_distance_km" = Some (VFloat 2).
Proof.
  eexists _, _, _.
  split; [apply ScenarioRun.linspace_4_5 |].
  split; [unfold Scenario.deltas; cbn [fmap list_fmap];
          by rewrite !sample_second_IZR |].
  split; [unfold Scenario.deltas; cbn [fmap list_fmap];
          by rewrite !sample_second_IZR |].
  split; [apply ScenarioRun.analysis_ticking |].
  split; [apply result_no_error |].
  rewrite result_min_distance, ScenarioRun.argmin_distances. reflexivity.
Qed.

(** C4, amended. The analysis compares no timestamps and never fails with a
    [MismatchedSamplingError]; it never raises at all. When both paths are
    generated, at whatever clock readings, it pairs their samples by index and
    returns a result without an error key; otherwise it returns the error
    dictionary of the exception that stopped the generation. *)
Theorem analysis_pairs_samples_by_index :
  forall (s1 s2 : string) (d : R) (pts : Z) (w : world),
  exists dict w',
    analyze_close_approach s1 s2 d pts w = (Ok dict, w') /\
    match generate_orbit_path s1 d pts w with
    | (Ok p1, w1) =>
        match generate_orbit_path s2 d pts w1 with
        | (Ok p2, _) =>
            dict !! "error" = None /\
            dict !! "all_distances" = Some (VArray (pair_distances p1 p2))
        | (Raise e, _) => dict = error_dict e
        end
    | (Raise e, _) => dict = error_dict e
    end.
Proof.
  intros s1 s2 d pts w.
  rewrite analyze_close_approach_spec, generate_orbit_path_spec. cbv zeta.
  destruct (orbit_path_of _ s1 _ d pts) as [p1 | e1] eqn:H1;
    [| by eexists _, _].
  rewrite generate_orbit_path_spec, (reads_known _ _ _ _ _ _ H1).
  cbn [advance predictor now ticks].
  destruct (orbit_path_of _ s2 _ d pts) as [p2 | e2]; [| by eexists _, _].
  eexists _, _. split; [done |].
  split; [apply result_no_error | apply result_all_distances].
Qed.

(** ** Symmetry *)

Lemma calculate_distance_sym (a b : vec3) :
  calculate_distance a b = calculate_distance b a.
Proof.
  destruct a as [[x1 y1] z1], b as [[x2 y2] z2]. unfold calculate_distance.
  f_equal. lra.
Qed.

Lemma pair_distances_sym (p1 p2 : path) :
  length p1.1.1 = length p2.1.1 -> pair_distances p1 p2 = pair_distances p2 p1.
Proof.
  destruct p1 as [[x1 y1] z1], p2 as [[x2 y2] z2]. cbn [fst]. intros Hlen.
  unfold pair_distances. rewrite Hlen.
  apply map_ext. intros i. apply calculate_distance_sym.
Qed.

Lemma orbit_paths_same_length sats s1 s2 st1 st2 d pts p1 p2 :
  orbit_path_of sats s1 st1 d pts = Ok p1 ->
  orbit_path_of sats s2 st2 d pts = Ok p2 ->
  length p1.1.1 = length p2.1.1.
Proof.
  destruct p1 as [[x1 y1] z1], p2 as [[x2 y2] z2]. intros H1 H2. cbn [fst].
  apply orbit_path_of_length in H1 as (_ & Hx1 & _).
  apply orbit_path_of_length in H2 as (_ & Hx2 & _). congruence.
Qed.

(** C5. The analysis is symmetric in its two objects. Let the analysis of
    [(s1, s2)] run in the world [w] and the analysis of [(s2, s1)] in a world
    [v] with the same catalog and the same warning distance, in which the path
    of each object is generated at the clock reading it had in [w] (so both
    runs see the same two trajectories) and the analysis starts at the same
    reading. Then both return a dictionary, every field other than the two
    labels is the same in both, in particular the minimum distance and the
    risk, and the labels are swapped. *)
Theorem analysis_is_symmetric :
  forall (s1 s2 : string) (d : R) (pts : Z) (w v : world),
    predictor v = predictor w ->
    warning_distance_km (detector v) = warning_distance_km (detector w) ->
    now v (ticks v) = now w (1 + ticks w)%nat ->
    now v (1 + ticks v)%nat = now w (ticks w) ->
    now v (2 + ticks v)%nat = now w (2 + ticks w)%nat ->
    exists d1 d2 w' v',
      analyze_close_approach s1 s2 d pts w = (Ok d1, w') /\
      analyze_close_approach s2 s1 d pts v = (Ok d2, v') /\
      d1 !! "min_distance_km" = d2 !! "min_distance_km" /\
      d1 !! "collision_risk" = d2 !! "collision_risk" /\
      d1 !! "relative_velocity_km_s" = d2 !! "relative_velocity_km_s" /\
      d1 !! "warning_periods" = d2 !! "warning_periods" /\
      d1 !! "closest_approach_time" = d2 !! "closest_approach_time" /\
      d1 !! "all_distances" = d2 !! "all_distances" /\
      d1 !! "times" = d2 !! "times" /\
      d1 !! "satellite_1" = d2 !! "satellite_2" /\
      d1 !! "satellite_2" = d2 !! "satellite_1" /\
      (d1 !! "error" = None <-> d2 !! "error" = None).
Proof.
  intros s1 s2 d pts w v Hp Hw Hn0 Hn1 Hn2.
  rewrite !analyze_close_approach_spec. cbv zeta.
  rewrite Hp, Hw, Hn0, Hn1, Hn2.
  destruct (orbit_path_of _ s1 _ d pts) as [p1 | e1] eqn:H1;
    destruct (orbit_path_of _ s2 _ d pts) as [p2 | e2] eqn:H2;
    eexists _, _, _, _; (split; [reflexivity |]); (split; [reflexivity |]);
    try (rewrite !error_dict_other by done; by rewrite !error_dict_error).
  rewrite (pair_distances_sym p2 p1), (orbit_paths_same_length _ _ _ _ _ _ _ _ _ H2 H1)
    by (by eapply orbit_paths_same_length).
  rewrite !result_min_distance, !result_collision_risk, !result_relative_velocity,
    !result_warning_periods, !result_closest_time, !result_all_distances,
    !result_times, !result_satellite_1, !result_satellite_2, !result_no_error.
  done.
Qed.

(** On the still clock the two runs share one world. *)
Lemma analysis_is_symmetric_witness :
  exists d1 d2 w' v',
    analyze_close_approach "A" "B" 4 5 Scenario.still = (Ok d1, w') /\
    analyze_close_approach "B" "A" 4 5 Scenario.still = (Ok d2, v') /\
    d1 !! "min_distance_km" = d2 !! "min_distance_km" /\
    d1 !! "collision_risk" = d2 !! "collision_risk" /\
    d1 !! "relative_velocity_km_s" = d2 !! "relative_velocity_km_s" /\
    d1 !! "warning_periods" = d2 !! "warning_periods" /\
    d1 !! "closest_approach_time" = d2 !! "closest_approach_time" /\
    d1 !! "all_distances" = d2 !! "all_distances" /\
    d1 !! "times" = d2 !! "times" /\
    d1 !! "satellite_1" = d2 !! "satellite_2" /\
    d1 !! "satellite_2" = d2 !! "satellite_1" /\
    (d1 !! "error" = None <-> d2 !! "error" = None).
Proof.
  apply (analysis_is_symmetric "A" "B" 4%R 5 Scenario.still Scenario.still);
    reflexivity.
Defined.

(** ** The warning count *)

Lemma elem_of_where_from (mask : list bool) (i k : nat) :
  k ∈ where_from i mask <-> exists j, k = (i + j)%nat /\ mask !! j = Some true.
Proof.
  revert i. induction mask as [| b mask IH]; intros i; cbn [where_from].
  - split; [by intros ?%elem_of_nil | by intros (j & _ & ?)].
  - assert (Htl : k ∈ where_from (S i) mask <->
                  exists j, k = (i + S j)%nat /\ mask !! j = Some true).
    { rewrite IH. split; intros (j & -> & Hj); exists j; split; (lia || done). }
    destruct b.
    + rewrite elem_of_cons, Htl. split.
      * intros [-> | (j & -> & Hj)]; [exists 0%nat | exists (S j)]; split;
          (lia || done).
      * intros ([| j] & -> & Hj); [left; lia | right; by exists j].
    + rewrite Htl. split.
      * intros (j & -> & Hj). by exists (S j).
      * intros ([| j] & -> & Hj); [done | by exists j].
Qed.

Lemma where_from_ge (mask : list bool) (i k : nat) :
  k ∈ where_from i mask -> (i <= k)%nat.
Proof. intros (j & -> & _)%elem_of_where_from. lia. Qed.

Lemma NoDup_where_from (mask : list bool) (i : nat) : NoDup (where_from i mask).
Proof.
  revert i. induction mask as [| b mask IH]; intros i; cbn [where_from].
  - constructor.
  - destruct b; [| apply IH]. constructor; [| apply IH].
    intros Hin%where_from_ge. lia.
Qed.

Lemma np_less_lookup (a : list R) (b : R) (j : nat) :
  np_less a b !! j = Some true <-> exists x, a !! j = Some x /\ (x < b)%R.
Proof.
  unfold np_less. rewrite list_lookup_fmap. destruct (a !! j) as [x |]; simpl.
  - split.
    + intros [= Hx]. exists x. split; [done | by apply ltb_lt].
    + intros (y & [= <-] & Hy). f_equal. by apply ltb_lt.
  - split; [done | by intros (? & ? & _)].
Qed.

Lemma where_from_none (mask : list bool) (i : nat) :
  Forall (fun b => b = false) mask -> where_from i mask = [].
Proof.
  intros Hm. revert i. induction Hm as [| b mask -> _ IH]; intros i; [done |].
  apply IH.
Qed.

Lemma calculate_distance_nonneg (a b : vec3) : (0 <= calculate_distance a b)%R.
Proof.
  destruct a as [[x1 y1] z1], b as [[x2 y2] z2]. apply sqrt_pos.
Qed.

Lemma pair_distances_nonneg (p1 p2 : path) :
  Forall (fun x => (0 <= x)%R) (pair_distances p1 p2).
Proof.
  destruct p1 as [[x1 y1] z1], p2 as [[x2 y2] z2]. unfold pair_distances.
  apply Forall_fmap, Forall_true. intros i. apply calculate_distance_nonneg.
Qed.

Lemma pair_distances_lookup (x1 y1 z1 x2 y2 z2 : list R) (i : nat)
    (a1 b1 c1 a2 b2 c2 : R) :
  x1 !! i = Some a1 -> y1 !! i = Some b1 -> z1 !! i = Some c1 ->
  x2 !! i = Some a2 -> y2 !! i = Some b2 -> z2 !! i = Some c2 ->
  pair_distances (x1, y1, z1) (x2, y2, z2) !! i
  = Some (calculate_distance (a1, b1, c1) (a2, b2, c2)).
Proof.
  intros Ha1 Hb1 Hc1 Ha2 Hb2 Hc2. unfold pair_distances.
  rewrite list_lookup_fmap.
  rewrite (lookup_seq_lt 0 (length x1) i) by (by eapply lookup_lt_Some).
  cbn [fmap option_fmap option_map Nat.add].
  by rewrite (list_lookup_total_correct _ _ _ Ha1),
    (list_lookup_total_correct _ _ _ Hb1), (list_lookup_total_correct _ _ _ Hc1),
    (list_lookup_total_correct _ _ _ Ha2), (list_lookup_total_correct _ _ _ Hb2),
    (list_lookup_total_correct _ _ _ Hc2).
Qed.

(** C7. The warning count is the number of sample indices whose distance is
    strictly below the warning distance of the detector. A dictionary returned
    without an error comes from the two paths that the two calls of
    [generate_orbit_path] yield, one after the other; its [all_distances] has
    one entry per point, entry [i] being [calculate_distance] of the [i]-th
    samples of the two paths (the list [pair_distances] of the two paths), and
    [warning_periods] is the number of the indices [i] whose entry is strictly
    below the warning distance. With the warning distance 0 the count is 0 for
    every pair of trajectories. *)
Theorem warning_count_is_samples_below_warning :
  (forall s1 s2 d pts w dict w',
      analyze_close_approach s1 s2 d pts w = (Ok dict, w') ->
      dict !! "error" = None ->
      exists (x1 y1 z1 x2 y2 z2 : list R) (w1 w2 : world) (indices : list nat),
        generate_orbit_path s1 d pts w = (Ok (x1, y1, z1), w1) /\
        generate_orbit_path s2 d pts w1 = (Ok (x2, y2, z2), w2) /\
        dict !! "all_distances"
        = Some (VArray (pair_distances (x1, y1, z1) (x2, y2, z2))) /\
        length (pair_distances (x1, y1, z1) (x2, y2, z2)) = Z.to_nat pts /\
        (forall (i : nat) a1 b1 c1 a2 b2 c2,
            x1 !! i = Some a1 -> y1 !! i = Some b1 -> z1 !! i = Some c1 ->
            x2 !! i = Some a2 -> y2 !! i = Some b2 -> z2 !! i = Some c2 ->
            pair_distances (x1, y1, z1) (x2, y2, z2) !! i
            = Some (calculate_distance (a1, b1, c1) (a2, b2, c2))) /\
        NoDup indices /\
        (forall i : nat,
            i ∈ indices <->
            exists x, pair_distances (x1, y1, z1) (x2, y2, z2) !! i = Some x
                      /\ (x < warning_distance_km (detector w))%R) /\
        dict !! "warning_periods" = Some (VInt (Z.of_nat (length indices))))
  /\
  (forall s1 s2 d pts w dict w',
      analyze_close_approach s1 s2 d pts w = (Ok dict, w') ->
      dict !! "error" = None ->
      warning_distance_km (detector w) = 0%R ->
      dict !! "warning_periods" = Some (VInt 0)).
Proof.
  split; intros s1 s2 d pts w dict w' Hrun Herr.
  - destruct (analyze_no_error_inv _ _ _ _ _ _ _ Hrun Herr)
      as ([[x1 y1] z1] & [[x2 y2] z2] & H1 & H2 & -> & _).
    exists x1, y1, z1, x2, y2, z2, (advance 1 w), (advance 2 w).
    eexists.
    split.
    { by rewrite generate_orbit_path_spec, H1, (reads_known _ _ _ _ _ _ H1). }
    split.
    { rewrite generate_orbit_path_spec. cbn [advance predictor now ticks].
      by rewrite H2, (reads_known _ _ _ _ _ _ H2). }
    split; [apply result_all_distances |].
    split.
    { rewrite pair_distances_length. cbn [fst].
      by apply orbit_path_of_length in H1 as (_ & -> & _). }
    split; [apply pair_distances_lookup |].
    split; [apply NoDup_where_from |].
    split; [| apply result_warning_periods].
    intros i. unfold np_where. rewrite elem_of_where_from. split.
    + intros (j & -> & Hj). by apply np_less_lookup.
    + intros Hx. exists i. split; [done |]. by apply np_less_lookup.
  - intros Hw0.
    destruct (analyze_no_error_inv _ _ _ _ _ _ _ Hrun Herr)
      as (p1 & p2 & _ & _ & -> & _).
    rewrite result_warning_periods, Hw0. unfold np_where.
    rewrite where_from_none; [done |].
    unfold np_less. apply Forall_fmap.
    eapply Forall_impl; [apply pair_distances_nonneg |].
    intros x Hx. by apply ltb_false.
Qed.

Lemma warnings_on_scenario :
  np_where (np_less Scenario.distances 10) = [2%nat].
Proof.
  unfold np_where, np_less, Scenario.distances. cbn [map where_from].
  rewrite (ltb_false 100 10), (ltb_false 50 10), (ltb_true 2 10),
    (ltb_false 60 10), (ltb_false 120 10) by lra.
  reflexivity.
Qed.

(** On the scenario the distances are 100, 50, 2, 60 and 120 km. One sample,
    the one at 2 km, is below the warning distance of 10 km, and the count is
    1; with the warning distance 0 the count is 0. *)
Lemma warning_count_is_samples_below_warning_witness :
  (exists dict w',
      analyze_close_approach "A" "B" 4 5 Scenario.still = (Ok dict, w') /\
      dict !! "error" = None /\
      dict !! "all_distances" = Some (VArray [100; 50; 2; 60; 120]%R) /\
      dict !! "warning_periods" = Some (VInt 1) /\
      exists (x1 y1 z1 x2 y2 z2 : list R) (w1 w2 : world) (indices : list nat),
        generate_orbit_path "A" 4 5 Scenario.still = (Ok (x1, y1, z1), w1) /\
        generate_orbit_path "B" 4 5 w1 = (Ok (x2, y2, z2), w2) /\
        dict !! "all_distances"
        = Some (VArray (pair_distances (x1, y1, z1) (x2, y2, z2))) /\
        length (pair_distances (x1, y1, z1) (x2, y2, z2)) = Z.to_nat 5 /\
        (forall (i : nat) a1 b1 c1 a2 b2 c2,
            x1 !! i = Some a1 -> y1 !! i = Some b1 -> z1 !! i = Some c1 ->
            x2 !! i = Some a2 -> y2 !! i = Some b2 -> z2 !! i = Some c2 ->
            pair_distances (x1, y1, z1) (x2, y2, z2) !! i
            = Some (calculate_distance (a1, b1, c1) (a2, b2, c2))) /\
        NoDup indices /\
        (forall i : nat,
            i ∈ indices <->
            exists x, pair_distances (x1, y1, z1) (x2, y2, z2) !! i = Some x
                      /\ (x < warning_distance_km (detector Scenario.still))%R) /\
        dict !! "warning_periods" = Some (VInt (Z.of_nat (length indices))))
  /\
  (exists dict w',
      analyze_close_approach "A" "B" 4 5 Scenario.silent = (Ok dict, w') /\
      dict !! "error" = None /\
      warning_distance_km (detector Scenario.silent) = 0%R /\
      dict !! "all_distances" = Some (VArray [100; 50; 2; 60; 120]%R) /\
      dict !! "warning_periods" = Some (VInt 0)).
Proof.
  split.
  - eexists _, _. split; [apply ScenarioRun.analysis_still |].
    split; [apply result_no_error |].
    split; [apply result_all_distances |].
    split.
    { by rewrite result_warning_periods, warnings_on_scenario. }
    apply (proj1 warning_count_is_samples_below_warning "A" "B" 4%R 5
             Scenario.still _ _ ScenarioRun.analysis_still).
    apply result_no_error.
  - eexists _, _. split; [apply ScenarioRun.analysis_silent |].
    split; [apply result_no_error |].
    split; [reflexivity |].
    split; [apply result_all_distances |].
    apply (proj2 warning_count_is_samples_below_warning "A" "B" 4%R 5
             Scenario.silent _ _ ScenarioRun.analysis_silent).
    + apply result_no_error.
    + reflexivity.
Defined.

(** ** The catalog *)

Lemma store_all_lookup (sats : list EarthSatellite) (c : gmap string EarthSatellite)
    (name : string) :
  store_all c sats !! name =
    match last_named name sats with
    | Some sat => Some sat
    | None => c !! name
    end.
Proof.
  revert c. unfold store_all, last_named.
  induction sats as [| s sats IH]; intros c; [done |].
  cbn [foldl]. rewrite IH, filter_cons.
  destruct (decide (sat_name s = name)) as [<- | Hne].
  - rewrite last_cons, lookup_insert_eq.
    by destruct (last (filter _ sats)).
  - by rewrite lookup_insert_ne.
Qed.

Lemma last_named_None (sats : list EarthSatellite) (name : string) :
  name ∉ sat_name <$> sats -> last_named name sats = None.
Proof.
  unfold last_named. induction sats as [| s sats IH]; [done |].
  rewrite fmap_cons, not_elem_of_cons, filter_cons. intros [Hne Hn].
  rewrite decide_False by done. by apply IH.
Qed.

Lemma last_named_Some (sats : list EarthSatellite) (name : string) sat :
  last_named name sats = Some sat -> sat ∈ sats /\ sat_name sat = name.
Proof.
  unfold last_named. intros Hl%last_Some_elem_of.
  apply list_elem_of_filter in Hl as [Hn Hin]. done.
Qed.

Lemma print_run (line : string) (w : world) : print line w = (Ok tt, printed [line] w).
Proof. reflexivity. Qed.

Lemma load_dot_tle_file_run (path : string) (w : world) :
  load_dot_tle_file path w = (tle_file w path, w).
Proof. reflexivity. Qed.

(** The storing loop of [load_tle_file]. *)
Lemma store_loop (sats : list EarthSatellite) (w : world) :
  for_each sats
    (fun sat _ =>
       self ← get_predictor;
       set_predictor {| satellites := <[sat_name sat := sat]> (satellites self) |})
    tt w
  = (Ok tt, with_catalog (store_all (satellites (predictor w)) sats) w).
Proof.
  revert w. induction sats as [| s sats IH]; intros w; cbn [for_each].
  - rewrite ret_run. by destruct w as [[c] ? ? ? ? ?].
  - run_M. unfold set_predictor at 1. rewrite IH. reflexivity.
Qed.

Lemma load_tle_file_run (path : string) (w : world) :
  load_tle_file path w =
    match tle_file w path with
    | Ok sats =>
        (Ok (store_all ∅ sats),
         printed ["Loaded " +:+ pretty (length sats) +:+ " satellites"]
           (with_catalog (store_all (satellites (predictor w)) sats)
              (printed ["Loading TLE file: " +:+ path] w)))
    | Raise e => (Raise e, printed ["Loading TLE file: " +:+ path] w)
    end.
Proof.
  unfold load_tle_file.
  rewrite bind_run, print_run, bind_run, load_dot_tle_file_run.
  change (tle_file (printed _ w) path) with (tle_file w path).
  destruct (tle_file w path) as [sats | e]; [| done].
  rewrite bind_run, store_loop, bind_run, print_run, ret_run. reflexivity.
Qed.

Lemma last_named_is_Some (sats : list EarthSatellite) (name : string) :
  name ∈ sat_name <$> sats -> is_Some (last_named name sats).
Proof.
  intros (sat & -> & Hin)%list_elem_of_fmap. unfold last_named.
  apply last_is_Some. intros Hnil.
  by apply (filter_nil_not_elem_of _ _ sat Hnil).
Qed.

(** C8 as stated fails. A fresh predictor loads the stations file, which
    holds the ISS, and then the science file, which holds only the HST: the
    ISS record of the first load is still in the catalog and its position can
    still be predicted. *)
Lemma reload_keeps_earlier_records_counterexample :
  exists r1 w1 r2 w2,
    load_tle_file "stations.tle" Reload.fresh = (Ok r1, w1) /\
    satellites (predictor w1) !! "ISS (ZARYA)" = Some Reload.iss /\
    tle_file w1 "science.tle" = Ok [Reload.hubble] /\
    load_tle_file "science.tle" w1 = (Ok r2, w2) /\
    r2 !! "ISS (ZARYA)" = None /\
    satellites (predictor w2) !! "ISS (ZARYA)" = Some Reload.iss /\
    predict_position "ISS (ZARYA)" 0 w2 = (Ok (6800, 0, 0)%R, w2).
Proof.
  eexists _, _, _, _.
  split; [by rewrite load_tle_file_run |].
  split; [reflexivity |].
  split; [reflexivity |].
  split; [by rewrite load_tle_file_run |].
  split; [reflexivity |].
  split; [reflexivity |].
  rewrite predict_position_run. reflexivity.
Qed.

(** C8, amended. Loading merges into the catalog. After a load into an
    already loaded catalog every record of an earlier load whose name does not
    occur in the new file is still retrievable by name, unchanged; a name that
    occurs in the new file maps to the last record of the new file with that
    name. The returned dictionary holds the records of the new file only. *)
Theorem reload_merges_into_catalog :
  forall (path : string) (w : world) (sats : list EarthSatellite),
    tle_file w path = Ok sats ->
    exists loaded w',
      load_tle_file path w = (Ok loaded, w') /\
      (forall name : string,
          name ∉ sat_name <$> sats ->
          loaded !! name = None /\
          satellites (predictor w') !! name = satellites (predictor w) !! name) /\
      (forall name : string,
          name ∈ sat_name <$> sats ->
          exists sat,
            last_named name sats = Some sat /\
            loaded !! name = Some sat /\
            satellites (predictor w') !! name = Some sat).
Proof.
  intros path w sats Hfile. rewrite load_tle_file_run, Hfile.
  eexists _, _. split; [reflexivity |].
  cbn [printed with_catalog predictor satellites]. split.
  - intros name Hn. rewrite !store_all_lookup, (last_named_None _ _ Hn). done.
  - intros name Hn. destruct (last_named_is_Some _ _ Hn) as [sat Hs].
    exists sat. by rewrite !store_all_lookup, Hs.
Qed.

(** The first load of the fresh predictor. *)
Lemma reload_merges_into_catalog_witness :
  exists loaded w',
    load_tle_file "stations.tle" Reload.fresh = (Ok loaded, w') /\
    (forall name : string,
        name ∉ sat_name <$> [Reload.iss] ->
        loaded !! name = None /\
        satellites (predictor w') !! name
        = satellites (predictor Reload.fresh) !! name) /\
    (forall name : string,
        name ∈ sat_name <$> [Reload.iss] ->
        exists sat,
          last_named name [Reload.iss] = Some sat /\
          loaded !! name = Some sat /\
          satellites (predictor w') !! name = Some sat).
Proof.
  apply (reload_merges_into_catalog "stations.tle" Reload.fresh [Reload.iss]).
  reflexivity.
Defined.

(** ** Determinism and failures *)

(** C9. [predict_position] is deterministic. Its outcome depends on the
    record stored under the name and on the requested time only: in any two
    worlds that hold the same record under the name, whatever their clocks,
    outputs or other state, the call yields the same outcome, and it leaves
    the world as it was, so that a second call yields it again. *)
Theorem predict_position_is_deterministic :
  forall (name : string) (t : datetime) (w v : world),
    satellites (predictor v) !! name = satellites (predictor w) !! name ->
    exists r : outcome vec3,
      predict_position name t w = (r, w) /\
      predict_position name t v = (r, v).
Proof.
  intros name t w v Hrec. rewrite !predict_position_run, Hrec. by eexists.
Qed.

(** The same record on the still and on the ticking clock. *)
Lemma predict_position_is_deterministic_witness :
  exists r : outcome vec3,
    predict_position "A" 7200000000 Scenario.still = (r, Scenario.still) /\
    predict_position "A" 7200000000 Scenario.ticking = (r, Scenario.ticking).
Proof.
  apply (predict_position_is_deterministic "A" 7200000000
           Scenario.still Scenario.ticking).
  reflexivity.
Defined.

Lemma orbit_path_of_unknown sats name st d pts :
  sats !! name = None ->
  orbit_path_of sats name st d pts
  = Raise (ValueError ("Satellite '" +:+ name +:+ "' not found")).
Proof. unfold orbit_path_of. by intros ->. Qed.

(** C10. When the generation of either path fails, in particular when one of
    the names is unknown, the analysis raises nothing: it returns the
    dictionary whose only key is ['error'], with a message that carries the
    text of the exception that stopped the generation, so none of the numeric
    fields is present, and the detector is left as it was. *)
Theorem failed_generation_yields_error_dictionary :
  forall (s1 s2 : string) (d : R) (pts : Z) (w : world),
    (exists e w1, generate_orbit_path s1 d pts w = (Raise e, w1)) \/
    (exists p w1 e w2,
        generate_orbit_path s1 d pts w = (Ok p, w1) /\
        generate_orbit_path s2 d pts w1 = (Raise e, w2)) \/
    satellites (predictor w) !! s1 = None \/
    satellites (predictor w) !! s2 = None ->
    exists (e : exn) (dict : gmap string value) (w' : world),
      analyze_close_approach s1 s2 d pts w = (Ok dict, w') /\
      ((generate_orbit_path s1 d pts w).1 = Raise e \/
       exists p w1, generate_orbit_path s1 d pts w = (Ok p, w1) /\
                    (generate_orbit_path s2 d pts w1).1 = Raise e) /\
      dict = {[ "error" := VStr ("Could not generate orbits: " +:+ exn_str e) ]} /\
      dict !! "min_distance_km" = None /\
      dict !! "relative_velocity_km_s" = None /\
      dict !! "warning_periods" = None /\
      dict !! "all_distances" = None /\
      dict !! "collision_risk" = None /\
      detector w' = detector w.
Proof.
  intros s1 s2 d pts w Hfail.
  rewrite analyze_close_approach_spec. cbv zeta.
  rewrite generate_orbit_path_spec.
  destruct (orbit_path_of _ s1 _ d pts) as [p1 | e1] eqn:H1.
  - rewrite (reads_known _ _ _ _ _ _ H1).
    assert (H2 : exists e2,
               orbit_path_of (satellites (predictor w)) s2
                 (now w (1 + ticks w)%nat) d pts = Raise e2).
    { destruct Hfail as [(e & w1 & He) | [(p & w1 & e & w2 & Hp & He) | [Hn | Hn]]].
      - rewrite generate_orbit_path_spec, H1 in He. discriminate He.
      - rewrite generate_orbit_path_spec, H1, (reads_known _ _ _ _ _ _ H1) in Hp.
        injection Hp as _ <-. rewrite generate_orbit_path_spec in He.
        injection He as He _. by exists e.
      - by rewrite (orbit_path_of_unknown _ _ _ _ _ Hn) in H1.
      - eexists. by apply orbit_path_of_unknown. }
    destruct H2 as [e2 H2]. rewrite H2.
    exists e2. eexists _, _. split; [reflexivity |].
    split.
    { right. eexists _, _. split; [reflexivity |].
      rewrite generate_orbit_path_spec. cbn [advance predictor now ticks fst].
      exact H2. }
    by rewrite !error_dict_other.
  - exists e1. eexists _, _. split; [reflexivity |].
    split; [by left |]. by rewrite !error_dict_other.
Qed.

(** Object [A] against a name that is not in the catalog. *)
Lemma failed_generation_yields_error_dictionary_witness :
  exists (e : exn) (dict : gmap string value) (w' : world),
    analyze_close_approach "A" "X" 4 5 Scenario.still = (Ok dict, w') /\
    ((generate_orbit_path "A" 4 5 Scenario.still).1 = Raise e \/
     exists p w1, generate_orbit_path "A" 4 5 Scenario.still = (Ok p, w1) /\
                  (generate_orbit_path "X" 4 5 w1).1 = Raise e) /\
    dict = {[ "error" := VStr ("Could not generate orbits: " +:+ exn_str e) ]} /\
    dict !! "min_distance_km" = None /\
    dict !! "relative_velocity_km_s" = None /\
    dict !! "warning_periods" = None /\
    dict !! "all_distances" = None /\
    dict !! "collision_risk" = None /\
    detector w' = detector Scenario.still.
Proof.
  apply (failed_generation_yields_error_dictionary "A" "X" 4%R 5 Scenario.still).
  right. right. right. reflexivity.
Defined.

(** * Further properties of the code *)

(** ** Reductions *)

Lemma outcome_bind_Ok {A B} (a : A) (k : A -> outcome B) : (Ok a ≫= k) = k a.
Proof. reflexivity. Qed.

Lemma fold_left_Rmax_spec (l : list R) (x : R) :
  let m := fold_left Rmax l x in
  (m = x \/ m ∈ l) /\ (x <= m)%R /\ Forall (fun y => (y <= m)%R) l.
Proof.
  revert x. induction l as [| y l IH]; intros x; cbn [fold_left].
  - split; [by left |]. split; [lra | constructor].
  - destruct (IH (Rmax x y)) as (Hin & Hle & Hall).
    pose proof (Rmax_l x y). pose proof (Rmax_r x y).
    split; [| split; [lra | constructor; [lra | done]]].
    destruct Hin as [-> | Hin]; [| right; by right].
    unfold Rmax. destruct (Rle_dec x y); [right; by left | by left].
Qed.

Lemma fold_left_Rmin_spec (l : list R) (x : R) :
  let m := fold_left Rmin l x in
  (m = x \/ m ∈ l) /\ (m <= x)%R /\ Forall (fun y => (m <= y)%R) l.
Proof.
  revert x. induction l as [| y l IH]; intros x; cbn [fold_left].
  - split; [by left |]. split; [lra | constructor].
  - destruct (IH (Rmin x y)) as (Hin & Hle & Hall).
    pose proof (Rmin_l x y). pose proof (Rmin_r x y).
    split; [| split; [lra | constructor; [lra | done]]].
    destruct Hin as [-> | Hin]; [| right; by right].
    unfold Rmin. destruct (Rle_dec x y); [by left | right; by left].
Qed.

Lemma np_max_spec (a : list R) (m : R) :
  np_max a = Ok m <-> m ∈ a /\ Forall (fun y => (y <= m)%R) a.
Proof.
  destruct a as [| x l]; cbn [np_max].
  - split; [done | by intros [?%elem_of_nil _]].
  - destruct (fold_left_Rmax_spec l x) as (Hin & Hle & Hall). split.
    + intros [= <-]. split; [| by constructor].
      destruct Hin as [-> | Hin]; [by left | by right].
    + intros [Hm Hub]. f_equal. apply Rle_antisym.
      * destruct Hin as [-> | Hin].
        -- by inversion Hub.
        -- rewrite Forall_forall in Hub. apply Hub. by right.
      * apply elem_of_cons in Hm as [-> | Hm]; [done |].
        rewrite Forall_forall in Hall. by apply Hall.
Qed.

Lemma np_min_spec (a : list R) (m : R) :
  np_min a = Ok m <-> m ∈ a /\ Forall (fun y => (m <= y)%R) a.
Proof.
  destruct a as [| x l]; cbn [np_min].
  - split; [done | by intros [?%elem_of_nil _]].
  - destruct (fold_left_Rmin_spec l x) as (Hin & Hle & Hall). split.
    + intros [= <-]. split; [| by constructor].
      destruct Hin as [-> | Hin]; [by left | by right].
    + intros [Hm Hlb]. f_equal. apply Rle_antisym.
      * apply elem_of_cons in Hm as [-> | Hm]; [done |].
        rewrite Forall_forall in Hall. by apply Hall.
      * destruct Hin as [-> | Hin].
        -- by inversion Hlb.
        -- rewrite Forall_forall in Hlb. apply Hlb. by right.
Qed.

Lemma np_max_nonempty (a : list R) : a <> [] -> exists m, np_max a = Ok m.
Proof. destruct a; [done | by eexists]. Qed.

Lemma np_min_nonempty (a : list R) : a <> [] -> exists m, np_min a = Ok m.
Proof. destruct a; [done | by eexists]. Qed.

(** ** Coverage statistics *)

Lemma analyze_coverage_Ok lats lons mx mn sx sn :
  np_max lats = Ok mx -> np_min lats = Ok mn ->
  np_max lons = Ok sx -> np_min lons = Ok sn ->
  analyze_coverage lats lons =
    Ok (<["max_latitude" := VFloat mx]>
       (<["min_latitude" := VFloat mn]>
       (<["latitude_range" := VFloat (mx - mn)]>
       (<["longitude_span" := VFloat (sx - sn)]>
       (<["equatorial_crossings" :=
            VInt (np_sum_bool (np_not_equal (np_diff (np_sign lats)) 0))]>
       (<["total_points" := VInt (Z.of_nat (length lats))]>
          (∅ : gmap string value))))))).
Proof.
  intros Hmx Hmn Hsx Hsn. unfold analyze_coverage.
  rewrite Hmx, Hmn, Hsx, Hsn. reflexivity.
Qed.

Lemma analyze_coverage_inv lats lons dict :
  analyze_coverage lats lons = Ok dict ->
  exists mx mn sx sn,
    np_max lats = Ok mx /\ np_min lats = Ok mn /\
    np_max lons = Ok sx /\ np_min lons = Ok sn.
Proof.
  intros Hrun.
  destruct lats as [| x lats]; [done |]. destruct lons as [| y lons]; [done |].
  by eexists _, _, _, _.
Qed.

(** X1. [analyze_coverage] needs a sample of each kind: it returns a
    dictionary when neither array is empty and raises a [ValueError] when
    the latitudes or the longitudes are empty. *)
Theorem coverage_needs_samples :
  forall lats lons : list R,
    (lats <> [] -> lons <> [] -> exists dict, analyze_coverage lats lons = Ok dict) /\
    (lats = [] \/ lons = [] ->
     exists msg, analyze_coverage lats lons = Raise (Exn "ValueError" msg)).
Proof.
  intros lats lons. split.
  - intros Hlat Hlon.
    destruct (np_max_nonempty _ Hlat) as [mx Hmx].
    destruct (np_min_nonempty _ Hlat) as [mn Hmn].
    destruct (np_max_nonempty _ Hlon) as [sx Hsx].
    destruct (np_min_nonempty _ Hlon) as [sn Hsn].
    eexists. by apply analyze_coverage_Ok.
  - intros [-> | ->]; [by eexists |].
    destruct lats as [| x lats]; by eexists.
Qed.

Lemma coverage_needs_samples_witness :
  (exists dict, analyze_coverage [10; -5]%R [20; 30]%R = Ok dict) /\
  (exists msg, analyze_coverage [10; -5]%R [] = Raise (Exn "ValueError" msg)).
Proof.
  split.
  - by apply (proj1 (coverage_needs_samples [10; -5]%R [20; 30]%R)).
  - apply (proj2 (coverage_needs_samples [10; -5]%R [])). by right.
Defined.

Lemma np_sum_bool_where (mask : list bool) (i : nat) :
  np_sum_bool mask = Z.of_nat (length (where_from i mask)).
Proof.
  unfold np_sum_bool. f_equal. revert i.
  induction mask as [| b mask IH]; intros i; [done |].
  rewrite filter_cons. cbn [where_from].
  destruct b; [rewrite decide_True by done | rewrite decide_False by done];
    cbn [length]; by rewrite (IH (S i)).
Qed.

Lemma float_neb_true (x b : R) : float_neb x b = true <-> x <> b.
Proof. unfold float_neb. by destruct (Req_dec_T x b). Qed.

Lemma sign_values (x : R) :
  ((x < 0)%R /\ sign x = (-1)%R) \/ (x = 0%R /\ sign x = 0%R)
  \/ ((0 < x)%R /\ sign x = 1%R).
Proof.
  unfold sign. destruct (Rtotal_order x 0) as [H | [H | H]].
  - left. by rewrite ltb_true.
  - right; left. by rewrite !ltb_false by lra.
  - right; right. by rewrite ltb_false, ltb_true by lra.
Qed.

Lemma where_from_length (mask : list bool) (i : nat) :
  (length (where_from i mask) <= length mask)%nat.
Proof.
  revert i. induction mask as [| b m IH]; intros k; [done |].
  cbn [where_from length]. specialize (IH (S k)).
  destruct b; cbn [length]; lia.
Qed.

Lemma sign_opp (x : R) : sign (- x) = (- sign x)%R.
Proof.
  destruct (sign_values x) as [[? ->] | [[? ->] | [? ->]]];
    destruct (sign_values (- x)) as [[? ->] | [[? ->] | [? ->]]]; lra.
Qed.

Lemma np_diff_opp (a : list R) : np_diff (map Ropp a) = map Ropp (np_diff a).
Proof.
  induction a as [| x [| y a] IH]; [done | done |].
  change (np_diff (map Ropp (x :: y :: a)))
    with ((- y - - x)%R :: np_diff (map Ropp (y :: a))).
  change (np_diff (x :: y :: a)) with ((y - x)%R :: np_diff (y :: a)).
  rewrite IH. cbn [map]. f_equal. lra.
Qed.

Lemma crossings_opp (lats : list R) :
  np_not_equal (np_diff (np_sign (map Ropp lats))) 0
  = np_not_equal (np_diff (np_sign lats)) 0.
Proof.
  unfold np_sign, np_not_equal. rewrite map_map.
  rewrite (map_ext (fun x => sign (- x)) (fun x => (- sign x)%R)) by apply sign_opp.
  rewrite <- (map_map sign Ropp), np_diff_opp, map_map.
  apply map_ext. intros d. unfold float_neb.
  destruct (Req_dec_T (- d) 0), (Req_dec_T d 0); (done || lra).
Qed.

Lemma np_max_opp (a : list R) (mn : R) :
  np_min a = Ok mn -> np_max (map Ropp a) = Ok (- mn)%R.
Proof.
  intros [Hin Hall]%np_min_spec. apply np_max_spec. split.
  - apply list_elem_of_fmap. by exists mn.
  - apply Forall_fmap. eapply Forall_impl; [exact Hall |]. intros x Hx. simpl. lra.
Qed.

Lemma np_min_opp (a : list R) (mx : R) :
  np_max a = Ok mx -> np_min (map Ropp a) = Ok (- mx)%R.
Proof.
  intros [Hin Hall]%np_max_spec. apply np_min_spec. split.
  - apply list_elem_of_fmap. by exists mx.
  - apply Forall_fmap. eapply Forall_impl; [exact Hall |]. intros x Hx. simpl. lra.
Qed.

(** X4. Mirroring a track at the equator (negating every latitude) swaps and
    negates the extreme latitudes and changes nothing else: the latitude
    range, the longitude span, the crossing count and the number of points
    are the same. *)
Theorem coverage_of_mirrored_track :
  forall (lats lons : list R) (dict : gmap string value),
    analyze_coverage lats lons = Ok dict ->
    exists (mirrored : gmap string value) (mx mn : R),
      analyze_coverage (map Ropp lats) lons = Ok mirrored /\
      dict !! "max_latitude" = Some (VFloat mx) /\
      dict !! "min_latitude" = Some (VFloat mn) /\
      mirrored !! "max_latitude" = Some (VFloat (- mn)) /\
      mirrored !! "min_latitude" = Some (VFloat (- mx)) /\
      mirrored !! "latitude_range" = dict !! "latitude_range" /\
      mirrored !! "longitude_span" = dict !! "longitude_span" /\
      mirrored !! "equatorial_crossings" = dict !! "equatorial_crossings" /\
      mirrored !! "total_points" = dict !! "total_points".
Proof.
  intros lats lons dict Hrun.
  destruct (analyze_coverage_inv _ _ _ Hrun) as (mx & mn & sx & sn & Hmx & Hmn & Hsx & Hsn).
  rewrite (analyze_coverage_Ok _ _ _ _ _ _ Hmx Hmn Hsx Hsn) in Hrun.
  injection Hrun as <-.
  eexists _, mx, mn.
  split; [apply (analyze_coverage_Ok _ _ _ _ _ _ (np_max_opp _ _ Hmn)
                   (np_min_opp _ _ Hmx) Hsx Hsn) |].
  rewrite crossings_opp, length_map.
  repeat split; simplify_map_eq; try done.
  do 2 f_equal. lra.
Qed.

Lemma coverage_of_mirrored_track_witness :
  exists (dict mirrored : gmap string value) (mx mn : R),
    analyze_coverage [10; -5]%R [20; 30]%R = Ok dict /\
    analyze_coverage (map Ropp [10; -5]%R) [20; 30]%R = Ok mirrored /\
    dict !! "max_latitude" = Some (VFloat mx) /\
    dict !! "min_latitude" = Some (VFloat mn) /\
    mirrored !! "max_latitude" = Some (VFloat (- mn)) /\
    mirrored !! "min_latitude" = Some (VFloat (- mx)) /\
    mirrored !! "latitude_range" = dict !! "latitude_range" /\
    mirrored !! "longitude_span" = dict !! "longitude_span" /\
    mirrored !! "equatorial_crossings" = dict !! "equatorial_crossings" /\
    mirrored !! "total_points" = dict !! "total_points".
Proof.
  destruct (coverage_of_mirrored_track [10; -5]%R [20; 30]%R _ eq_refl)
    as (mirrored & mx & mn & H).
  by eexists _, mirrored, mx, mn.
Defined.

(** ** The ground track *)

Lemma track_loop (subpoint : Time -> vec3 -> R * R) sat st deltas lats lons w :
  for_each deltas
    (fun delta '(latitudes, longitudes) =>
       geocentric ← lift (sat_at sat (ts_utc (datetime_add st (timedelta_hours delta))));
       mret ((latitudes ++
                [(subpoint (ts_utc (datetime_add st (timedelta_hours delta)))
                    geocentric).1])%list,
             (longitudes ++
                [(subpoint (ts_utc (datetime_add st (timedelta_hours delta)))
                    geocentric).2])%list))
    (lats, lons) w
  = (match positions_at sat st deltas with
     | Ok ps =>
         let track :=
           zip_with (fun delta p => subpoint (sample_second st delta) p) deltas ps in
         Ok ((lats ++ map fst track)%list, (lons ++ map snd track)%list)
     | Raise e => Raise e
     end, w).
Proof.
  revert lats lons. induction deltas as [| d ds IH]; intros lats lons;
    cbn [for_each positions_at].
  - by rewrite ret_run, !app_nil_r.
  - run_M. fold (sample_second st d).
    destruct (sat_at sat _) as [km | e]; [| done].
    run_M. rewrite IH. destruct (positions_at sat st ds); [| done].
    cbn [zip_with map]. by rewrite <- !app_assoc.
Qed.

Lemma calculate_ground_track_spec subpoint name d pts w :
  calculate_ground_track subpoint name d pts w =
    (ground_track_of subpoint (satellites (predictor w)) name (now w (ticks w)) d pts,
     advance (reads (satellites (predictor w)) name) w).
Proof.
  unfold calculate_ground_track, ground_track_of, reads. run_M.
  destruct (satellites (predictor w) !! name) as [sat |] eqn:Hs;
    [| by rewrite advance_0].
  run_M. destruct (np_linspace 0 d pts) as [deltas | e]; [| done].
  run_M. cbv zeta. rewrite track_loop. cbv zeta.
  destruct (positions_at sat (now w (ticks w)) deltas) as [ps | e]; [| done].
  by run_M.
Qed.

Lemma orbit_path_of_inv sats name st d pts x y z :
  orbit_path_of sats name st d pts = Ok (x, y, z) ->
  exists sat deltas ps,
    sats !! name = Some sat /\
    np_linspace 0 d pts = Ok deltas /\
    positions_at sat st deltas = Ok ps /\
    x = map (fun p : vec3 => p.1.1) ps /\
    y = map (fun p : vec3 => p.1.2) ps /\
    z = map (fun p : vec3 => p.2) ps.
Proof.
  unfold orbit_path_of. destruct (sats !! name) as [sat |]; [| done].
  destruct (np_linspace 0 d pts) as [deltas |]; [| done].
  destruct (positions_at sat st deltas) as [[| p ps] |] eqn:HP; [done | | done].
  intros [= <- <- <-]. by exists sat, deltas, (p :: ps).
Qed.

Lemma ground_track_of_length subpoint sats name st d pts lats lons :
  ground_track_of subpoint sats name st d pts = Ok (lats, lons) ->
  0 <= pts /\ length lats = Z.to_nat pts /\ length lons = Z.to_nat pts.
Proof.
  unfold ground_track_of. destruct (sats !! name) as [sat |]; [| done].
  destruct (np_linspace 0 d pts) as [deltas |] eqn:HL; [| done].
  destruct (positions_at sat st deltas) as [ps |] eqn:HP; [| done].
  apply np_linspace_length in HL as [Hn HL]. apply positions_at_length in HP.
  intros [= <- <-]. rewrite !length_map, length_zip_with. lia.
Qed.

(** X5. A generated ground track has exactly [points] latitudes and [points]
    longitudes. Unlike [generate_orbit_path], [calculate_ground_track] accepts
    [points = 0]: for a loaded satellite it returns two empty arrays, where
    [generate_orbit_path] raises an [IndexError]. *)
Theorem ground_track_has_points_samples :
  forall (subpoint : Time -> vec3 -> R * R) (name : string) (d : R) (pts : Z)
         (w : world),
    (forall lats lons w',
        calculate_ground_track subpoint name d pts w = (Ok (lats, lons), w') ->
        0 <= pts /\ length lats = Z.to_nat pts /\ length lons = Z.to_nat pts) /\
    (is_Some (satellites (predictor w) !! name) -> pts = 0 ->
     calculate_ground_track subpoint name d pts w = (Ok ([], []), advance 1 w) /\
     exists msg,
       generate_orbit_path name d pts w = (Raise (Exn "IndexError" msg), advance 1 w)).
Proof.
  intros subpoint name d pts w. split.
  - intros lats lons w'. rewrite calculate_ground_track_spec. intros [= H _].
    by eapply ground_track_of_length.
  - intros [sat Hs] ->.
    rewrite calculate_ground_track_spec, generate_orbit_path_spec.
    unfold ground_track_of, orbit_path_of, reads. rewrite Hs.
    split; [done | by eexists].
Qed.

Lemma scenario_track_A (subpoint : Time -> vec3 -> R * R) :
  exists lats lons,
    calculate_ground_track subpoint "A" 4 5 Scenario.still
    = (Ok (lats, lons), advance 1 Scenario.still).
Proof.
  rewrite calculate_ground_track_spec. unfold ground_track_of.
  change (satellites (predictor Scenario.still)) with Scenario.catalog.
  change (Scenario.catalog !! "A") with (Some Scenario.sat_A).
  rewrite ScenarioRun.linspace_4_5. unfold Scenario.deltas. cbn [positions_at].
  rewrite !sample_second_IZR. by eexists _, _.
Qed.

Lemma scenario_generate_A :
  generate_orbit_path "A" 4 5 Scenario.still
  = (Ok (Scenario.distances, Scenario.zeros, Scenario.zeros), advance 1 Scenario.still).
Proof.
  rewrite generate_orbit_path_spec.
  change (satellites (predictor Scenario.still)) with Scenario.catalog.
  change (now Scenario.still _) with 0.
  by rewrite ScenarioRun.path_A.
Qed.

Lemma ground_track_has_points_samples_witness :
  (exists lats lons,
      calculate_ground_track flat_subpoint "A" 4 5 Scenario.still
      = (Ok (lats, lons), advance 1 Scenario.still) /\
      0 <= 5 /\ length lats = Z.to_nat 5 /\ length lons = Z.to_nat 5) /\
  calculate_ground_track flat_subpoint "A" 4 0 Scenario.still
  = (Ok ([], []), advance 1 Scenario.still) /\
  exists msg,
    generate_orbit_path "A" 4 0 Scenario.still
    = (Raise (Exn "IndexError" msg), advance 1 Scenario.still).
Proof.
  split.
  - destruct (scenario_track_A flat_subpoint) as (lats & lons & Hrun).
    exists lats, lons. split; [exact Hrun |].
    exact (proj1 (ground_track_has_points_samples flat_subpoint "A" 4%R 5
                    Scenario.still) lats lons _ Hrun).
  - apply (proj2 (ground_track_has_points_samples flat_subpoint "A" 4%R 0
                    Scenario.still));
      [by eexists | reflexivity].
Defined.

(** X6. The ground track is the track below the orbit path. When
    [generate_orbit_path] succeeds, [calculate_ground_track] run at the same
    clock reading with the same arguments succeeds too, and its sample [i] is
    the subpoint of the sample [i] of the path at the second at which that
    sample was taken. *)
Theorem ground_track_is_below_orbit_path :
  forall (subpoint : Time -> vec3 -> R * R) (name : string) (d : R) (pts : Z)
         (w w1 : world) (x y z : list R),
    generate_orbit_path name d pts w = (Ok (x, y, z), w1) ->
    exists (lats lons deltas : list R),
      calculate_ground_track subpoint name d pts w = (Ok (lats, lons), w1) /\
      np_linspace 0 d pts = Ok deltas /\
      forall (i : nat) (delta : R),
        deltas !! i = Some delta ->
        exists xi yi zi : R,
          x !! i = Some xi /\ y !! i = Some yi /\ z !! i = Some zi /\
          let t := ts_utc (datetime_add (now w (ticks w)) (timedelta_hours delta)) in
          lats !! i = Some (subpoint t (xi, yi, zi)).1 /\
          lons !! i = Some (subpoint t (xi, yi, zi)).2.
Proof.
  intros subpoint name d pts w w1 x y z.
  rewrite generate_orbit_path_spec, calculate_ground_track_spec.
  intros [= Hpath <-].
  destruct (orbit_path_of_inv _ _ _ _ _ _ _ _ Hpath)
    as (sat & deltas & ps & Hs & HL & HP & -> & -> & ->).
  unfold ground_track_of. rewrite Hs, HL, HP. cbv zeta.
  eexists _, _, deltas. split; [reflexivity |]. split; [done |].
  intros i delta Hd.
  assert (Hi : (i < length ps)%nat).
  { apply positions_at_length in HP. rewrite HP. by eapply lookup_lt_Some. }
  destruct (lookup_lt_is_Some_2 ps i Hi) as [[[xi yi] zi] Hp].
  exists xi, yi, zi.
  rewrite !list_lookup_fmap, lookup_zip_with, Hd, Hp. done.
Qed.

Lemma ground_track_is_below_orbit_path_witness :
  exists (lats lons deltas : list R),
    calculate_ground_track flat_subpoint "A" 4 5 Scenario.still
    = (Ok (lats, lons), advance 1 Scenario.still) /\
    np_linspace 0 4 5 = Ok deltas /\
    forall (i : nat) (delta : R),
      deltas !! i = Some delta ->
      exists xi yi zi : R,
        Scenario.distances !! i = Some xi /\ Scenario.zeros !! i = Some yi /\
        Scenario.zeros !! i = Some zi /\
        let t := ts_utc (datetime_add (now Scenario.still (ticks Scenario.still))
                           (timedelta_hours delta)) in
        lats !! i = Some (flat_subpoint t (xi, yi, zi)).1 /\
        lons !! i = Some (flat_subpoint t (xi, yi, zi)).2.
Proof.
  exact (ground_track_is_below_orbit_path flat_subpoint "A" 4%R 5 Scenario.still _
           _ _ _ scenario_generate_A).
Defined.

(** X7. The coverage of a generated ground track: with at least one point
    [analyze_coverage] succeeds on the track and reports [points] as the
    number of points; on the empty track of [points = 0] it raises a
    [ValueError]. *)
Theorem coverage_of_generated_track :
  forall (subpoint : Time -> vec3 -> R * R) (name : string) (d : R) (pts : Z)
         (w w' : world) (lats lons : list R),
    calculate_ground_track subpoint name d pts w = (Ok (lats, lons), w') ->
    (0 < pts ->
     exists dict, analyze_coverage lats lons = Ok dict /\
                  dict !! "total_points" = Some (VInt pts)) /\
    (pts = 0 ->
     exists msg, analyze_coverage lats lons = Raise (Exn "ValueError" msg)).
Proof.
  intros subpoint name d pts w w' lats lons.
  rewrite calculate_ground_track_spec. intros [= H _].
  apply ground_track_of_length in H as (Hpts & Hlat & Hlon). split.
  - intros Hpos.
    assert (Hne1 : lats <> []) by (intros ->; simpl in Hlat; lia).
    assert (Hne2 : lons <> []) by (intros ->; simpl in Hlon; lia).
    destruct (np_max_nonempty _ Hne1) as [mx Hmx].
    destruct (np_min_nonempty _ Hne1) as [mn Hmn].
    destruct (np_max_nonempty _ Hne2) as [sx Hsx].
    destruct (np_min_nonempty _ Hne2) as [sn Hsn].
    eexists. split; [by apply analyze_coverage_Ok |].
    simplify_map_eq. do 2 f_equal. lia.
  - intros ->. destruct lats; [by eexists | done].
Qed.

Lemma coverage_of_generated_track_witness :
  exists (lats lons : list R),
    calculate_ground_track flat_subpoint "A" 4 5 Scenario.still
    = (Ok (lats, lons), advance 1 Scenario.still) /\
    (0 < 5 ->
     exists dict, analyze_coverage lats lons = Ok dict /\
                  dict !! "total_points" = Some (VInt 5)) /\
    (5 = 0 ->
     exists msg, analyze_coverage lats lons = Raise (Exn "ValueError" msg)).
Proof.
  destruct (scenario_track_A flat_subpoint) as (lats & lons & Hrun).
  exists lats, lons. split; [exact Hrun |].
  exact (coverage_of_generated_track _ "A" 4%R 5 Scenario.still _ lats lons Hrun).
Defined.

(** ** More on path generation *)

Lemma np_linspace_first (d : R) (pts : Z) (deltas : list R) :
  np_linspace 0 d pts = Ok deltas -> 0 < pts ->
  exists v, deltas !! 0%nat = Some v /\ v = 0%R.
Proof.
  unfold np_linspace. destruct (Z.ltb_spec pts 0); [done |].
  intros [= <-] Hpos.
  destruct (Z.to_nat pts) as [| n] eqn:Hn; [lia |].
  destruct (Z.ltb_spec 1 pts).
  - destruct n as [| n]; [lia |]. cbn [Nat.pred].
    rewrite list_lookup_insert_ne by done.
    destruct (0 <? pts - 1); cbn [seq map lookup list_lookup];
      eexists; (split; [reflexivity | change (Z.of_nat 0) with 0; lra]).
  - destruct (0 <? pts - 1); cbn [seq map lookup list_lookup];
      eexists; (split; [reflexivity | change (Z.of_nat 0) with 0; lra]).
Qed.

Lemma np_linspace_last (d : R) (pts : Z) (deltas : list R) :
  np_linspace 0 d pts = Ok deltas -> 1 < pts ->
  deltas !! Nat.pred (Z.to_nat pts) = Some d.
Proof.
  unfold np_linspace. destruct (Z.ltb_spec pts 0); [done |].
  intros [= <-] Hpos.
  destruct (Z.ltb_spec 1 pts); [| lia].
  apply list_lookup_insert_eq.
  destruct (0 <? pts - 1); rewrite !length_map, length_seq; lia.
Qed.

Lemma positions_at_lookup sat st deltas ps i delta :
  positions_at sat st deltas = Ok ps ->
  deltas !! i = Some delta ->
  exists p, ps !! i = Some p /\ sat_at sat (sample_second st delta) = Ok p.
Proof.
  revert ps i. induction deltas as [| d0 ds IH]; intros ps i; [done |].
  cbn [positions_at].
  destruct (sat_at sat (sample_second st d0)) as [km |] eqn:Hkm; [| done].
  destruct (positions_at sat st ds) as [l |]; [| done].
  intros [= <-]. destruct i as [| i]; cbn.
  - intros [= <-]. by exists km.
  - intros Hd. by apply IH.
Qed.

(** X8. The shape and the failures of [generate_orbit_path]. A generated
    path has three arrays of exactly [points] entries, with [points] at least
    1, and the clock has been read once. An unknown name raises a
    [ValueError] before the clock is read; for a loaded satellite a negative
    [points] raises a [ValueError] and [points = 0] an [IndexError]. *)
Theorem orbit_path_shape_and_failures :
  forall (name : string) (d : R) (pts : Z) (w : world),
    (forall x y z w',
        generate_orbit_path name d pts w = (Ok (x, y, z), w') ->
        0 < pts /\ length x = Z.to_nat pts /\ length y = Z.to_nat pts /\
        length z = Z.to_nat pts /\ w' = advance 1 w) /\
    (satellites (predictor w) !! name = None ->
     generate_orbit_path name d pts w
     = (Raise (Exn "ValueError" ("Satellite '" +:+ name +:+ "' not found")), w)) /\
    (is_Some (satellites (predictor w) !! name) -> pts < 0 ->
     exists msg,
       generate_orbit_path name d pts w
       = (Raise (Exn "ValueError" msg), advance 1 w)) /\
    (is_Some (satellites (predictor w) !! name) -> pts = 0 ->
     exists msg,
       generate_orbit_path name d pts w
       = (Raise (Exn "IndexError" msg), advance 1 w)).
Proof.
  intros name d pts w. rewrite generate_orbit_path_spec.
  split; [| split; [| split]].
  - intros x y z w' [= H <-].
    rewrite (reads_known _ _ _ _ _ _ H).
    apply orbit_path_of_length in H as (? & ? & ? & ?). done.
  - intros Hs. rewrite orbit_path_of_unknown by done.
    unfold reads. by rewrite Hs, advance_0.
  - intros [sat Hs] Hneg. unfold orbit_path_of, reads, np_linspace. rewrite Hs.
    destruct (Z.ltb_spec pts 0); [by eexists | lia].
  - intros [sat Hs] ->. unfold orbit_path_of, reads. rewrite Hs. by eexists.
Qed.

Lemma orbit_path_shape_and_failures_witness :
  (generate_orbit_path "A" 4 5 Scenario.still
   = (Ok (Scenario.distances, Scenario.zeros, Scenario.zeros), advance 1 Scenario.still) /\
   0 < 5 /\ length Scenario.distances = Z.to_nat 5 /\
   length Scenario.zeros = Z.to_nat 5 /\ length Scenario.zeros = Z.to_nat 5 /\
   advance 1 Scenario.still = advance 1 Scenario.still) /\
  generate_orbit_path "X" 4 5 Scenario.still
  = (Raise (Exn "ValueError" "Satellite 'X' not found"), Scenario.still) /\
  (exists msg,
      generate_orbit_path "A" 4 (-1) Scenario.still
      = (Raise (Exn "ValueError" msg), advance 1 Scenario.still)) /\
  (exists msg,
      generate_orbit_path "A" 4 0 Scenario.still
      = (Raise (Exn "IndexError" msg), advance 1 Scenario.still)).
Proof.
  split; [| split; [| split]].
  - split; [exact scenario_generate_A |].
    exact (proj1 (orbit_path_shape_and_failures "A" 4%R 5 Scenario.still)
             _ _ _ _ scenario_generate_A).
  - apply (proj1 (proj2 (orbit_path_shape_and_failures "X" 4%R 5 Scenario.still))).
    reflexivity.
  - apply (proj1 (proj2 (proj2
             (orbit_path_shape_and_failures "A" 4%R (-1) Scenario.still))));
      [by eexists | reflexivity].
  - apply (proj2 (proj2 (proj2
             (orbit_path_shape_and_failures "A" 4%R 0 Scenario.still))));
      [by eexists | reflexivity].
Defined.

(** X9. The ends of a generated path are positions that [predict_position]
    gives. The first sample is the position at the clock reading at which the
    path was generated; with more than one point the last sample is the
    position [duration_hours] hours later. *)
Theorem orbit_path_ends_are_predicted_positions :
  forall (name : string) (d : R) (pts : Z) (w w1 : world) (x y z : list R),
    generate_orbit_path name d pts w = (Ok (x, y, z), w1) ->
    let start_time := now w (ticks w) in
    (exists x0 y0 z0,
        x !! 0%nat = Some x0 /\ y !! 0%nat = Some y0 /\ z !! 0%nat = Some z0 /\
        predict_position name start_time w1 = (Ok (x0, y0, z0), w1)) /\
    (1 < pts ->
     exists xn yn zn,
       last x = Some xn /\ last y = Some yn /\ last z = Some zn /\
       predict_position name (datetime_add start_time (timedelta_hours d)) w1
       = (Ok (xn, yn, zn), w1)).
Proof.
  intros name d pts w w1 x y z. rewrite generate_orbit_path_spec.
  intros [= Hpath <-] start_time.
  pose proof (orbit_path_of_length _ _ _ _ _ _ _ _ Hpath) as (Hpts & Hx & Hy & Hz).
  destruct (orbit_path_of_inv _ _ _ _ _ _ _ _ Hpath)
    as (sat & deltas & ps & Hs & HL & HP & -> & -> & ->).
  rewrite !predict_position_run. cbn [advance predictor satellites]. rewrite Hs.
  split.
  - destruct (np_linspace_first _ _ _ HL Hpts) as (v & Hv & ->).
    destruct (positions_at_lookup _ _ _ _ _ _ HP Hv) as ([[x0 y0] z0] & Hp & Hat).
    exists x0, y0, z0. rewrite !list_lookup_fmap, Hp.
    split; [done |]. split; [done |]. split; [done |].
    f_equal. transitivity (sat_at sat (sample_second start_time 0)); [| exact Hat].
    unfold sample_second, datetime_add.
    by rewrite timedelta_hours_IZR, Z.mul_0_l, Z.add_0_r.
  - intros H1. pose proof (np_linspace_last _ _ _ HL H1) as Hv.
    destruct (positions_at_lookup _ _ _ _ _ _ HP Hv) as ([[xn yn] zn] & Hp & Hat).
    exists xn, yn, zn. rewrite !last_lookup, !length_map.
    rewrite length_map in Hx. rewrite Hx, !list_lookup_fmap, Hp.
    split; [done |]. split; [done |]. split; [done |].
    f_equal. exact Hat.
Qed.

Lemma orbit_path_ends_are_predicted_positions_witness :
  (exists x0 y0 z0,
      Scenario.distances !! 0%nat = Some x0 /\ Scenario.zeros !! 0%nat = Some y0 /\
      Scenario.zeros !! 0%nat = Some z0 /\
      predict_position "A" 0 (advance 1 Scenario.still)
      = (Ok (x0, y0, z0), advance 1 Scenario.still)) /\
  (1 < 5 ->
   exists xn yn zn,
     last Scenario.distances = Some xn /\ last Scenario.zeros = Some yn /\
     last Scenario.zeros = Some zn /\
     predict_position "A" (datetime_add 0 (timedelta_hours 4)) (advance 1 Scenario.still)
     = (Ok (xn, yn, zn), advance 1 Scenario.still)).
Proof.
  apply (orbit_path_ends_are_predicted_positions "A" 4%R 5 Scenario.still
           (advance 1 Scenario.still)
           Scenario.distances Scenario.zeros Scenario.zeros).
  exact scenario_generate_A.
Defined.

(** ** More on the analysis *)

(** X11. A result without an error has one distance and one time per point:
    [all_distances] and [times] have exactly [points] entries, and the first
    time is the reading of the clock at which the analysis started, the third
    reading of the call. *)
Theorem analysis_has_points_samples :
  forall (s1 s2 : string) (d : R) (pts : Z) (w w' : world)
         (dict : gmap string value),
    analyze_close_approach s1 s2 d pts w = (Ok dict, w') ->
    dict !! "error" = None ->
    exists (distances : list R) (times : list datetime),
      dict !! "all_distances" = Some (VArray distances) /\
      dict !! "times" = Some (VList times) /\
      0 < pts /\
      length distances = Z.to_nat pts /\ length times = Z.to_nat pts /\
      times !! 0%nat = Some (now w (2 + ticks w)%nat).
Proof.
  intros s1 s2 d pts w w' dict Hrun Herr.
  destruct (analyze_no_error_inv _ _ _ _ _ _ _ Hrun Herr)
    as ([[x1 y1] z1] & p2 & H1 & H2 & -> & _).
  apply orbit_path_of_length in H1 as (Hpts & Hx1 & _).
  eexists _, _. split; [apply result_all_distances |].
  split; [apply result_times |]. split; [done |].
  rewrite (pair_distances_length (x1, y1, z1) p2), sample_times_length.
  cbn [fst]. split; [done |]. split; [done |].
  rewrite Hx1. destruct (Z.to_nat pts) as [| n] eqn:Hn; [lia |].
  unfold sample_times. cbn [seq map lookup list_lookup]. f_equal.
  unfold datetime_add. rewrite (timedelta_hours_exact _ 0); [lia |].
  simpl. unfold Rdiv. ring.
Qed.

Lemma analysis_has_points_samples_witness :
  exists (dict : gmap string value) (w' : world)
         (distances : list R) (times : list datetime),
    analyze_close_approach "A" "B" 4 5 Scenario.ticking = (Ok dict, w') /\
    dict !! "error" = None /\
    dict !! "all_distances" = Some (VArray distances) /\
    dict !! "times" = Some (VList times) /\
    0 < 5 /\
    length distances = Z.to_nat 5 /\ length times = Z.to_nat 5 /\
    times !! 0%nat = Some (now Scenario.ticking (2 + ticks Scenario.ticking)%nat).
Proof.
  destruct (analysis_has_points_samples "A" "B" 4%R 5 Scenario.ticking _ _
              ScenarioRun.analysis_ticking (result_no_error _ _ _ _ _ _ _))
    as (distances & times & H).
  eexists _, _, distances, times.
  split; [apply ScenarioRun.analysis_ticking |].
  split; [apply result_no_error | exact H].
Defined.

(** X13. The analysis has no effect but on the clock. Whatever its arguments
    it returns a dictionary and leaves the catalog, the detector, the file
    loader and the standard output as they were; it reads the clock three
    times when it returns a result and at most twice when it returns an
    error. *)
Theorem analysis_only_reads_the_clock :
  forall (s1 s2 : string) (d : R) (pts : Z) (w : world),
  exists (dict : gmap string value) (k : nat),
    analyze_close_approach s1 s2 d pts w = (Ok dict, advance k w) /\
    (k <= 3)%nat /\
    (dict !! "error" = None <-> k = 3%nat).
Proof.
  intros s1 s2 d pts w. rewrite analyze_close_approach_spec. cbv zeta.
  destruct (orbit_path_of _ s1 _ d pts) as [p1 | e1].
  - destruct (orbit_path_of _ s2 _ d pts) as [p2 | e2].
    + eexists _, 3%nat. split; [done |]. split; [lia |].
      by rewrite result_no_error.
    + eexists _, _. split; [done |]. rewrite error_dict_error.
      unfold reads. destruct (_ !! s2); (split; [lia | split; [done | lia]]).
  - eexists _, _. split; [done |]. rewrite error_dict_error.
    unfold reads. destruct (_ !! s1); (split; [lia | split; [done | lia]]).
Qed.

(** ** More on the catalog *)

Lemma store_all_snoc c sats sat :
  store_all c (sats ++ [sat]) = <[sat_name sat := sat]> (store_all c sats).
Proof. unfold store_all. by rewrite foldl_snoc. Qed.

Lemma store_all_size (sats : list EarthSatellite) :
  (size (store_all ∅ sats) <= length sats)%nat /\
  (NoDup (sat_name <$> sats) -> size (store_all ∅ sats) = length sats).
Proof.
  induction sats as [| sat sats [IHle IHeq]] using rev_ind.
  - unfold store_all. cbn [foldl length]. rewrite map_size_empty. split; [lia | done].
  - rewrite store_all_snoc, map_size_insert, length_app, fmap_app. cbn [length fmap list_fmap].
    split.
    + destruct (store_all ∅ sats !! sat_name sat); simpl; lia.
    + intros (Hnd & Hfresh & _)%NoDup_app.
      assert (Hnone : store_all ∅ sats !! sat_name sat = None).
      { rewrite store_all_lookup, last_named_None; [done |].
        intros Hin. apply (Hfresh _ Hin). by left. }
      rewrite Hnone. simpl. rewrite IHeq by done. lia.
Qed.

Lemma store_all_idempotent c sats :
  store_all (store_all c sats) sats = store_all c sats.
Proof.
  apply map_eq. intros name. rewrite !store_all_lookup.
  by destruct (last_named name sats).
Qed.

(** X14. A load that fails changes no record: when the file loader raises,
    [load_tle_file] raises the same exception, the catalog is as it was, and
    only the line announcing the load has been printed. *)
Theorem failed_load_leaves_catalog :
  forall (path : string) (w : world) (e : exn),
    tle_file w path = Raise e ->
    exists w',
      load_tle_file path w = (Raise e, w') /\
      predictor w' = predictor w /\
      stdout w' = (stdout w ++ ["Loading TLE file: " +:+ path])%list.
Proof.
  intros path w e Hfile. rewrite load_tle_file_run, Hfile. by eexists.
Qed.

Lemma failed_load_leaves_catalog_witness :
  exists w',
    load_tle_file "missing.tle" Reload.fresh
    = (Raise (Exn "FileNotFoundError" "missing.tle"), w') /\
    predictor w' = predictor Reload.fresh /\
    stdout w' = (stdout Reload.fresh ++ ["Loading TLE file: " +:+ "missing.tle"])%list.
Proof.
  apply (failed_load_leaves_catalog "missing.tle" Reload.fresh). reflexivity.
Defined.

(** X15. Loading is idempotent on the catalog: loading the same file a second
    time returns the same dictionary and leaves the catalog as the first load
    left it. *)
Theorem second_load_of_same_file_changes_nothing :
  forall (path : string) (w w1 : world) (loaded : gmap string EarthSatellite),
    load_tle_file path w = (Ok loaded, w1) ->
    exists w2,
      load_tle_file path w1 = (Ok loaded, w2) /\
      predictor w2 = predictor w1.
Proof.
  intros path w w1 loaded. rewrite !load_tle_file_run.
  destruct (tle_file w path) as [sats |] eqn:Hfile; [| done].
  intros [= <- <-]. cbn [printed with_catalog tle_file predictor satellites].
  rewrite Hfile. eexists. split; [reflexivity |].
  cbn [printed with_catalog predictor]. by rewrite store_all_idempotent.
Qed.

Lemma second_load_of_same_file_changes_nothing_witness :
  exists (loaded : gmap string EarthSatellite) (w1 w2 : world),
    load_tle_file "stations.tle" Reload.fresh = (Ok loaded, w1) /\
    load_tle_file "stations.tle" w1 = (Ok loaded, w2) /\
    predictor w2 = predictor w1.
Proof.
  eexists _, _.
  assert (H : load_tle_file "stations.tle" Reload.fresh
              = (Ok (store_all ∅ [Reload.iss]),
                 printed ["Loaded " +:+ pretty 1%nat +:+ " satellites"]
                   (with_catalog (store_all ∅ [Reload.iss])
                      (printed ["Loading TLE file: " +:+ "stations.tle"] Reload.fresh))))
    by (by rewrite load_tle_file_run).
  destruct (second_load_of_same_file_changes_nothing _ _ _ _ H) as (w2 & H2).
  exists w2. split; [exact H | exact H2].
Defined.

(** X16. What a load returns can be used at once. Every record of the
    returned dictionary is in the catalog under its name, so that
    [predict_position] for that name reaches the record's propagator; and the
    count that the load prints is the number of records of the file, which is
    at least the size of the returned dictionary and equal to it when no name
    repeats. *)
Theorem loaded_records_are_in_catalog :
  forall (path : string) (w w' : world) (loaded : gmap string EarthSatellite),
    load_tle_file path w = (Ok loaded, w') ->
    (forall name sat,
        loaded !! name = Some sat ->
        satellites (predictor w') !! name = Some sat /\
        sat_name sat = name /\
        forall t, predict_position name t w' = (sat_at sat (ts_utc t), w')) /\
    exists sats,
      tle_file w path = Ok sats /\
      last (stdout w') = Some ("Loaded " +:+ pretty (length sats) +:+ " satellites") /\
      (size loaded <= length sats)%nat /\
      (NoDup (sat_name <$> sats) -> size loaded = length sats).
Proof.
  intros path w w' loaded. rewrite load_tle_file_run.
  destruct (tle_file w path) as [sats |] eqn:Hfile; [| done].
  intros [= <- <-]. split.
  - intros name sat. rewrite store_all_lookup.
    destruct (last_named name sats) as [s |] eqn:Hl; [| done].
    intros [= ->]. cbn [printed with_catalog predictor satellites].
    assert (Hcat : store_all (satellites (predictor w)) sats !! name = Some sat)
      by (by rewrite store_all_lookup, Hl).
    split; [done |]. split; [by apply last_named_Some in Hl as [_ ?] |].
    intros t. rewrite predict_position_run.
    cbn [printed with_catalog predictor satellites]. by rewrite Hcat.
  - exists sats. split; [done |]. split.
    + cbn [printed stdout]. by rewrite last_snoc.
    + apply store_all_size.
Qed.

Lemma loaded_records_are_in_catalog_witness :
  exists (loaded : gmap string EarthSatellite) (w' : world),
    load_tle_file "stations.tle" Reload.fresh = (Ok loaded, w') /\
    (forall name sat,
        loaded !! name = Some sat ->
        satellites (predictor w') !! name = Some sat /\
        sat_name sat = name /\
        forall t, predict_position name t w' = (sat_at sat (ts_utc t), w')) /\
    exists sats,
      tle_file Reload.fresh "stations.tle" = Ok sats /\
      last (stdout w') = Some ("Loaded " +:+ pretty (length sats) +:+ " satellites") /\
      (size loaded <= length sats)%nat /\
      (NoDup (sat_name <$> sats) -> size loaded = length sats).
Proof.
  eexists _, _.
  assert (H : load_tle_file "stations.tle" Reload.fresh
              = (Ok (store_all ∅ [Reload.iss]),
                 printed ["Loaded " +:+ pretty 1%nat +:+ " satellites"]
                   (with_catalog (store_all ∅ [Reload.iss])
                      (printed ["Loading TLE file: " +:+ "stations.tle"] Reload.fresh))))
    by (by rewrite load_tle_file_run).
  split; [exact H |].
  exact (loaded_records_are_in_catalog _ _ _ _ H).
Defined.

(** ** The report *)

Lemma report_of_error fixed strftime render type_name array_is
    (dict : gmap string value) (v : value) (w : world) :
  dict !! "error" = Some v ->
  generate_collision_report fixed strftime render type_name array_is dict w
  = (Ok ("ERROR: " +:+ py_str render v), w).
Proof.
  intros He. unfold generate_collision_report.
  rewrite bool_decide_eq_true_2 by (by rewrite He).
  run_M. unfold dict_getitem. rewrite He. by run_M.
Qed.

Lemma format_f_float fixed strftime (n : nat) (r : R) :
  format_f fixed strftime n (VFloat r) = Ok (fixed n r).
Proof. reflexivity. Qed.

Lemma call_strftime_datetime strftime type_name (t : datetime) (fmt : string) :
  call_strftime strftime type_name (VDatetime t) fmt = Ok (strftime t fmt).
Proof. reflexivity. Qed.

Lemma report_of_result fixed strftime render type_name array_is
    s1 s2 distances times warning d pts (w : world) :
  exists head : string,
    generate_collision_report fixed strftime render type_name array_is
      (result_dict s1 s2 distances times warning d pts) w =
      (Ok ((head +:+ recommendation_for (distances !!! argmin distances))
           +:+ nl +:+ nl +:+ "Analysis completed at: "
           +:+ strftime (now w (ticks w)) "%Y-%m-%d %H:%M:%S UTC"),
       advance 1 w).
Proof.
  assert (Hrv : exists text,
             format_f fixed strftime 3 (relative_velocity_of distances d pts) = Ok text).
  { unfold relative_velocity_of. destruct (_ && _); by eexists. }
  destruct Hrv as [text Hrv].
  unfold recommendation_for.
  destruct (Num.ltb (distances !!! argmin distances) 1) eqn:Hhigh;
    [| destruct (Num.ltb (distances !!! argmin distances) 5) eqn:Hmedium];
    eexists;
    unfold generate_collision_report;
    (rewrite bool_decide_eq_false_2
       by (rewrite result_no_error; by intros [? ?]));
    unfold dict_getitem;
    rewrite result_satellite_1, result_satellite_2, result_collision_risk,
      result_min_distance, result_closest_time, result_relative_velocity;
    unfold collision_risk; rewrite Hhigh, ?Hmedium;
    do 6 (run_M; rewrite ?format_f_float, ?call_strftime_datetime, ?Hrv);
    cbv zeta; unfold eq_str.
  - case_bool_decide; [| congruence]. run_M. reflexivity.
  - case_bool_decide; [discriminate |]. run_M.
    case_bool_decide; [| congruence]. run_M. reflexivity.
  - case_bool_decide; [discriminate |]. run_M.
    case_bool_decide; [discriminate |]. run_M. reflexivity.
Qed.

(** X19. The report of an error dictionary is the error itself: when the
    dictionary has an ['error'] key holding a message, the report is
    ["ERROR: "] followed by that message, whatever else the dictionary holds,
    and the clock is not read. *)
Theorem report_of_an_error_dictionary :
  forall fixed strftime render type_name array_is
         (dict : gmap string value) (msg : string) (w : world),
    dict !! "error" = Some (VStr msg) ->
    generate_collision_report fixed strftime render type_name array_is dict w
    = (Ok ("ERROR: " +:+ msg), w).
Proof.
  intros fixed strftime render type_name array_is dict msg w He.
  by rewrite (report_of_error _ _ _ _ _ _ _ _ He).
Qed.

Lemma report_of_an_error_dictionary_witness :
  generate_collision_report Marks.fixed Marks.strftime Marks.render Marks.type_name
    Marks.array_is (error_dict (Exn "ValueError" "Satellite 'X' not found"))
    Scenario.still
  = (Ok ("ERROR: " +:+ "Could not generate orbits: Satellite 'X' not found"),
     Scenario.still).
Proof.
  apply (report_of_an_error_dictionary Marks.fixed Marks.strftime Marks.render
           Marks.type_name Marks.array_is
           (error_dict (Exn "ValueError" "Satellite 'X' not found"))).
  reflexivity.
Defined.

(** X20. A report can be made of whatever the analysis returns: applied to
    the dictionary of [analyze_close_approach] the report raises nothing. For
    an error dictionary it is ["ERROR: "] and the message. For a result it
    reads the clock once, carries the recommendation that belongs to the
    minimum distance (the HIGH text strictly below 1 km, the MEDIUM text from
    1 km to strictly below 5 km, the LOW text otherwise) and ends with the
    stamp of that clock reading. *)
Theorem report_of_an_analysis :
  forall fixed strftime render type_name array_is
         (s1 s2 : string) (d : R) (pts : Z) (w w1 : world)
         (dict : gmap string value),
    analyze_close_approach s1 s2 d pts w = (Ok dict, w1) ->
    (exists msg,
        dict !! "error" = Some (VStr msg) /\
        generate_collision_report fixed strftime render type_name array_is dict w1
        = (Ok ("ERROR: " +:+ msg), w1)) \/
    (exists (m : R) (head : string),
        dict !! "error" = None /\
        dict !! "min_distance_km" = Some (VFloat m) /\
        generate_collision_report fixed strftime render type_name array_is dict w1
        = (Ok ((head +:+ recommendation_for m)
               +:+ nl +:+ nl +:+ "Analysis completed at: "
               +:+ strftime (now w1 (ticks w1)) "%Y-%m-%d %H:%M:%S UTC"),
           advance 1 w1)).
Proof.
  intros fixed strftime render type_name array_is s1 s2 d pts w w1 dict.
  rewrite analyze_close_approach_spec. cbv zeta.
  destruct (orbit_path_of _ s1 _ d pts) as [p1 | e1];
    [destruct (orbit_path_of _ s2 _ d pts) as [p2 | e2] |];
    intros [= <- <-].
  - right.
    destruct (report_of_result fixed strftime render type_name array_is s1 s2
                (pair_distances p1 p2)
                (sample_times (now w (2 + ticks w)%nat) d pts (length p1.1.1))
                (warning_distance_km (detector w)) d pts (advance 3 w))
      as [head Hrep].
    eexists _, head. split; [apply result_no_error |].
    split; [apply result_min_distance | exact Hrep].
  - left. eexists. split; [apply error_dict_error |].
    by rewrite (report_of_error _ _ _ _ _ _ _ _ (error_dict_error e2)).
  - left. eexists. split; [apply error_dict_error |].
    by rewrite (report_of_error _ _ _ _ _ _ _ _ (error_dict_error e1)).
Qed.

Lemma report_of_an_analysis_witness :
  (exists msg,
      result_dict "A" "B" Scenario.distances Scenario.times 10 4 5 !! "error"
      = Some (VStr msg) /\
      generate_collision_report Marks.fixed Marks.strftime Marks.render
        Marks.type_name Marks.array_is
        (result_dict "A" "B" Scenario.distances Scenario.times 10 4 5)
        (advance 3 Scenario.still)
      = (Ok ("ERROR: " +:+ msg), advance 3 Scenario.still)) \/
  (exists (m : R) (head : string),
      result_dict "A" "B" Scenario.distances Scenario.times 10 4 5 !! "error" = None /\
      result_dict "A" "B" Scenario.distances Scenario.times 10 4 5 !! "min_distance_km"
      = Some (VFloat m) /\
      generate_collision_report Marks.fixed Marks.strftime Marks.render
        Marks.type_name Marks.array_is
        (result_dict "A" "B" Scenario.distances Scenario.times 10 4 5)
        (advance 3 Scenario.still)
      = (Ok ((head +:+ recommendation_for m)
             +:+ nl +:+ nl +:+ "Analysis completed at: "
             +:+ Marks.strftime (now (advance 3 Scenario.still)
                                   (ticks (advance 3 Scenario.still)))
                   "%Y-%m-%d %H:%M:%S UTC"),
         advance 1 (advance 3 Scenario.still))).
Proof.
  exact (report_of_an_analysis Marks.fixed Marks.strftime Marks.render
           Marks.type_name Marks.array_is "A" "B" 4%R 5 Scenario.still _ _
           ScenarioRun.analysis_still).
Defined.

(** X21. A dictionary that is neither an error nor a result is refused: with
    no ['error'] key and no ['satellite_1'] key, as in the empty dictionary,
    the report raises a [KeyError] for ['satellite_1'] and the clock is not
    read. *)
Theorem report_needs_the_result_keys :
  forall fixed strftime render type_name array_is
         (dict : gmap string value) (w : world),
    dict !! "error" = None ->
    dict !! "satellite_1" = None ->
    generate_collision_report fixed strftime render type_name array_is dict w
    = (Raise (Exn "KeyError" "'satellite_1'"), w).
Proof.
  intros fixed strftime render type_name array_is dict w He Hs.
  unfold generate_collision_report.
  rewrite bool_decide_eq_false_2 by (rewrite He; by intros [? ?]).
  run_M. unfold dict_getitem. rewrite Hs. reflexivity.
Qed.

Lemma report_needs_the_result_keys_witness :
  generate_collision_report Marks.fixed Marks.strftime Marks.render Marks.type_name
    Marks.array_is ∅ Scenario.still
  = (Raise (Exn "KeyError" "'satellite_1'"), Scenario.still).
Proof.
  apply (report_needs_the_result_keys Marks.fixed Marks.strftime Marks.render
           Marks.type_name Marks.array_is ∅ Scenario.still); reflexivity.
Defined.

(** ** Coverage of a reversed track *)

Lemma np_diff_snoc (a : list R) (x y : R) :
  np_diff ((a ++ [x]) ++ [y]) = (np_diff (a ++ [x]) ++ [(y - x)%R])%list.
Proof.
  induction a as [| z [| z' a] IH]; [done | done |].
  change (np_diff (((z :: z' :: a) ++ [x]) ++ [y]))
    with ((z' - z)%R :: np_diff (((z' :: a) ++ [x]) ++ [y])).
  change (np_diff ((z :: z' :: a) ++ [x]))
    with ((z' - z)%R :: np_diff ((z' :: a) ++ [x])).
  by rewrite IH.
Qed.

Lemma np_diff_reverse (a : list R) :
  np_diff (reverse a) = reverse (map Ropp (np_diff a)).
Proof.
  induction a as [| x [| y a] IH]; [done | done |].
  change (np_diff (x :: y :: a)) with ((y - x)%R :: np_diff (y :: a)).
  cbn [map]. rewrite (reverse_cons _ (- (y - x))%R), <- IH.
  rewrite (reverse_cons (y :: a) x), (reverse_cons a y), np_diff_snoc.
  do 2 f_equal. lra.
Qed.

Lemma crossings_reverse (lats : list R) :
  np_sum_bool (np_not_equal (np_diff (np_sign (reverse lats))) 0)
  = np_sum_bool (np_not_equal (np_diff (np_sign lats)) 0).
Proof.
  unfold np_sign.
  change (map sign (reverse lats)) with (sign <$> reverse lats).
  rewrite fmap_reverse, np_diff_reverse.
  unfold np_not_equal.
  change (map (fun x => float_neb x 0) (reverse (map Ropp (np_diff (sign <$> lats)))))
    with ((fun x => float_neb x 0) <$> reverse (Ropp <$> np_diff (sign <$> lats))).
  rewrite fmap_reverse, <- list_fmap_compose.
  unfold np_sum_bool. rewrite filter_reverse, length_reverse.
  do 3 f_equal. apply list_fmap_ext. intros i d _. simpl. unfold float_neb.
  destruct (Req_dec_T (- d) 0), (Req_dec_T d 0); (done || lra).
Qed.

Lemma np_max_reverse (a : list R) : np_max (reverse a) = np_max a.
Proof.
  destruct (np_max a) as [m | e] eqn:Hm.
  - apply np_max_spec. apply np_max_spec in Hm as [Hin Hall].
    split; [by apply elem_of_reverse | by apply Forall_reverse].
  - destruct a; [done | discriminate Hm].
Qed.

Lemma np_min_reverse (a : list R) : np_min (reverse a) = np_min a.
Proof.
  destruct (np_min a) as [m | e] eqn:Hm.
  - apply np_min_spec. apply np_min_spec in Hm as [Hin Hall].
    split; [by apply elem_of_reverse | by apply Forall_reverse].
  - destruct a; [done | discriminate Hm].
Qed.

(** X22. The coverage statistics do not depend on the direction in which the
    track is traversed: on the reversed latitudes and longitudes
    [analyze_coverage] returns the same dictionary, or raises the same
    exception. *)
Theorem coverage_of_reversed_track :
  forall lats lons : list R,
    analyze_coverage (reverse lats) (reverse lons) = analyze_coverage lats lons.
Proof.
  intros lats lons. unfold analyze_coverage.
  by rewrite !np_max_reverse, !np_min_reverse, crossings_reverse, length_reverse.
Qed.

(** ** Failures of the ground track *)

Lemma positions_at_first_fails sat st d pts deltas e :
  np_linspace 0 d pts = Ok deltas -> 0 < pts ->
  sat_at sat (ts_utc st) = Raise e ->
  positions_at sat st deltas = Raise e.
Proof.
  intros HL Hpts Hat.
  destruct (np_linspace_first _ _ _ HL Hpts) as (v & Hv & ->).
  destruct deltas as [| d0 ds]; [done |]. injection Hv as ->.
  cbn [positions_at]. unfold sample_second, datetime_add.
  by rewrite timedelta_hours_IZR, Z.mul_0_l, Z.add_0_r, Hat.
Qed.

Lemma np_linspace_Ok (d : R) (pts : Z) :
  0 <= pts -> exists deltas, np_linspace 0 d pts = Ok deltas.
Proof.
  intros Hpts. unfold np_linspace. destruct (Z.ltb_spec pts 0); [lia |].
  by eexists.
Qed.

(** X24. The failures of [calculate_ground_track]: an unknown name raises a
    [ValueError] before the clock is read, a negative [points] for a loaded
    satellite raises a [ValueError] after one reading of the clock, and an
    exception that the propagator raises at the first sample, the one of the
    clock reading, leaves the method as it is. *)
Theorem ground_track_failures :
  forall (subpoint : Time -> vec3 -> R * R) (name : string) (d : R) (pts : Z)
         (w : world),
    (satellites (predictor w) !! name = None ->
     calculate_ground_track subpoint name d pts w
     = (Raise (Exn "ValueError" ("Satellite '" +:+ name +:+ "' not found")), w)) /\
    (is_Some (satellites (predictor w) !! name) -> pts < 0 ->
     exists msg,
       calculate_ground_track subpoint name d pts w
       = (Raise (Exn "ValueError" msg), advance 1 w)) /\
    (forall sat e,
        satellites (predictor w) !! name = Some sat ->
        0 < pts ->
        sat_at sat (ts_utc (now w (ticks w))) = Raise e ->
        calculate_ground_track subpoint name d pts w = (Raise e, advance 1 w)).
Proof.
  intros subpoint name d pts w. rewrite calculate_ground_track_spec.
  unfold ground_track_of, reads. split; [| split].
  - intros ->. by rewrite advance_0.
  - intros [sat ->] Hneg. unfold np_linspace.
    destruct (Z.ltb_spec pts 0); [by eexists | lia].
  - intros sat e -> Hpts Hat.
    destruct (np_linspace_Ok d pts) as [deltas HL]; [lia |].
    by rewrite HL, (positions_at_first_fails _ _ _ _ _ _ HL Hpts Hat).
Qed.

Lemma ground_track_failures_witness :
  calculate_ground_track flat_subpoint "X" 4 5 Scenario.still
  = (Raise (Exn "ValueError" "Satellite 'X' not found"), Scenario.still) /\
  (exists msg,
      calculate_ground_track flat_subpoint "A" 4 (-1) Scenario.still
      = (Raise (Exn "ValueError" msg), advance 1 Scenario.still)) /\
  calculate_ground_track flat_subpoint "F" 4 5 Failing.world_F
  = (Raise (Exn "RuntimeError" "propagation failed"), advance 1 Failing.world_F).
Proof.
  split; [| split].
  - apply (proj1 (ground_track_failures flat_subpoint "X" 4%R 5 Scenario.still)).
    reflexivity.
  - apply (proj1 (proj2 (ground_track_failures flat_subpoint "A" 4%R (-1)
                           Scenario.still)));
      [by eexists | reflexivity].
  - apply (proj2 (proj2 (ground_track_failures flat_subpoint "F" 4%R 5
                           Failing.world_F))
             Failing.sat_F); reflexivity.
Defined.

(** * Floats that may be infinite or NaN *)

(** ** Path generation over floats *)

Lemma f64_positions_at_length sat st deltas l :
  F64.positions_at sat st deltas = Ok l -> length l = length deltas.
Proof.
  revert l. induction deltas as [| d ds IH]; simpl; intros l.
  - by intros [= <-].
  - destruct (F64.sat_at sat _); [| done].
    destruct (F64.positions_at sat st ds); [| done].
    intros [= <-]. simpl. f_equal. by apply IH.
Qed.

Lemma f64_positions_loop sat st deltas acc w :
  for_each deltas
    (fun delta positions =>
       km ← lift (F64.sat_at sat (ts_utc (datetime_add st (timedelta_hours delta))));
       mret (positions ++ [km])%list) acc w
  = (match F64.positions_at sat st deltas with
     | Ok l => Ok (acc ++ l)%list
     | Raise e => Raise e
     end, w).
Proof.
  revert acc. induction deltas as [| d ds IH]; intros acc;
    cbn [for_each F64.positions_at].
  - by rewrite ret_run, app_nil_r.
  - run_M. fold (sample_second st d).
    destruct (F64.sat_at sat _) as [km | e]; [| done].
    run_M. rewrite IH. destruct (F64.positions_at sat st ds); [| done].
    by rewrite <- app_assoc.
Qed.

Lemma f64_generate_orbit_path_spec self name d pts w :
  F64.generate_orbit_path self name d pts w =
    (F64.orbit_path_of self name (now w (ticks w)) d pts,
     advance (F64.reads self name) w).
Proof.
  unfold F64.generate_orbit_path, F64.orbit_path_of, F64.reads.
  destruct (F64.satellites self !! name) as [sat |] eqn:Hs;
    [| by rewrite raise_run, advance_0].
  run_M. destruct (np_linspace 0 d pts) as [deltas | e]; [| done].
  run_M. rewrite f64_positions_loop. simpl.
  destruct (F64.positions_at sat (now w (ticks w)) deltas) as [[| p ps] | e]; done.
Qed.

Lemma f64_orbit_path_of_length self name st d pts x y z :
  F64.orbit_path_of self name st d pts = Ok (x, y, z) ->
  0 < pts /\ length x = Z.to_nat pts /\ length y = Z.to_nat pts
  /\ length z = Z.to_nat pts.
Proof.
  unfold F64.orbit_path_of. destruct (F64.satellites self !! name) as [sat |]; [| done].
  destruct (np_linspace 0 d pts) as [deltas |] eqn:HL; [| done].
  destruct (F64.positions_at sat st deltas) as [ps |] eqn:HP; [| done].
  apply np_linspace_length in HL as [Hn HL].
  apply f64_positions_at_length in HP.
  destruct ps as [| p ps]; [done |]. intros [= <- <- <-].
  simpl in *. rewrite !length_map. lia.
Qed.

Lemma f64_reads_known self name st d pts p :
  F64.orbit_path_of self name st d pts = Ok p -> F64.reads self name = 1%nat.
Proof.
  unfold F64.orbit_path_of, F64.reads. by destruct (F64.satellites self !! name).
Qed.

(** ** The analysis over floats *)

Lemma f64_pair_distances_length (p1 p2 : F64.path) :
  length (F64.pair_distances p1 p2) = length p1.1.1.
Proof.
  destruct p1 as [[x1 y1] z1], p2 as [[x2 y2] z2]. simpl.
  by rewrite length_map, length_seq.
Qed.

Lemma f64_sample_loop_spec x1 y1 z1 x2 y2 z2 st d pts w :
  length y1 = length x1 -> length z1 = length x1 ->
  length x2 = length x1 -> length y2 = length x1 -> length z2 = length x1 ->
  F64.sample_loop (x1, y1, z1) (x2, y2, z2) st d pts w =
    (Ok (F64.pair_distances (x1, y1, z1) (x2, y2, z2),
         sample_times st d pts (length x1)), w).
Proof.
  intros Hy1 Hz1 Hx2 Hy2 Hz2.
  unfold F64.sample_loop, F64.pair_distances, sample_times.
  match goal with |- for_each _ ?b _ _ = _ => set (body := b) end.
  set (f := fun i : nat => F64.calculate_distance _ _).
  set (g := fun i : nat => datetime_add _ _).
  assert (Inv : forall k a ds ts, (a + k <= length x1)%nat ->
            for_each (seq a k) body (ds, ts) w =
              (Ok ((ds ++ map f (seq a k))%list, (ts ++ map g (seq a k))%list), w)).
  { induction k as [| k IH]; intros a ds ts Hk; cbn [seq for_each map].
    - by rewrite ret_run, !app_nil_r.
    - rewrite bind_run. unfold body at 1. cbv zeta. run_M.
      rewrite !getitem_lt by lia. run_M.
      rewrite IH by lia. by rewrite <- !app_assoc. }
  apply (Inv (length x1) 0%nat [] []). lia.
Qed.

Lemma f64_argmin_from_range (l : list F64.float) (i : nat) (best : F64.float)
    (bi : nat) :
  let r := F64.argmin_from l i best bi in
  r = bi \/ (i <= r < i + length l)%nat.
Proof.
  revert i best bi. induction l as [| x l IH]; intros i best bi; simpl.
  - by left.
  - destruct (F64.leb best x).
    + destruct (IH (S i) best bi) as [-> | ?]; [by left | right; lia].
    + destruct (F64.isnan x); [right; lia |].
      destruct (IH (S i) x i) as [-> | ?]; right; lia.
Qed.

Lemma f64_argmin_lt_length (l : list F64.float) :
  l <> [] -> (F64.argmin l < length l)%nat.
Proof.
  destruct l as [| x l]; [done |]. intros _. simpl.
  destruct (F64.isnan x); [lia |].
  destruct (f64_argmin_from_range l 1 x 0) as [-> | ?]; simpl in *; lia.
Qed.

Lemma f64_np_argmin_argmin (l : list F64.float) :
  l <> [] -> F64.np_argmin l = Ok (F64.argmin l).
Proof. by destruct l. Qed.

Lemma f64_relative_velocity_at_spec (distances : list F64.float) d pts w :
  F64.relative_velocity_at distances (F64.argmin distances) d pts w =
    (Ok (F64.relative_velocity_of distances d pts), w).
Proof.
  unfold F64.relative_velocity_at, F64.relative_velocity_of.
  destruct (_ && _) eqn:Hc; [| done].
  apply andb_true_iff in Hc as [H0 H1].
  apply Z.ltb_lt in H0, H1.
  run_M. rewrite !getitem_lt by lia. by run_M.
Qed.

(** The analysis over floats as a function of the predictor, the warning
    distance and three readings of the clock. *)
Lemma f64_analyze_close_approach_spec self s1 s2 d pts w :
  F64.analyze_close_approach self s1 s2 d pts w =
    match F64.orbit_path_of self s1 (now w (ticks w)) d pts with
    | Raise e => (Ok (F64.error_dict e), advance (F64.reads self s1) w)
    | Ok p1 =>
        match F64.orbit_path_of self s2 (now w (1 + ticks w)%nat) d pts with
        | Raise e => (Ok (F64.error_dict e), advance (1 + F64.reads self s2) w)
        | Ok p2 =>
            (Ok (F64.result_dict s1 s2 (F64.pair_distances p1 p2)
                   (sample_times (now w (2 + ticks w)%nat) d pts (length p1.1.1))
                   (warning_distance_km (detector w)) d pts),
             advance 3 w)
        end
    end.
Proof.
  unfold F64.analyze_close_approach.
  rewrite bind_run, try_except_run, bind_run, f64_generate_orbit_path_spec.
  destruct (F64.orbit_path_of _ s1 _ d pts) as [p1 | e1] eqn:H1; [| by run_M].
  rewrite (f64_reads_known _ _ _ _ _ _ H1).
  rewrite bind_run, f64_generate_orbit_path_spec. cbn [advance predictor now ticks].
  destruct (F64.orbit_path_of _ s2 _ d pts) as [p2 | e2] eqn:H2;
    [| run_M; by rewrite advance_advance, Nat.add_comm].
  rewrite (f64_reads_known _ _ _ _ _ _ H2), advance_advance. run_M.
  destruct p1 as [[x1 y1] z1], p2 as [[x2 y2] z2].
  apply f64_orbit_path_of_length in H1 as (Hpts & Hx1 & Hy1 & Hz1).
  apply f64_orbit_path_of_length in H2 as (_ & Hx2 & Hy2 & Hz2).
  rewrite f64_sample_loop_spec by congruence. run_M.
  set (distances := F64.pair_distances _ _).
  set (times := sample_times _ _ _ _).
  assert (Hlen : length distances = length x1)
    by apply (f64_pair_distances_length (x1, y1, z1)).
  assert (Hne : distances <> []) by (intros E; rewrite E in Hlen; simpl in Hlen; lia).
  pose proof (f64_argmin_lt_length _ Hne) as Hi.
  rewrite (f64_np_argmin_argmin _ Hne). run_M.
  rewrite (getitem_lt distances) by done. run_M.
  rewrite (getitem_lt times)
    by (unfold times; rewrite sample_times_length; lia).
  run_M. rewrite f64_relative_velocity_at_spec. run_M.
  rewrite advance_advance. reflexivity.
Qed.

Lemma f64_result_min_distance s1 s2 distances times warning duration_hours points :
  F64.result_dict s1 s2 distances times warning duration_hours points
    !! "min_distance_km"
  = Some (F64.VFloat (distances !!! F64.argmin distances)).
Proof. by unfold F64.result_dict. Qed.

Lemma f64_result_relative_velocity s1 s2 distances times warning duration_hours points :
  F64.result_dict s1 s2 distances times warning duration_hours points
    !! "relative_velocity_km_s"
  = Some (F64.relative_velocity_of distances duration_hours points).
Proof. by unfold F64.result_dict. Qed.

Lemma f64_result_collision_risk s1 s2 distances times warning duration_hours points :
  F64.result_dict s1 s2 distances times warning duration_hours points
    !! "collision_risk"
  = Some (F64.VStr (F64.collision_risk (distances !!! F64.argmin distances))).
Proof. by unfold F64.result_dict. Qed.

Lemma f64_result_warning_periods s1 s2 distances times warning duration_hours points :
  F64.result_dict s1 s2 distances times warning duration_hours points
    !! "warning_periods"
  = Some (F64.VInt (Z.of_nat (length
            (np_where (F64.np_less distances (F64.Real warning)))))).
Proof. by unfold F64.result_dict. Qed.

Lemma f64_result_all_distances s1 s2 distances times warning duration_hours points :
  F64.result_dict s1 s2 distances times warning duration_hours points
    !! "all_distances"
  = Some (F64.VArray distances).
Proof. by unfold F64.result_dict. Qed.

Lemma f64_result_no_error s1 s2 distances times warning duration_hours points :
  F64.result_dict s1 s2 distances times warning duration_hours points !! "error"
  = None.
Proof. by unfold F64.result_dict. Qed.

Lemma f64_error_dict_error (e : exn) :
  F64.error_dict e !! "error"
  = Some (F64.VStr ("Could not generate orbits: " +:+ exn_str e)).
Proof. done. Qed.

(** ** A trajectory against itself *)

Lemma f64_calculate_distance_self (x y z : R) :
  F64.calculate_distance (F64.Real x, F64.Real y, F64.Real z)
                         (F64.Real x, F64.Real y, F64.Real z) = F64.Real 0.
Proof.
  unfold F64.calculate_distance. cbn [F64.sub F64.square F64.add F64.sqrt].
  replace ((x - x) ^ 2 + (y - y) ^ 2 + (z - z) ^ 2)%R with 0%R by lra.
  by rewrite ltb_false, sqrt_0 by lra.
Qed.

Lemma all_finite_lookup_total (a : list F64.float) (i : nat) :
  F64.all_finite a = true -> (i < length a)%nat ->
  exists r, a !!! i = F64.Real r.
Proof.
  revert i. induction a as [| v a IH]; intros i Ha Hi; simpl in Hi; [lia |].
  unfold F64.all_finite in Ha. cbn [forallb] in Ha.
  apply andb_true_iff in Ha as [Hv Ha].
  destruct i as [| i].
  - destruct v; try done. by eexists.
  - apply (IH i Ha). lia.
Qed.

Lemma f64_pair_distances_self (x y z : list F64.float) :
  F64.all_finite x = true -> F64.all_finite y = true -> F64.all_finite z = true ->
  length y = length x -> length z = length x ->
  F64.pair_distances (x, y, z) (x, y, z) = replicate (length x) (F64.Real 0).
Proof.
  intros Hx Hy Hz Ly Lz. unfold F64.pair_distances.
  apply list_eq. intros i. rewrite list_lookup_fmap.
  destruct (decide (i < length x)%nat) as [Hi | Hi].
  - rewrite lookup_seq_lt by done. rewrite lookup_replicate_2 by done.
    cbn [fmap option_fmap option_map Nat.add]. f_equal.
    destruct (all_finite_lookup_total x i Hx Hi) as [a ->].
    destruct (all_finite_lookup_total y i Hy ltac:(lia)) as [b ->].
    destruct (all_finite_lookup_total z i Hz ltac:(lia)) as [c ->].
    apply f64_calculate_distance_self.
  - rewrite lookup_seq_ge by lia.
    symmetry. apply lookup_replicate_None. lia.
Qed.

Lemma f64_argmin_from_zeros (n i bi : nat) :
  F64.argmin_from (replicate n (F64.Real 0)) i (F64.Real 0) bi = bi.
Proof.
  revert i. induction n as [| n IH]; intros i; [done |].
  cbn [replicate F64.argmin_from F64.leb]. rewrite ltb_false by lra. apply IH.
Qed.

Lemma f64_argmin_zeros (n : nat) : F64.argmin (replicate n (F64.Real 0)) = 0%nat.
Proof. destruct n as [| n]; [done |]. apply f64_argmin_from_zeros. Qed.

Module F64Run.
Import Scenario.

Lemma run_path_D (st : datetime) :
  st = 0 -> F64.orbit_path_of F64.catalog "D" st 4 5 = Ok F64.path_D.
Proof.
  intros ->. unfold F64.orbit_path_of.
  change (F64.satellites F64.catalog !! "D") with (Some F64.sat_D).
  rewrite ScenarioRun.linspace_4_5. unfold deltas. cbn [F64.positions_at].
  rewrite !sample_second_IZR. reflexivity.
Qed.

Lemma run_path_A (st : datetime) :
  st = 0 -> F64.orbit_path_of F64.catalog "A" st 4 5 = Ok F64.path_A.
Proof.
  intros ->. unfold F64.orbit_path_of.
  change (F64.satellites F64.catalog !! "A") with (Some F64.sat_A).
  rewrite ScenarioRun.linspace_4_5. unfold deltas. cbn [F64.positions_at].
  rewrite !sample_second_IZR. reflexivity.
Qed.

Lemma run_distances_D_D :
  F64.pair_distances F64.path_D F64.path_D = F64.distances_D_D.
Proof.
  unfold F64.pair_distances, F64.path_D.
  cbn [length seq map lookup_total list_lookup_total].
  by rewrite !f64_calculate_distance_self.
Qed.

Lemma run_argmin_D : F64.argmin F64.distances_D_D = 2%nat.
Proof.
  unfold F64.distances_D_D.
  cbn [F64.argmin F64.isnan F64.argmin_from F64.leb].
  by rewrite (ltb_false 0 0) by lra.
Qed.

(** The analysis of the decayed object against itself over 4 hours with 5
    points, on the still clock. *)
Lemma run_analysis_D :
  F64.analyze_close_approach F64.catalog "D" "D" 4 5 still =
    (Ok (F64.result_dict "D" "D" F64.distances_D_D times 10 4 5),
     advance 3 still).
Proof.
  rewrite f64_analyze_close_approach_spec.
  rewrite !run_path_D by reflexivity.
  change (now still _) with 0.
  rewrite run_distances_D_D. change (length _) with 5%nat.
  rewrite ScenarioRun.times_from_0. reflexivity.
Qed.

Lemma run_path_B (st : datetime) :
  F64.orbit_path_of F64.catalog "B" st 4 5 = Ok F64.path_B.
Proof.
  unfold F64.orbit_path_of.
  change (F64.satellites F64.catalog !! "B") with (Some F64.sat_B).
  rewrite ScenarioRun.linspace_4_5. reflexivity.
Qed.

Lemma f64_distance_on_x_axis (a : R) :
  (0 <= a)%R ->
  F64.calculate_distance (F64.Real a, F64.Real 0, F64.Real 0)
                         (F64.Real 0, F64.Real 0, F64.Real 0) = F64.Real a.
Proof.
  intros Ha. unfold F64.calculate_distance.
  cbn [F64.sub F64.square F64.add F64.sqrt].
  replace ((0 - a) ^ 2 + (0 - 0) ^ 2 + (0 - 0) ^ 2)%R with (a ^ 2)%R by lra.
  rewrite ltb_false by (apply pow2_ge_0). by rewrite sqrt_pow2.
Qed.

Lemma run_distances_A_B :
  F64.pair_distances F64.path_A F64.path_B = F64.distances_A_B.
Proof.
  unfold F64.pair_distances, F64.path_A, F64.path_B.
  cbn [length seq map lookup_total list_lookup_total].
  rewrite !f64_distance_on_x_axis by lra. reflexivity.
Qed.

Lemma run_argmin_A_B : F64.argmin F64.distances_A_B = 2%nat.
Proof.
  unfold F64.distances_A_B.
  cbn [F64.argmin F64.isnan F64.argmin_from F64.leb].
  rewrite (ltb_true 50 100), (ltb_true 2 50), (ltb_false 60 2), (ltb_false 120 2)
    by lra.
  reflexivity.
Qed.

(** The analysis of [A] against [B] over 4 hours with 5 points, on the still
    clock. *)
Lemma run_analysis_A_B :
  F64.analyze_close_approach F64.catalog "A" "B" 4 5 still =
    (Ok (F64.result_dict "A" "B" F64.distances_A_B times 10 4 5),
     advance 3 still).
Proof.
  rewrite f64_analyze_close_approach_spec.
  rewrite run_path_A by reflexivity. rewrite run_path_B.
  change (now still _) with 0.
  rewrite run_distances_A_B. change (length _) with 5%nat.
  rewrite ScenarioRun.times_from_0. reflexivity.
Qed.

Lemma run_warnings_A_B :
  np_where (F64.np_less F64.distances_A_B (F64.Real 10)) = [2%nat].
Proof.
  unfold np_where, F64.np_less, F64.distances_A_B. cbn [map where_from F64.ltb].
  rewrite (ltb_false 100 10), (ltb_false 50 10), (ltb_true 2 10),
    (ltb_false 60 10), (ltb_false 120 10) by lra.
  reflexivity.
Qed.

Lemma run_velocity_A_B :
  F64.relative_velocity_of F64.distances_A_B 4 5
  = F64.VFloat (F64.Real (Rabs (60 - 50) / (2 * (4 / 5 * 3600)))).
Proof.
  unfold F64.relative_velocity_of. rewrite run_argmin_A_B.
  cbn. destruct (Req_dec_T _ _) as [E | _]; [lra | done].
Qed.

End F64Run.

(** C6 as stated fails. The object [D] is sampled over 4 hours with 5
    points; SGP4 fails two hours after the start and the last three samples
    have NaN coordinates. Analysed against itself, with both generated paths
    the same array for array, the distances are 0, 0, NaN, NaN, NaN: the
    reported minimum is NaN, not 0, the risk is LOW, not HIGH, and the
    relative velocity is NaN, not 0. *)
Lemma nan_trajectory_against_itself_counterexample :
  exists (p : F64.path) (w1 w2 : world) (dict : gmap string F64.value) (w' : world),
    F64.generate_orbit_path F64.catalog "D" 4 5 Scenario.still = (Ok p, w1) /\
    F64.generate_orbit_path F64.catalog "D" 4 5 w1 = (Ok p, w2) /\
    F64.analyze_close_approach F64.catalog "D" "D" 4 5 Scenario.still
    = (Ok dict, w') /\
    dict !! "error" = None /\
    dict !! "all_distances"
    = Some (F64.VArray [F64.Real 0; F64.Real 0; F64.NaN; F64.NaN; F64.NaN]) /\
    dict !! "min_distance_km" = Some (F64.VFloat F64.NaN) /\
    dict !! "collision_risk" = Some (F64.VStr "LOW") /\
    dict !! "relative_velocity_km_s" = Some (F64.VFloat F64.NaN) /\
    dict !! "min_distance_km" <> Some (F64.VFloat (F64.Real 0)) /\
    dict !! "collision_risk" <> Some (F64.VStr "HIGH") /\
    dict !! "relative_velocity_km_s" <> Some (F64.VInt 0).
Proof.
  exists F64.path_D, (advance 1 Scenario.still), (advance 2 Scenario.still).
  eexists _, _.
  split. { by rewrite f64_generate_orbit_path_spec, F64Run.run_path_D. }
  split. { by rewrite f64_generate_orbit_path_spec, F64Run.run_path_D. }
  split; [apply F64Run.run_analysis_D |].
  rewrite f64_result_no_error, f64_result_all_distances, f64_result_min_distance,
    f64_result_collision_risk, f64_result_relative_velocity.
  unfold F64.relative_velocity_of. rewrite F64Run.run_argmin_D.
  cbn. repeat split; discriminate.
Qed.

(** C6, amended. When the two generated paths are the same, sample for
    sample, and every coordinate of the path is finite (neither NaN nor an
    infinity), every distance is 0 and the analysis reports the minimum
    distance 0, the risk HIGH and the relative velocity 0. *)
Theorem finite_identical_trajectories_report_zero :
  forall (self : F64.SatelliteOrbitPredictor) (s1 s2 : string) (d : R) (pts : Z)
         (w w1 w2 : world) (p : F64.path),
    F64.generate_orbit_path self s1 d pts w = (Ok p, w1) ->
    F64.generate_orbit_path self s2 d pts w1 = (Ok p, w2) ->
    F64.finite_path p = true ->
    exists dict w',
      F64.analyze_close_approach self s1 s2 d pts w = (Ok dict, w') /\
      dict !! "error" = None /\
      dict !! "all_distances"
      = Some (F64.VArray (replicate (Z.to_nat pts) (F64.Real 0))) /\
      dict !! "min_distance_km" = Some (F64.VFloat (F64.Real 0)) /\
      dict !! "collision_risk" = Some (F64.VStr "HIGH") /\
      dict !! "relative_velocity_km_s" = Some (F64.VInt 0).
Proof.
  intros self s1 s2 d pts w w1 w2 p H1 H2 Hfin.
  rewrite f64_generate_orbit_path_spec in H1. injection H1 as H1 <-.
  rewrite f64_generate_orbit_path_spec in H2. injection H2 as H2 _.
  rewrite (f64_reads_known _ _ _ _ _ _ H1) in H2.
  cbn [advance predictor now ticks] in H2.
  rewrite f64_analyze_close_approach_spec, H1, H2.
  eexists _, _. split; [reflexivity |].
  rewrite f64_result_no_error, f64_result_all_distances, f64_result_min_distance,
    f64_result_collision_risk, f64_result_relative_velocity.
  unfold F64.relative_velocity_of.
  destruct p as [[x y] z].
  apply f64_orbit_path_of_length in H1 as (Hpts & Hx & Hy & Hz).
  unfold F64.finite_path in Hfin. cbn [fst snd] in Hfin.
  apply andb_true_iff in Hfin as [Hfin Hfz].
  apply andb_true_iff in Hfin as [Hfx Hfy].
  rewrite f64_pair_distances_self by congruence.
  rewrite Hx, f64_argmin_zeros, lookup_total_replicate_2 by lia.
  repeat split.
  unfold F64.collision_risk. cbn [F64.ltb]. by rewrite ltb_true by lra.
Qed.

(** Object [A], whose five samples are finite, against itself on the still
    clock. *)
Lemma finite_identical_trajectories_report_zero_witness :
  F64.finite_path F64.path_A = true /\
  exists dict w',
    F64.analyze_close_approach F64.catalog "A" "A" 4 5 Scenario.still
    = (Ok dict, w') /\
    dict !! "error" = None /\
    dict !! "all_distances"
    = Some (F64.VArray (replicate (Z.to_nat 5) (F64.Real 0))) /\
    dict !! "min_distance_km" = Some (F64.VFloat (F64.Real 0)) /\
    dict !! "collision_risk" = Some (F64.VStr "HIGH") /\
    dict !! "relative_velocity_km_s" = Some (F64.VInt 0).
Proof.
  split; [reflexivity |].
  apply (finite_identical_trajectories_report_zero F64.catalog "A" "A" 4%R 5
           Scenario.still (advance 1 Scenario.still) (advance 2 Scenario.still)
           F64.path_A).
  - by rewrite f64_generate_orbit_path_spec, F64Run.run_path_A.
  - by rewrite f64_generate_orbit_path_spec, F64Run.run_path_A.
  - reflexivity.
Defined.

(** ** The order of the floats *)

Ltac f64_order :=
  intros;
  repeat match goal with x : F64.float |- _ => destruct x end;
  cbn [F64.leb F64.ltb F64.isnan F64.isfinite negb] in *;
  unfold Num.ltb in *;
  repeat match goal with
         | H : context [Rlt_dec ?a ?b] |- _ => destruct (Rlt_dec a b)
         | |- context [Rlt_dec ?a ?b] => destruct (Rlt_dec a b)
         end;
  cbn [negb] in *; try done; try (exfalso; lra).

Lemma f64_leb_refl (a : F64.float) : F64.isnan a = false -> F64.leb a a = true.
Proof. f64_order. Qed.

Lemma f64_leb_not_nan (a b : F64.float) :
  F64.leb a b = true -> F64.isnan a = false /\ F64.isnan b = false.
Proof. f64_order. Qed.

Lemma f64_leb_total (a b : F64.float) :
  F64.isnan a = false -> F64.isnan b = false ->
  F64.leb a b = false -> F64.ltb b a = true.
Proof. f64_order. Qed.

Lemma f64_ltb_leb (a b : F64.float) : F64.ltb a b = true -> F64.leb a b = true.
Proof. f64_order. Qed.

Lemma f64_leb_trans (a b c : F64.float) :
  F64.leb a b = true -> F64.leb b c = true -> F64.leb a c = true.
Proof. f64_order. Qed.

Lemma f64_ltb_leb_trans (a b c : F64.float) :
  F64.ltb a b = true -> F64.leb b c = true -> F64.ltb a c = true.
Proof. f64_order. Qed.

Lemma f64_leb_ltb_trans (a b c : F64.float) :
  F64.leb a b = true -> F64.ltb b c = true -> F64.ltb a c = true.
Proof. f64_order. Qed.

(** ** argmin over floats *)

Lemma no_nan_app (a b : list F64.float) :
  F64.no_nan (a ++ b) = F64.no_nan a && F64.no_nan b.
Proof. unfold F64.no_nan. apply forallb_app. Qed.

Lemma no_nan_lookup (a : list F64.float) (i : nat) (x : F64.float) :
  F64.no_nan a = true -> a !! i = Some x -> F64.isnan x = false.
Proof.
  revert i. induction a as [| v a IH]; intros i Ha Hi; [done |].
  unfold F64.no_nan in Ha. cbn [forallb] in Ha.
  apply andb_true_iff in Ha as [Hv Ha].
  destruct i as [| i].
  - injection Hi as <-. by apply negb_true_iff.
  - by apply (IH i).
Qed.

(** The scan of [np.argmin]: [pre] is the part of the array already seen,
    free of NaN, and [best] its first least element, at index [bi]. The scan
    ends on the first NaN of the rest if there is one, and on the first least
    element of the whole array otherwise. *)
Lemma f64_argmin_from_spec (l pre : list F64.float) (best : F64.float) (bi : nat) :
  pre !! bi = Some best ->
  F64.no_nan pre = true ->
  Forall (fun y => F64.leb best y = true) pre ->
  (forall j y, (j < bi)%nat -> pre !! j = Some y -> F64.ltb best y = true) ->
  let r := F64.argmin_from l (length pre) best bi in
  exists m,
    (pre ++ l)%list !! r = Some m /\
    (forall j y, (j < r)%nat -> (pre ++ l)%list !! j = Some y -> F64.isnan y = false) /\
    (F64.no_nan l = false -> m = F64.NaN) /\
    (F64.no_nan l = true ->
       Forall (fun y => F64.leb m y = true) (pre ++ l)%list /\
       (forall j y, (j < r)%nat -> (pre ++ l)%list !! j = Some y ->
                    F64.ltb m y = true)).
Proof.
  revert pre best bi. induction l as [| x l IH];
    intros pre best bi Hbi Hnan Hall Hfirst; cbv zeta.
  - cbn [F64.argmin_from]. rewrite app_nil_r. exists best.
    split; [done |]. split; [intros j y _ Hy; by eapply no_nan_lookup |].
    split; [done |]. intros _. by split.
  - cbn [F64.argmin_from].
    assert (Hbest : F64.isnan best = false) by (by eapply no_nan_lookup).
    replace (pre ++ x :: l)%list with ((pre ++ [x]) ++ l)%list
      by (by rewrite <- app_assoc).
    destruct (F64.leb best x) eqn:Hle; [| destruct (F64.isnan x) eqn:Hx].
    + destruct (f64_leb_not_nan _ _ Hle) as [_ Hx].
      replace (S (length pre)) with (length (pre ++ [x])%list)
        by (rewrite length_app; simpl; lia).
      assert (Hl : F64.no_nan (x :: l) = F64.no_nan l).
      { unfold F64.no_nan. cbn [forallb]. by rewrite Hx. }
      rewrite Hl. apply IH.
      * rewrite lookup_app_l; [done |]. by eapply lookup_lt_Some.
      * rewrite no_nan_app, Hnan. unfold F64.no_nan. cbn [forallb]. by rewrite Hx.
      * apply Forall_app. split; [done | constructor; [done | constructor]].
      * intros j y Hj Hy. apply (Hfirst j y Hj).
        rewrite lookup_app_l in Hy; [done |].
        apply lookup_lt_Some in Hbi. lia.
    + exists x. split.
      { rewrite <- app_assoc. rewrite lookup_app_r by lia.
        by rewrite Nat.sub_diag. }
      split.
      { intros j y Hj Hy. rewrite <- app_assoc in Hy.
        rewrite lookup_app_l in Hy by done. by eapply no_nan_lookup. }
      split; [intros _; by destruct x |].
      unfold F64.no_nan. cbn [forallb]. by rewrite Hx.
    + pose proof (f64_leb_total _ _ Hbest Hx Hle) as Hlt.
      replace (S (length pre)) with (length (pre ++ [x])%list)
        by (rewrite length_app; simpl; lia).
      assert (Hl : F64.no_nan (x :: l) = F64.no_nan l).
      { unfold F64.no_nan. cbn [forallb]. by rewrite Hx. }
      rewrite Hl.
      apply IH.
      * by rewrite lookup_app_r, Nat.sub_diag.
      * rewrite no_nan_app, Hnan. unfold F64.no_nan. cbn [forallb]. by rewrite Hx.
      * apply Forall_app. split.
        -- eapply Forall_impl; [exact Hall |]. intros y Hy. simpl in Hy.
           apply f64_ltb_leb. by eapply f64_ltb_leb_trans.
        -- constructor; [by apply f64_leb_refl | constructor].
      * intros j y Hj Hy. rewrite lookup_app_l in Hy by done.
        rewrite Forall_forall in Hall.
        eapply f64_ltb_leb_trans; [exact Hlt |].
        apply Hall. by eapply list_elem_of_lookup_2.
Qed.

(** [np.argmin] on a non-empty array: the index of the first NaN if there is
    one, and the first index of the least element otherwise. *)
Lemma f64_argmin_spec (l : list F64.float) :
  l <> [] ->
  exists m,
    l !! F64.argmin l = Some m /\
    (forall j y, (j < F64.argmin l)%nat -> l !! j = Some y -> F64.isnan y = false) /\
    (F64.no_nan l = false -> m = F64.NaN) /\
    (F64.no_nan l = true ->
       Forall (fun y => F64.leb m y = true) l /\
       (forall j y, (j < F64.argmin l)%nat -> l !! j = Some y ->
                    F64.ltb m y = true)).
Proof.
  destruct l as [| x l]; [done |]. intros _. cbn [F64.argmin].
  destruct (F64.isnan x) eqn:Hx.
  - exists x. split; [done |]. split; [intros j y Hj; lia |].
    split; [intros _; by destruct x |].
    unfold F64.no_nan. cbn [forallb]. by rewrite Hx.
  - assert (Hl : F64.no_nan (x :: l) = F64.no_nan l).
    { unfold F64.no_nan. cbn [forallb]. by rewrite Hx. }
    rewrite Hl.
    apply (f64_argmin_from_spec l [x] x 0).
    + done.
    + unfold F64.no_nan. cbn [forallb]. by rewrite Hx.
    + constructor; [by apply f64_leb_refl | constructor].
    + intros j y Hj. lia.
Qed.

(** ** What a dictionary returned over floats is *)

Lemma f64_analyze_no_error_inv self s1 s2 d pts w dict w' :
  F64.analyze_close_approach self s1 s2 d pts w = (Ok dict, w') ->
  dict !! "error" = None ->
  exists p1 p2,
    F64.orbit_path_of self s1 (now w (ticks w)) d pts = Ok p1 /\
    F64.orbit_path_of self s2 (now w (1 + ticks w)%nat) d pts = Ok p2 /\
    dict = F64.result_dict s1 s2 (F64.pair_distances p1 p2)
             (sample_times (now w (2 + ticks w)%nat) d pts (length p1.1.1))
             (warning_distance_km (detector w)) d pts /\
    w' = advance 3 w.
Proof.
  rewrite f64_analyze_close_approach_spec.
  destruct (F64.orbit_path_of _ s1 _ d pts) as [p1 | e1].
  - destruct (F64.orbit_path_of _ s2 _ d pts) as [p2 | e2].
    + intros [= <- <-] _. by exists p1, p2.
    + intros [= <- <-]. by rewrite f64_error_dict_error.
  - intros [= <- <-]. by rewrite f64_error_dict_error.
Qed.

Lemma f64_result_times s1 s2 distances times warning duration_hours points :
  F64.result_dict s1 s2 distances times warning duration_hours points !! "times"
  = Some (F64.VList times).
Proof. by unfold F64.result_dict. Qed.

Lemma f64_result_closest_time s1 s2 distances times warning duration_hours points :
  F64.result_dict s1 s2 distances times warning duration_hours points
    !! "closest_approach_time"
  = Some (F64.VDatetime (times !!! F64.argmin distances)).
Proof. by unfold F64.result_dict. Qed.

Lemma f64_pair_distances_nonempty self s1 st d pts p1 p2 :
  F64.orbit_path_of self s1 st d pts = Ok p1 -> F64.pair_distances p1 p2 <> [].
Proof.
  destruct p1 as [[x1 y1] z1]. intros H Hnil.
  apply f64_orbit_path_of_length in H as (Hpts & Hx1 & _).
  pose proof (f64_pair_distances_length (x1, y1, z1) p2) as HL.
  rewrite Hnil in HL. cbn [fst length] in HL. lia.
Qed.

(** A distance is NaN, [+inf] or a real number that is not negative. *)
Lemma f64_calculate_distance_nonneg (a b : F64.vec3) :
  F64.isnan (F64.calculate_distance a b) = false ->
  F64.leb (F64.Real 0) (F64.calculate_distance a b) = true.
Proof.
  destruct a as [[x1 y1] z1], b as [[x2 y2] z2]. unfold F64.calculate_distance.
  generalize (F64.add (F64.add (F64.square (F64.sub x2 x1))
                         (F64.square (F64.sub y2 y1))) (F64.square (F64.sub z2 z1))).
  intros [v | | |]; cbn [F64.sqrt]; try done.
  destruct (Num.ltb v 0) eqn:Hv; [done |]. intros _.
  cbn [F64.leb]. rewrite ltb_false; [done |]. apply sqrt_pos.
Qed.

Lemma f64_pair_distances_nonneg (p1 p2 : F64.path) :
  Forall (fun x => F64.isnan x = false -> F64.leb (F64.Real 0) x = true)
         (F64.pair_distances p1 p2).
Proof.
  destruct p1 as [[x1 y1] z1], p2 as [[x2 y2] z2]. unfold F64.pair_distances.
  apply Forall_fmap, Forall_true. intros i.
  exact (f64_calculate_distance_nonneg _ _).
Qed.

Lemma f64_np_less_lookup (a : list F64.float) (b : F64.float) (j : nat) :
  F64.np_less a b !! j = Some true <->
  exists x, a !! j = Some x /\ F64.ltb x b = true.
Proof.
  unfold F64.np_less. rewrite list_lookup_fmap. destruct (a !! j) as [x |]; simpl.
  - split.
    + intros [= Hx]. by exists x.
    + intros (y & [= <-] & Hy). by f_equal.
  - split; [done | by intros (? & ? & _)].
Qed.

(** ** The closest approach over floats *)

(** X10. The reported closest approach follows [np.argmin] on floats. A
    result without an error reports as minimum distance the sample at an
    index before which no sample is NaN. If some sample is NaN the reported
    minimum is NaN, the first one. If no sample is NaN the reported minimum
    is the first least sample: it is not negative, no sample is smaller and
    every earlier sample is strictly larger. The closest-approach time is the
    analysis time at the same index. *)
Theorem closest_approach_is_first_nan_or_first_minimum :
  forall (self : F64.SatelliteOrbitPredictor) (s1 s2 : string) (d : R) (pts : Z)
         (w w' : world) (dict : gmap string F64.value),
    F64.analyze_close_approach self s1 s2 d pts w = (Ok dict, w') ->
    dict !! "error" = None ->
    exists (distances : list F64.float) (times : list datetime) (i : nat)
           (m : F64.float) (t : datetime),
      dict !! "all_distances" = Some (F64.VArray distances) /\
      dict !! "times" = Some (F64.VList times) /\
      distances !! i = Some m /\ times !! i = Some t /\
      dict !! "min_distance_km" = Some (F64.VFloat m) /\
      dict !! "closest_approach_time" = Some (F64.VDatetime t) /\
      (forall j y, (j < i)%nat -> distances !! j = Some y -> F64.isnan y = false) /\
      (F64.no_nan distances = false -> m = F64.NaN) /\
      (F64.no_nan distances = true ->
         F64.leb (F64.Real 0) m = true /\
         Forall (fun y => F64.leb m y = true) distances /\
         (forall j y, (j < i)%nat -> distances !! j = Some y ->
                      F64.ltb m y = true)).
Proof.
  intros self s1 s2 d pts w w' dict Hrun Herr.
  destruct (f64_analyze_no_error_inv _ _ _ _ _ _ _ _ Hrun Herr)
    as (p1 & p2 & H1 & H2 & -> & _).
  set (distances := F64.pair_distances p1 p2).
  set (times := sample_times _ _ _ _).
  assert (Hne : distances <> []) by (by eapply f64_pair_distances_nonempty).
  destruct (f64_argmin_spec _ Hne) as (m & Hm & Hbefore & Hnan & Hleast).
  assert (Hi : (F64.argmin distances < length times)%nat).
  { unfold times. rewrite sample_times_length.
    rewrite <- (f64_pair_distances_length p1 p2). by eapply lookup_lt_Some. }
  destruct (lookup_lt_is_Some_2 times _ Hi) as [t Ht].
  exists distances, times, (F64.argmin distances), m, t.
  rewrite f64_result_all_distances, f64_result_times, f64_result_min_distance,
    f64_result_closest_time.
  rewrite (list_lookup_total_correct _ _ _ Hm), (list_lookup_total_correct _ _ _ Ht).
  repeat split; try done.
  - pose proof (f64_pair_distances_nonneg p1 p2) as Hnn.
    rewrite Forall_forall in Hnn.
    apply Hnn; [by eapply list_elem_of_lookup_2 |]. by eapply no_nan_lookup.
  - by apply Hleast.
  - by apply Hleast.
Qed.

(** The decayed object against itself: the distances are 0, 0, NaN, NaN,
    NaN, and the reported minimum is the NaN at index 2. [A] against [B]: no
    distance is NaN and the reported minimum is the least sample, 2 km, at
    index 2. *)
Lemma closest_approach_is_first_nan_or_first_minimum_witness :
  (exists (dict : gmap string F64.value) (w' : world)
          (distances : list F64.float) (times : list datetime) (i : nat)
          (m : F64.float) (t : datetime),
    F64.analyze_close_approach F64.catalog "D" "D" 4 5 Scenario.still
    = (Ok dict, w') /\
    dict !! "error" = None /\
    dict !! "min_distance_km" = Some (F64.VFloat F64.NaN) /\
    dict !! "closest_approach_time" = Some (F64.VDatetime 5760000000) /\
    dict !! "all_distances" = Some (F64.VArray distances) /\
    dict !! "times" = Some (F64.VList times) /\
    distances !! i = Some m /\ times !! i = Some t /\
    dict !! "min_distance_km" = Some (F64.VFloat m) /\
    dict !! "closest_approach_time" = Some (F64.VDatetime t) /\
    (forall j y, (j < i)%nat -> distances !! j = Some y -> F64.isnan y = false) /\
    (F64.no_nan distances = false -> m = F64.NaN) /\
    (F64.no_nan distances = true ->
       F64.leb (F64.Real 0) m = true /\
       Forall (fun y => F64.leb m y = true) distances /\
       (forall j y, (j < i)%nat -> distances !! j = Some y ->
                    F64.ltb m y = true)))
  /\
  (exists (dict : gmap string F64.value) (w' : world)
          (times : list datetime) (i : nat) (m : F64.float) (t : datetime),
    F64.analyze_close_approach F64.catalog "A" "B" 4 5 Scenario.still
    = (Ok dict, w') /\
    dict !! "error" = None /\
    dict !! "min_distance_km" = Some (F64.VFloat (F64.Real 2)) /\
    dict !! "closest_approach_time" = Some (F64.VDatetime 5760000000) /\
    F64.no_nan F64.distances_A_B = true /\
    dict !! "all_distances" = Some (F64.VArray F64.distances_A_B) /\
    dict !! "times" = Some (F64.VList times) /\
    F64.distances_A_B !! i = Some m /\ times !! i = Some t /\
    dict !! "min_distance_km" = Some (F64.VFloat m) /\
    dict !! "closest_approach_time" = Some (F64.VDatetime t) /\
    F64.leb (F64.Real 0) m = true /\
    Forall (fun y => F64.leb m y = true) F64.distances_A_B /\
    (forall j y, (j < i)%nat -> F64.distances_A_B !! j = Some y ->
                 F64.ltb m y = true)).
Proof.
  split.
  - destruct (closest_approach_is_first_nan_or_first_minimum F64.catalog "D" "D"
                4%R 5 Scenario.still _ _ F64Run.run_analysis_D
                (f64_result_no_error _ _ _ _ _ _ _))
      as (distances & times & i & m & t & H).
    eexists _, _, distances, times, i, m, t.
    split; [apply F64Run.run_analysis_D |].
    split; [apply f64_result_no_error |].
    split. { by rewrite f64_result_min_distance, F64Run.run_argmin_D. }
    split. { by rewrite f64_result_closest_time, F64Run.run_argmin_D. }
    exact H.
  - destruct (closest_approach_is_first_nan_or_first_minimum F64.catalog "A" "B"
                4%R 5 Scenario.still _ _ F64Run.run_analysis_A_B
                (f64_result_no_error _ _ _ _ _ _ _))
      as (distances & times & i & m & t & Hd & Ht & Hi & Hti & Hm & Hc & _ & _ & H).
    rewrite f64_result_all_distances in Hd. injection Hd as <-.
    destruct (H eq_refl) as (H0 & Hleast & Hfirst).
    eexists _, _, times, i, m, t.
    split; [apply F64Run.run_analysis_A_B |].
    split; [apply f64_result_no_error |].
    split. { by rewrite f64_result_min_distance, F64Run.run_argmin_A_B. }
    split. { by rewrite f64_result_closest_time, F64Run.run_argmin_A_B. }
    split; [reflexivity |].
    split; [apply f64_result_all_distances |].
    done.
Defined.

(** X12. Warnings and the minimum distance agree when no sample is NaN: a
    result without an error never counts more warning samples than points,
    and if none of its distances is NaN it counts at least one warning sample
    exactly when its minimum distance is strictly below the warning distance
    of the detector. *)
Theorem warnings_iff_minimum_below_warning_without_nan :
  forall (self : F64.SatelliteOrbitPredictor) (s1 s2 : string) (d : R) (pts : Z)
         (w w' : world) (dict : gmap string F64.value),
    F64.analyze_close_approach self s1 s2 d pts w = (Ok dict, w') ->
    dict !! "error" = None ->
    exists (distances : list F64.float) (m : F64.float) (count : Z),
      dict !! "all_distances" = Some (F64.VArray distances) /\
      dict !! "min_distance_km" = Some (F64.VFloat m) /\
      dict !! "warning_periods" = Some (F64.VInt count) /\
      0 <= count <= pts /\
      (F64.no_nan distances = true ->
       (0 < count <->
        F64.ltb m (F64.Real (warning_distance_km (detector w))) = true)).
Proof.
  intros self s1 s2 d pts w w' dict Hrun Herr.
  destruct (f64_analyze_no_error_inv _ _ _ _ _ _ _ _ Hrun Herr)
    as (p1 & p2 & H1 & H2 & -> & _).
  set (distances := F64.pair_distances p1 p2).
  set (warning := F64.Real (warning_distance_km (detector w))).
  assert (Hne : distances <> []) by (by eapply f64_pair_distances_nonempty).
  destruct (f64_argmin_spec _ Hne) as (m & Hm & _ & _ & Hleast).
  exists distances, m,
    (Z.of_nat (length (np_where (F64.np_less distances warning)))).
  rewrite f64_result_all_distances, f64_result_min_distance,
    f64_result_warning_periods, (list_lookup_total_correct _ _ _ Hm).
  split; [done |]. split; [done |]. split; [done |]. split.
  - pose proof (where_from_length (F64.np_less distances warning) 0) as Hlen.
    unfold np_where, F64.np_less in *. rewrite length_map in Hlen.
    destruct p1 as [[x1 y1] z1].
    apply f64_orbit_path_of_length in H1 as (Hpts & Hx1 & _).
    pose proof (f64_pair_distances_length (x1, y1, z1) p2) as HL. cbn [fst] in HL.
    fold distances in HL. lia.
  - intros Hnan. destruct (Hleast Hnan) as [Hall _]. split.
    + intros Hpos. unfold np_where in Hpos.
      destruct (where_from 0 (F64.np_less distances warning)) as [| i l] eqn:Hw;
        [simpl in Hpos; lia |].
      assert (Hin : i ∈ where_from 0 (F64.np_less distances warning))
        by (rewrite Hw; by left).
      apply elem_of_where_from in Hin as (j & -> & Hj).
      apply f64_np_less_lookup in Hj as (x & Hx & Hlt).
      rewrite Forall_forall in Hall.
      eapply f64_leb_ltb_trans; [| exact Hlt].
      apply Hall. by eapply list_elem_of_lookup_2.
    + intros Hlt.
      assert (Hin : F64.argmin distances
                    ∈ where_from 0 (F64.np_less distances warning)).
      { apply elem_of_where_from. exists (F64.argmin distances). split; [done |].
        apply f64_np_less_lookup. by exists m. }
      unfold np_where.
      destruct (where_from 0 (F64.np_less distances warning)); [by inversion Hin |].
      simpl. lia.
Qed.

(** [A] against [B]: the distances are 100, 50, 2, 60 and 120 km, none is
    NaN, the minimum 2 km is below the warning distance of 10 km and one
    sample is counted. *)
Lemma warnings_iff_minimum_below_warning_without_nan_witness :
  exists (dict : gmap string F64.value) (w' : world)
         (distances : list F64.float) (m : F64.float) (count : Z),
    F64.analyze_close_approach F64.catalog "A" "B" 4 5 Scenario.still
    = (Ok dict, w') /\
    dict !! "error" = None /\
    dict !! "min_distance_km" = Some (F64.VFloat (F64.Real 2)) /\
    dict !! "warning_periods" = Some (F64.VInt 1) /\
    F64.no_nan distances = true /\
    dict !! "all_distances" = Some (F64.VArray distances) /\
    dict !! "min_distance_km" = Some (F64.VFloat m) /\
    dict !! "warning_periods" = Some (F64.VInt count) /\
    0 <= count <= 5 /\
    (F64.no_nan distances = true ->
     (0 < count <->
      F64.ltb m (F64.Real (warning_distance_km (detector Scenario.still))) = true)).
Proof.
  destruct (warnings_iff_minimum_below_warning_without_nan F64.catalog "A" "B"
              4%R 5 Scenario.still _ _ F64Run.run_analysis_A_B
              (f64_result_no_error _ _ _ _ _ _ _))
    as (distances & m & count & Hd & H).
  eexists _, _, distances, m, count.
  split; [apply F64Run.run_analysis_A_B |].
  split; [apply f64_result_no_error |].
  split. { by rewrite f64_result_min_distance, F64Run.run_argmin_A_B. }
  split. { by rewrite f64_result_warning_periods, F64Run.run_warnings_A_B. }
  split.
  { rewrite f64_result_all_distances in Hd. by injection Hd as <-. }
  split; [exact Hd | exact H].
Defined.

(** X23. The reported relative velocity. In a result without an error it is
    the integer 0 whenever the analysis has fewer than three points, for then
    no sample has two neighbours. For a window of positive duration whose
    distances are all finite it is the integer 0 or a float that is not
    negative. *)
Theorem relative_velocity_of_finite_distances :
  forall (self : F64.SatelliteOrbitPredictor) (s1 s2 : string) (d : R) (pts : Z)
         (w w' : world) (dict : gmap string F64.value),
    F64.analyze_close_approach self s1 s2 d pts w = (Ok dict, w') ->
    dict !! "error" = None ->
    exists distances : list F64.float,
      dict !! "all_distances" = Some (F64.VArray distances) /\
      (pts <= 2 -> dict !! "relative_velocity_km_s" = Some (F64.VInt 0)) /\
      (F64.all_finite distances = true -> (0 < d)%R ->
       dict !! "relative_velocity_km_s" = Some (F64.VInt 0) \/
       exists v, dict !! "relative_velocity_km_s" = Some (F64.VFloat v)
                 /\ F64.leb (F64.Real 0) v = true).
Proof.
  intros self s1 s2 d pts w w' dict Hrun Herr.
  destruct (f64_analyze_no_error_inv _ _ _ _ _ _ _ _ Hrun Herr)
    as ([[x1 y1] z1] & p2 & H1 & H2 & -> & _).
  apply f64_orbit_path_of_length in H1 as (Hpts & Hx1 & _).
  pose proof (f64_pair_distances_length (x1, y1, z1) p2) as HL. cbn [fst] in HL.
  eexists. split; [apply f64_result_all_distances |].
  rewrite f64_result_relative_velocity. unfold F64.relative_velocity_of.
  set (distances := F64.pair_distances _ _) in *.
  destruct (_ && _) eqn:Hc.
  - apply andb_true_iff in Hc as [H0 Hlast]. apply Z.ltb_lt in H0, Hlast.
    split; [intros Hsmall; lia |].
    intros Hfin Hd. right. eexists. split; [reflexivity |].
    destruct (all_finite_lookup_total distances (F64.argmin distances + 1) Hfin
                ltac:(lia)) as [a ->].
    destruct (all_finite_lookup_total distances (F64.argmin distances - 1) Hfin
                ltac:(lia)) as [b ->].
    cbn [F64.sub F64.abs F64.div].
    assert (0 < IZR pts)%R by (by apply IZR_lt).
    assert (0 < d / IZR pts)%R by (by apply Rdiv_lt_0_compat).
    destruct (Req_dec_T _ 0) as [E | _]; [lra |].
    cbn [F64.leb]. rewrite ltb_false; [done |].
    apply Rmult_le_pos; [apply Rabs_pos |].
    apply Rlt_le, Rinv_0_lt_compat. lra.
  - split; [done | by left].
Qed.

(** [A] against [B]: every distance is finite, the minimum is at the
    interior index 2, between the distances 50 and 60 km, and the reported
    velocity is the float 10 / 5760 km/s. *)
Lemma relative_velocity_of_finite_distances_witness :
  exists (dict : gmap string F64.value) (w' : world) (distances : list F64.float),
    F64.analyze_close_approach F64.catalog "A" "B" 4 5 Scenario.still
    = (Ok dict, w') /\
    dict !! "error" = None /\
    dict !! "relative_velocity_km_s"
    = Some (F64.VFloat (F64.Real (Rabs (60 - 50) / (2 * (4 / 5 * 3600))))) /\
    F64.all_finite distances = true /\
    dict !! "all_distances" = Some (F64.VArray distances) /\
    (5 <= 2 -> dict !! "relative_velocity_km_s" = Some (F64.VInt 0)) /\
    (F64.all_finite distances = true -> (0 < 4)%R ->
     dict !! "relative_velocity_km_s" = Some (F64.VInt 0) \/
     exists v, dict !! "relative_velocity_km_s" = Some (F64.VFloat v)
               /\ F64.leb (F64.Real 0) v = true).
Proof.
  destruct (relative_velocity_of_finite_distances F64.catalog "A" "B"
              4%R 5 Scenario.still _ _ F64Run.run_analysis_A_B
              (f64_result_no_error _ _ _ _ _ _ _))
    as (distances & Hd & H).
  eexists _, _, distances.
  split; [apply F64Run.run_analysis_A_B |].
  split; [apply f64_result_no_error |].
  split. { by rewrite f64_result_relative_velocity, F64Run.run_velocity_A_B. }
  split.
  { rewrite f64_result_all_distances in Hd. by injection Hd as <-. }
  split; [exact Hd | exact H].
Defined.

(** ** Coverage over floats *)

Lemma f64_ltb_false_leb (a b : F64.float) :
  F64.isnan a = false -> F64.isnan b = false ->
  F64.ltb a b = false -> F64.leb b a = true.
Proof. f64_order. Qed.

Lemma no_nan_cons (x : F64.float) (l : list F64.float) :
  F64.no_nan (x :: l) = negb (F64.isnan x) && F64.no_nan l.
Proof. reflexivity. Qed.

Lemma all_finite_no_nan (l : list F64.float) :
  F64.all_finite l = true -> F64.no_nan l = true.
Proof.
  induction l as [| x l IH]; [done |].
  unfold F64.all_finite. cbn [forallb]. intros [Hx Hl]%andb_true_iff.
  rewrite no_nan_cons, IH by done. by destruct x.
Qed.

Lemma all_finite_elem_of (l : list F64.float) (x : F64.float) :
  F64.all_finite l = true -> x ∈ l -> exists r, x = F64.Real r.
Proof.
  intros Hl (i & Hi)%list_elem_of_lookup_1.
  destruct (all_finite_lookup_total l i Hl) as [r Hr]; [by eapply lookup_lt_Some |].
  rewrite (list_lookup_total_correct _ _ _ Hi) in Hr. by exists r.
Qed.

Lemma f64_fold_maximum_nan (l : list F64.float) :
  fold_left F64.maximum l F64.NaN = F64.NaN.
Proof. induction l as [| y l IH]; [done | exact IH]. Qed.

Lemma f64_fold_minimum_nan (l : list F64.float) :
  fold_left F64.minimum l F64.NaN = F64.NaN.
Proof. induction l as [| y l IH]; [done | exact IH]. Qed.

(** The reduction of [np.max]: NaN as soon as one entry is NaN, and an entry
    that bounds every entry otherwise. *)
Lemma f64_fold_maximum_spec (l : list F64.float) (x : F64.float) :
  (F64.no_nan (x :: l) = false -> fold_left F64.maximum l x = F64.NaN) /\
  (F64.no_nan (x :: l) = true ->
     fold_left F64.maximum l x ∈ x :: l /\
     Forall (fun y => F64.leb y (fold_left F64.maximum l x) = true) (x :: l)).
Proof.
  revert x. induction l as [| y l IH]; intros x.
  - cbn [fold_left]. rewrite no_nan_cons. split.
    + destruct x; try done.
    + intros [Hx _]%andb_true_iff. apply negb_true_iff in Hx.
      split; [by left |]. constructor; [by apply f64_leb_refl | constructor].
  - cbn [fold_left]. rewrite !no_nan_cons.
    destruct (F64.isnan x) eqn:Hx.
    { destruct x; try done. cbn [F64.maximum F64.isnan].
      rewrite f64_fold_maximum_nan. by split. }
    destruct (F64.isnan y) eqn:Hy.
    { destruct y; try done.
      replace (F64.maximum x F64.NaN) with F64.NaN by (by destruct x).
      rewrite f64_fold_maximum_nan. by split. }
    cbn [negb andb].
    assert (Hmax : F64.maximum x y = if F64.ltb x y then y else x).
    { unfold F64.maximum. by rewrite Hx, Hy. }
    set (x' := F64.maximum x y) in *.
    assert (Hx' : F64.isnan x' = false) by (rewrite Hmax; by destruct (F64.ltb x y)).
    assert (Hxx' : F64.leb x x' = true).
    { rewrite Hmax. destruct (F64.ltb x y) eqn:Hlt;
        [by apply f64_ltb_leb | by apply f64_leb_refl]. }
    assert (Hyx' : F64.leb y x' = true).
    { rewrite Hmax. destruct (F64.ltb x y) eqn:Hlt;
        [by apply f64_leb_refl | by apply f64_ltb_false_leb]. }
    destruct (IH x') as [IHnan IHok]. rewrite no_nan_cons, Hx' in IHnan, IHok.
    cbn [negb andb] in IHnan, IHok.
    split; [done |]. intros Hl. destruct (IHok Hl) as [Hin Hall].
    apply Forall_cons in Hall as [Hm Hall].
    split.
    + apply elem_of_cons in Hin as [-> | Hin].
      * rewrite Hmax. destruct (F64.ltb x y); [right; by left | by left].
      * right. by right.
    + constructor; [by eapply f64_leb_trans |].
      constructor; [by eapply f64_leb_trans | done].
Qed.

Lemma f64_fold_minimum_spec (l : list F64.float) (x : F64.float) :
  (F64.no_nan (x :: l) = false -> fold_left F64.minimum l x = F64.NaN) /\
  (F64.no_nan (x :: l) = true ->
     fold_left F64.minimum l x ∈ x :: l /\
     Forall (fun y => F64.leb (fold_left F64.minimum l x) y = true) (x :: l)).
Proof.
  revert x. induction l as [| y l IH]; intros x.
  - cbn [fold_left]. rewrite no_nan_cons. split.
    + destruct x; try done.
    + intros [Hx _]%andb_true_iff. apply negb_true_iff in Hx.
      split; [by left |]. constructor; [by apply f64_leb_refl | constructor].
  - cbn [fold_left]. rewrite !no_nan_cons.
    destruct (F64.isnan x) eqn:Hx.
    { destruct x; try done. cbn [F64.minimum F64.isnan].
      rewrite f64_fold_minimum_nan. by split. }
    destruct (F64.isnan y) eqn:Hy.
    { destruct y; try done.
      replace (F64.minimum x F64.NaN) with F64.NaN by (by destruct x).
      rewrite f64_fold_minimum_nan. by split. }
    cbn [negb andb].
    assert (Hmin : F64.minimum x y = if F64.ltb y x then y else x).
    { unfold F64.minimum. by rewrite Hx, Hy. }
    set (x' := F64.minimum x y) in *.
    assert (Hx' : F64.isnan x' = false) by (rewrite Hmin; by destruct (F64.ltb y x)).
    assert (Hxx' : F64.leb x' x = true).
    { rewrite Hmin. destruct (F64.ltb y x) eqn:Hlt;
        [by apply f64_ltb_leb | by apply f64_leb_refl]. }
    assert (Hyx' : F64.leb x' y = true).
    { rewrite Hmin. destruct (F64.ltb y x) eqn:Hlt;
        [by apply f64_leb_refl | by apply f64_ltb_false_leb]. }
    destruct (IH x') as [IHnan IHok]. rewrite no_nan_cons, Hx' in IHnan, IHok.
    cbn [negb andb] in IHnan, IHok.
    split; [done |]. intros Hl. destruct (IHok Hl) as [Hin Hall].
    apply Forall_cons in Hall as [Hm Hall].
    split.
    + apply elem_of_cons in Hin as [-> | Hin].
      * rewrite Hmin. destruct (F64.ltb y x); [right; by left | by left].
      * right. by right.
    + constructor; [by eapply f64_leb_trans |].
      constructor; [by eapply f64_leb_trans | done].
Qed.

Lemma f64_np_max_spec (a : list F64.float) (m : F64.float) :
  F64.np_max a = Ok m ->
  (F64.no_nan a = false -> m = F64.NaN) /\
  (F64.no_nan a = true -> m ∈ a /\ Forall (fun y => F64.leb y m = true) a).
Proof.
  destruct a as [| x l]; [done |]. intros [= <-]. apply f64_fold_maximum_spec.
Qed.

Lemma f64_np_min_spec (a : list F64.float) (m : F64.float) :
  F64.np_min a = Ok m ->
  (F64.no_nan a = false -> m = F64.NaN) /\
  (F64.no_nan a = true -> m ∈ a /\ Forall (fun y => F64.leb m y = true) a).
Proof.
  destruct a as [| x l]; [done |]. intros [= <-]. apply f64_fold_minimum_spec.
Qed.

Lemma f64_analyze_coverage_inv lats lons dict :
  F64.analyze_coverage lats lons = Ok dict ->
  exists mx mn sx sn,
    F64.np_max lats = Ok mx /\ F64.np_min lats = Ok mn /\
    F64.np_max lons = Ok sx /\ F64.np_min lons = Ok sn /\
    dict = <["max_latitude" := F64.VFloat mx]>
          (<["min_latitude" := F64.VFloat mn]>
          (<["latitude_range" := F64.VFloat (F64.sub mx mn)]>
          (<["longitude_span" := F64.VFloat (F64.sub sx sn)]>
          (<["equatorial_crossings" :=
               F64.VInt (np_sum_bool (F64.np_not_equal
                           (F64.np_diff (F64.np_sign lats)) (F64.Real 0)))]>
          (<["total_points" := F64.VInt (Z.of_nat (length lats))]>
             (∅ : gmap string F64.value)))))).
Proof.
  unfold F64.analyze_coverage.
  destruct lats as [| a lats]; [done |]. destruct lons as [| b lons]; [done |].
  intros [= <-]. by eexists _, _, _, _.
Qed.

Lemma f64_range_nonneg (l : list F64.float) (mx mn : F64.float) :
  F64.all_finite l = true -> mx ∈ l -> mn ∈ l ->
  Forall (fun y => F64.leb mn y = true) l ->
  F64.leb (F64.Real 0) (F64.sub mx mn) = true.
Proof.
  intros Hfin Hmx Hmn Hall.
  rewrite Forall_forall in Hall. pose proof (Hall _ Hmx) as Hle.
  destruct (all_finite_elem_of _ _ Hfin Hmx) as [a ->].
  destruct (all_finite_elem_of _ _ Hfin Hmn) as [b ->].
  cbn [F64.leb F64.sub] in *. apply negb_true_iff in Hle. apply ltb_ge in Hle.
  rewrite ltb_false; [done | lra].
Qed.

(** X2. The reported extremes over floats. If some latitude is NaN the
    maximum and the minimum latitude are both NaN. If none is, they are
    latitudes of the track and every latitude lies between them; and if every
    latitude is finite the latitude range is not negative. The same holds of
    the longitudes and the longitude span. The range and the span are the
    differences of the extremes, and the number of points is the number of
    latitudes. *)
Theorem coverage_extremes_over_floats :
  forall (lats lons : list F64.float) (dict : gmap string F64.value),
    F64.analyze_coverage lats lons = Ok dict ->
    exists mx mn sx sn : F64.float,
      dict !! "max_latitude" = Some (F64.VFloat mx) /\
      dict !! "min_latitude" = Some (F64.VFloat mn) /\
      dict !! "latitude_range" = Some (F64.VFloat (F64.sub mx mn)) /\
      dict !! "longitude_span" = Some (F64.VFloat (F64.sub sx sn)) /\
      dict !! "total_points" = Some (F64.VInt (Z.of_nat (length lats))) /\
      (F64.no_nan lats = false -> mx = F64.NaN /\ mn = F64.NaN) /\
      (F64.no_nan lats = true ->
         mx ∈ lats /\ mn ∈ lats /\
         Forall (fun x => F64.leb mn x = true /\ F64.leb x mx = true) lats) /\
      (F64.all_finite lats = true ->
         F64.leb (F64.Real 0) (F64.sub mx mn) = true) /\
      (F64.no_nan lons = false -> sx = F64.NaN /\ sn = F64.NaN) /\
      (F64.no_nan lons = true ->
         sx ∈ lons /\ sn ∈ lons /\
         Forall (fun x => F64.leb sn x = true /\ F64.leb x sx = true) lons) /\
      (F64.all_finite lons = true ->
         F64.leb (F64.Real 0) (F64.sub sx sn) = true).
Proof.
  intros lats lons dict Hrun.
  destruct (f64_analyze_coverage_inv _ _ _ Hrun)
    as (mx & mn & sx & sn & Hmx & Hmn & Hsx & Hsn & ->).
  apply f64_np_max_spec in Hmx as [Hmx0 Hmx]. apply f64_np_min_spec in Hmn as [Hmn0 Hmn].
  apply f64_np_max_spec in Hsx as [Hsx0 Hsx]. apply f64_np_min_spec in Hsn as [Hsn0 Hsn].
  exists mx, mn, sx, sn.
  split; [done |]. split; [done |]. split; [done |]. split; [done |].
  split; [done |].
  split; [intros H; split; auto |].
  split.
  { intros H. destruct (Hmx H) as [? Hup], (Hmn H) as [? Hlow].
    split; [done |]. split; [done |].
    rewrite Forall_forall in *. intros x Hx. split; auto. }
  split.
  { intros H. pose proof (all_finite_no_nan _ H) as Hn.
    destruct (Hmx Hn) as [? _], (Hmn Hn) as [? ?]. by eapply f64_range_nonneg. }
  split; [intros H; split; auto |].
  split.
  { intros H. destruct (Hsx H) as [? Hup], (Hsn H) as [? Hlow].
    split; [done |]. split; [done |].
    rewrite Forall_forall in *. intros x Hx. split; auto. }
  intros H. pose proof (all_finite_no_nan _ H) as Hn.
  destruct (Hsx Hn) as [? _], (Hsn Hn) as [? ?]. by eapply f64_range_nonneg.
Qed.

(** A track with a NaN latitude: both extremes of the latitude are NaN. A
    track of the finite latitudes 10 and -5: the extremes are 10 and -5. *)
Lemma coverage_extremes_over_floats_witness :
  (exists (dict : gmap string F64.value) (mx mn sx sn : F64.float),
    F64.analyze_coverage [F64.Real 10; F64.NaN; F64.Real (-5)]
                         [F64.Real 20; F64.Real 30; F64.Real 25] = Ok dict /\
    dict !! "max_latitude" = Some (F64.VFloat F64.NaN) /\
    dict !! "min_latitude" = Some (F64.VFloat F64.NaN) /\
    dict !! "max_latitude" = Some (F64.VFloat mx) /\
    dict !! "min_latitude" = Some (F64.VFloat mn) /\
    dict !! "latitude_range" = Some (F64.VFloat (F64.sub mx mn)) /\
    dict !! "longitude_span" = Some (F64.VFloat (F64.sub sx sn)) /\
    dict !! "total_points" = Some (F64.VInt 3) /\
    (F64.no_nan [F64.Real 10; F64.NaN; F64.Real (-5)] = false ->
       mx = F64.NaN /\ mn = F64.NaN) /\
    (F64.no_nan [F64.Real 10; F64.NaN; F64.Real (-5)] = true ->
       mx ∈ [F64.Real 10; F64.NaN; F64.Real (-5)] /\
       mn ∈ [F64.Real 10; F64.NaN; F64.Real (-5)] /\
       Forall (fun x => F64.leb mn x = true /\ F64.leb x mx = true)
              [F64.Real 10; F64.NaN; F64.Real (-5)]) /\
    (F64.all_finite [F64.Real 10; F64.NaN; F64.Real (-5)] = true ->
       F64.leb (F64.Real 0) (F64.sub mx mn) = true) /\
    (F64.no_nan [F64.Real 20; F64.Real 30; F64.Real 25] = false ->
       sx = F64.NaN /\ sn = F64.NaN) /\
    (F64.no_nan [F64.Real 20; F64.Real 30; F64.Real 25] = true ->
       sx ∈ [F64.Real 20; F64.Real 30; F64.Real 25] /\
       sn ∈ [F64.Real 20; F64.Real 30; F64.Real 25] /\
       Forall (fun x => F64.leb sn x = true /\ F64.leb x sx = true)
              [F64.Real 20; F64.Real 30; F64.Real 25]) /\
    (F64.all_finite [F64.Real 20; F64.Real 30; F64.Real 25] = true ->
       F64.leb (F64.Real 0) (F64.sub sx sn) = true))
  /\
  (exists (dict : gmap string F64.value) (mx mn sx sn : F64.float),
    F64.analyze_coverage [F64.Real 10; F64.Real (-5)]
                         [F64.Real 20; F64.Real 30] = Ok dict /\
    F64.all_finite [F64.Real 10; F64.Real (-5)] = true /\
    F64.all_finite [F64.Real 20; F64.Real 30] = true /\
    dict !! "max_latitude" = Some (F64.VFloat (F64.Real 10)) /\
    dict !! "min_latitude" = Some (F64.VFloat (F64.Real (-5))) /\
    dict !! "latitude_range" = Some (F64.VFloat (F64.Real (10 - -5))) /\
    dict !! "longitude_span" = Some (F64.VFloat (F64.Real (30 - 20))) /\
    dict !! "max_latitude" = Some (F64.VFloat mx) /\
    dict !! "min_latitude" = Some (F64.VFloat mn) /\
    dict !! "latitude_range" = Some (F64.VFloat (F64.sub mx mn)) /\
    dict !! "longitude_span" = Some (F64.VFloat (F64.sub sx sn)) /\
    dict !! "total_points" = Some (F64.VInt 2) /\
    mx ∈ [F64.Real 10; F64.Real (-5)] /\
    mn ∈ [F64.Real 10; F64.Real (-5)] /\
    Forall (fun x => F64.leb mn x = true /\ F64.leb x mx = true)
           [F64.Real 10; F64.Real (-5)] /\
    F64.leb (F64.Real 0) (F64.sub mx mn) = true /\
    F64.leb (F64.Real 0) (F64.sub sx sn) = true).
Proof.
  split.
  - destruct (coverage_extremes_over_floats
                [F64.Real 10; F64.NaN; F64.Real (-5)]
                [F64.Real 20; F64.Real 30; F64.Real 25] _ eq_refl)
      as (mx & mn & sx & sn & H).
    eexists _, mx, mn, sx, sn.
    split; [reflexivity |]. split; [reflexivity |]. split; [reflexivity |].
    exact H.
  - destruct (coverage_extremes_over_floats
                [F64.Real 10; F64.Real (-5)] [F64.Real 20; F64.Real 30] _ eq_refl)
      as (mx & mn & sx & sn & Hmx & Hmn & Hr & Hs & Hn & _ & Hlat & Hrange
          & _ & _ & Hspan).
    destruct (Hlat eq_refl) as (Imx & Imn & Hall).
    eexists _, mx, mn, sx, sn.
    split; [reflexivity |]. split; [reflexivity |]. split; [reflexivity |].
    assert (Hmax : F64.maximum (F64.Real 10) (F64.Real (-5)) = F64.Real 10).
    { unfold F64.maximum. cbn [F64.isnan F64.ltb]. by rewrite ltb_false by lra. }
    assert (Hmin : F64.minimum (F64.Real 10) (F64.Real (-5)) = F64.Real (-5)).
    { unfold F64.minimum. cbn [F64.isnan F64.ltb]. by rewrite ltb_true by lra. }
    assert (Hsmax : F64.maximum (F64.Real 20) (F64.Real 30) = F64.Real 30).
    { unfold F64.maximum. cbn [F64.isnan F64.ltb]. by rewrite ltb_true by lra. }
    assert (Hsmin : F64.minimum (F64.Real 20) (F64.Real 30) = F64.Real 20).
    { unfold F64.minimum. cbn [F64.isnan F64.ltb]. by rewrite ltb_false by lra. }
    split.
    { change (Some (F64.VFloat (F64.maximum (F64.Real 10) (F64.Real (-5))))
              = Some (F64.VFloat (F64.Real 10))). by rewrite Hmax. }
    split.
    { change (Some (F64.VFloat (F64.minimum (F64.Real 10) (F64.Real (-5))))
              = Some (F64.VFloat (F64.Real (-5)))). by rewrite Hmin. }
    split.
    { change (Some (F64.VFloat (F64.sub (F64.maximum (F64.Real 10) (F64.Real (-5)))
                                        (F64.minimum (F64.Real 10) (F64.Real (-5)))))
              = Some (F64.VFloat (F64.Real (10 - -5)))). by rewrite Hmax, Hmin. }
    split.
    { change (Some (F64.VFloat (F64.sub (F64.maximum (F64.Real 20) (F64.Real 30))
                                        (F64.minimum (F64.Real 20) (F64.Real 30))))
              = Some (F64.VFloat (F64.Real (30 - 20)))). by rewrite Hsmax, Hsmin. }
    split; [exact Hmx |]. split; [exact Hmn |]. split; [exact Hr |].
    split; [exact Hs |]. split; [exact Hn |].
    split; [exact Imx |]. split; [exact Imn |]. split; [exact Hall |].
    split; [by apply Hrange | by apply Hspan].
Defined.

Lemma f64_np_diff_lookup (a : list F64.float) (i : nat) (d : F64.float) :
  F64.np_diff a !! i = Some d <->
  exists x y, a !! i = Some x /\ a !! S i = Some y /\ d = F64.sub y x.
Proof.
  revert i. induction a as [| x [| y a] IH]; intros i.
  - split; [done | by intros (? & ? & ? & _)].
  - split; [done |]. intros (? & ? & _ & ? & _). by destruct i.
  - change (F64.np_diff (x :: y :: a)) with (F64.sub y x :: F64.np_diff (y :: a)).
    destruct i as [| i].
    + split.
      * intros [= <-]. by exists x, y.
      * by intros (? & ? & [= <-] & [= <-] & ->).
    + apply IH.
Qed.

Lemma f64_np_diff_length (a : list F64.float) :
  length (F64.np_diff a) = Nat.pred (length a).
Proof.
  induction a as [| x [| y a] IH]; [done | done |].
  change (F64.np_diff (x :: y :: a)) with (F64.sub y x :: F64.np_diff (y :: a)).
  cbn [length] in *. by rewrite IH.
Qed.

(** Two consecutive samples count as a crossing when one of them is NaN or
    their signs differ. *)
Lemma f64_crossing (x y : F64.float) :
  F64.neb (F64.sub (F64.sign y) (F64.sign x)) (F64.Real 0) = true <->
  F64.isnan x = true \/ F64.isnan y = true \/ F64.sign x <> F64.sign y.
Proof.
  assert (Hreal : forall a b : R,
            F64.neb (F64.sub (F64.Real b) (F64.Real a)) (F64.Real 0) = true <->
            F64.Real a <> F64.Real b).
  { intros a b. cbn [F64.sub F64.neb]. rewrite float_neb_true. split.
    - intros Hne [= ->]. apply Hne. lra.
    - intros Hne E. apply Hne. f_equal. lra. }
  destruct x as [a | | |], y as [b | | |]; cbn [F64.sign F64.isnan];
    rewrite ?Hreal;
    try (split; [intros H; by (right; right) | intros [? | [? | ?]]; done ]);
    try (split; [intros _; by (left + (right; left)) | done]).
Qed.

Lemma f64_crossing_mask_lookup (lats : list F64.float) (i : nat) :
  F64.np_not_equal (F64.np_diff (F64.np_sign lats)) (F64.Real 0) !! i = Some true <->
  exists x y, lats !! i = Some x /\ lats !! S i = Some y /\
              (F64.isnan x = true \/ F64.isnan y = true \/ F64.sign x <> F64.sign y).
Proof.
  unfold F64.np_not_equal, F64.np_sign. rewrite list_lookup_fmap. split.
  - destruct (F64.np_diff _ !! i) as [dv |] eqn:Hd; [| done].
    apply f64_np_diff_lookup in Hd as (sx & sy & Hsx & Hsy & ->).
    rewrite list_lookup_fmap in Hsx, Hsy.
    destruct (lats !! i) as [x |]; [| done].
    destruct (lats !! S i) as [y |]; [| done].
    injection Hsx as <-. injection Hsy as <-.
    cbn [fmap option_fmap option_map]. intros [= Hne].
    exists x, y. split; [done |]. split; [done |]. by apply f64_crossing.
  - intros (x & y & Hx & Hy & Hne).
    assert (Hd : F64.np_diff (map F64.sign lats) !! i
                 = Some (F64.sub (F64.sign y) (F64.sign x))).
    { apply f64_np_diff_lookup. exists (F64.sign x), (F64.sign y).
      by rewrite !list_lookup_fmap, Hx, Hy. }
    rewrite Hd. cbn [fmap option_fmap option_map]. f_equal.
    by apply f64_crossing.
Qed.

(** X3. The equatorial crossings over floats: the count is the number of
    indices [i] at which one of the samples [i] and [i + 1] is NaN or the two
    differ in sign, the sign of a float that is not NaN being -1, 0 or 1. It
    is at most the number of samples less one, and it is 0 for a track that
    stays strictly on one side of the equator. *)
Theorem crossings_are_sign_changes_or_nan :
  forall (lats lons : list F64.float) (dict : gmap string F64.value),
    F64.analyze_coverage lats lons = Ok dict ->
    exists indices : list nat,
      NoDup indices /\
      (forall i : nat,
          i ∈ indices <->
          exists x y, lats !! i = Some x /\ lats !! S i = Some y /\
                      (F64.isnan x = true \/ F64.isnan y = true
                       \/ F64.sign x <> F64.sign y)) /\
      dict !! "equatorial_crossings" = Some (F64.VInt (Z.of_nat (length indices))) /\
      (length indices <= length lats - 1)%nat /\
      (Forall (fun x => F64.ltb (F64.Real 0) x = true) lats
       \/ Forall (fun x => F64.ltb x (F64.Real 0) = true) lats ->
       indices = []).
Proof.
  intros lats lons dict Hrun.
  destruct (f64_analyze_coverage_inv _ _ _ Hrun)
    as (mx & mn & sx & sn & _ & _ & _ & _ & ->).
  set (mask := F64.np_not_equal (F64.np_diff (F64.np_sign lats)) (F64.Real 0)).
  exists (where_from 0 mask).
  assert (Hchar : forall i, i ∈ where_from 0 mask <->
            exists x y, lats !! i = Some x /\ lats !! S i = Some y /\
                        (F64.isnan x = true \/ F64.isnan y = true
                         \/ F64.sign x <> F64.sign y)).
  { intros i. rewrite elem_of_where_from. unfold mask. split.
    - intros (j & -> & Hj). by apply f64_crossing_mask_lookup.
    - intros H. exists i. split; [done |]. by apply f64_crossing_mask_lookup. }
  split; [apply NoDup_where_from |]. split; [done |].
  split.
  { rewrite !lookup_insert_ne by done. rewrite lookup_insert.
    by rewrite (np_sum_bool_where mask 0). }
  split.
  - pose proof (where_from_length mask 0) as Hlen.
    assert (Hm : length mask = Nat.pred (length lats)).
    { unfold mask, F64.np_not_equal, F64.np_sign.
      by rewrite length_map, f64_np_diff_length, length_map. }
    lia.
  - intros Hside.
    destruct (where_from 0 mask) as [| i l] eqn:Hw; [done |]. exfalso.
    destruct (proj1 (Hchar i)) as (x & y & Hx & Hy & Hne); [by left |].
    apply list_elem_of_lookup_2 in Hx, Hy.
    destruct Hside as [Hpos | Hneg].
    + rewrite Forall_forall in Hpos.
      pose proof (Hpos _ Hx) as Px. pose proof (Hpos _ Hy) as Py.
      assert (Sx : F64.isnan x = false /\ F64.sign x = F64.Real 1).
      { destruct x as [a | | |]; try done. cbn [F64.ltb] in Px.
        apply ltb_lt in Px. split; [done |]. cbn [F64.sign]. unfold sign.
        by rewrite ltb_false, ltb_true by lra. }
      assert (Sy : F64.isnan y = false /\ F64.sign y = F64.Real 1).
      { destruct y as [a | | |]; try done. cbn [F64.ltb] in Py.
        apply ltb_lt in Py. split; [done |]. cbn [F64.sign]. unfold sign.
        by rewrite ltb_false, ltb_true by lra. }
      destruct Sx as [Nx Sx], Sy as [Ny Sy].
      destruct Hne as [? | [? | Hne]]; [congruence | congruence |].
      apply Hne. by rewrite Sx, Sy.
    + rewrite Forall_forall in Hneg.
      pose proof (Hneg _ Hx) as Px. pose proof (Hneg _ Hy) as Py.
      assert (Sx : F64.isnan x = false /\ F64.sign x = F64.Real (-1)).
      { destruct x as [a | | |]; try done. cbn [F64.ltb] in Px.
        apply ltb_lt in Px. split; [done |]. cbn [F64.sign]. unfold sign.
        by rewrite ltb_true by lra. }
      assert (Sy : F64.isnan y = false /\ F64.sign y = F64.Real (-1)).
      { destruct y as [a | | |]; try done. cbn [F64.ltb] in Py.
        apply ltb_lt in Py. split; [done |]. cbn [F64.sign]. unfold sign.
        by rewrite ltb_true by lra. }
      destruct Sx as [Nx Sx], Sy as [Ny Sy].
      destruct Hne as [? | [? | Hne]]; [congruence | congruence |].
      apply Hne. by rewrite Sx, Sy.
Qed.

(** The track of latitudes NaN, NaN: the one pair of consecutive samples is
    counted as a crossing. The track of latitudes 10, 5 stays north of the
    equator and has no crossing. *)
Lemma crossings_are_sign_changes_or_nan_witness :
  (exists (dict : gmap string F64.value) (indices : list nat),
    F64.analyze_coverage [F64.NaN; F64.NaN] [F64.Real 20; F64.Real 30] = Ok dict /\
    dict !! "equatorial_crossings" = Some (F64.VInt 1) /\
    NoDup indices /\
    (forall i : nat,
        i ∈ indices <->
        exists x y, [F64.NaN; F64.NaN] !! i = Some x /\
                    [F64.NaN; F64.NaN] !! S i = Some y /\
                    (F64.isnan x = true \/ F64.isnan y = true
                     \/ F64.sign x <> F64.sign y)) /\
    dict !! "equatorial_crossings" = Some (F64.VInt (Z.of_nat (length indices))) /\
    (length indices <= length [F64.NaN; F64.NaN] - 1)%nat /\
    (Forall (fun x => F64.ltb (F64.Real 0) x = true) [F64.NaN; F64.NaN]
     \/ Forall (fun x => F64.ltb x (F64.Real 0) = true) [F64.NaN; F64.NaN] ->
     indices = []))
  /\
  (exists dict : gmap string F64.value,
    F64.analyze_coverage [F64.Real 10; F64.Real 5] [F64.Real 20; F64.Real 30]
    = Ok dict /\
    Forall (fun x => F64.ltb (F64.Real 0) x = true) [F64.Real 10; F64.Real 5] /\
    dict !! "equatorial_crossings" = Some (F64.VInt 0)).
Proof.
  split.
  - destruct (crossings_are_sign_changes_or_nan [F64.NaN; F64.NaN]
                [F64.Real 20; F64.Real 30] _ eq_refl)
      as (indices & H).
    eexists _, indices.
    split; [reflexivity |]. split; [reflexivity |]. exact H.
  - assert (Hnorth : Forall (fun x => F64.ltb (F64.Real 0) x = true)
                            [F64.Real 10; F64.Real 5]).
    { repeat constructor; cbn [F64.ltb]; apply ltb_true; lra. }
    destruct (crossings_are_sign_changes_or_nan [F64.Real 10; F64.Real 5]
                [F64.Real 20; F64.Real 30] _ eq_refl)
      as (indices & _ & _ & Hcount & _ & Hside).
    eexists. split; [reflexivity |]. split; [exact Hnorth |].
    rewrite Hcount, (Hside (or_introl Hnorth)). reflexivity.
Defined.

(** ** The distance over floats *)

Lemma f64_square_sub_sym (a b : F64.float) :
  F64.square (F64.sub a b) = F64.square (F64.sub b a).
Proof.
  destruct a, b; cbn [F64.sub F64.square]; try done. f_equal. ring.
Qed.

Lemma f64_add_nan_l (a : F64.float) : F64.add F64.NaN a = F64.NaN.
Proof. by destruct a. Qed.

Lemma f64_add_nan_r (a : F64.float) : F64.add a F64.NaN = F64.NaN.
Proof. by destruct a. Qed.

Lemma f64_square_sub_nan (a b : F64.float) :
  F64.isnan a = true \/ F64.isnan b = true ->
  F64.square (F64.sub a b) = F64.NaN.
Proof. intros [H | H]; destruct a, b; done. Qed.

(** X17. [calculate_distance] over floats. It does not depend on the order of
    its two positions; its value is NaN or is not negative; it is NaN as soon
    as one of the six coordinates is NaN; and it is 0 between a position with
    finite coordinates and itself. *)
Theorem calculate_distance_over_floats :
  (forall a b : F64.vec3,
      F64.calculate_distance a b = F64.calculate_distance b a) /\
  (forall a b : F64.vec3,
      F64.calculate_distance a b = F64.NaN \/
      F64.leb (F64.Real 0) (F64.calculate_distance a b) = true) /\
  (forall x1 y1 z1 x2 y2 z2 : F64.float,
      existsb F64.isnan [x1; y1; z1; x2; y2; z2] = true ->
      F64.calculate_distance (x1, y1, z1) (x2, y2, z2) = F64.NaN) /\
  (forall x y z : R,
      F64.calculate_distance (F64.Real x, F64.Real y, F64.Real z)
                             (F64.Real x, F64.Real y, F64.Real z) = F64.Real 0).
Proof.
  split; [| split; [| split]].
  - intros [[x1 y1] z1] [[x2 y2] z2]. unfold F64.calculate_distance.
    by rewrite (f64_square_sub_sym x2 x1), (f64_square_sub_sym y2 y1),
      (f64_square_sub_sym z2 z1).
  - intros a b. destruct (F64.isnan (F64.calculate_distance a b)) eqn:Hn.
    + left. by destruct (F64.calculate_distance a b).
    + right. by apply f64_calculate_distance_nonneg.
  - intros x1 y1 z1 x2 y2 z2 Hn. cbn [existsb] in Hn.
    unfold F64.calculate_distance.
    repeat (apply orb_true_iff in Hn as [Hn | Hn]); try done.
    + rewrite (f64_square_sub_nan x2 x1) by (by right).
      by rewrite !f64_add_nan_l.
    + rewrite (f64_square_sub_nan y2 y1) by (by right).
      by rewrite f64_add_nan_r, f64_add_nan_l.
    + rewrite (f64_square_sub_nan z2 z1) by (by right).
      by rewrite f64_add_nan_r.
    + rewrite (f64_square_sub_nan x2 x1) by (by left).
      by rewrite !f64_add_nan_l.
    + rewrite (f64_square_sub_nan y2 y1) by (by left).
      by rewrite f64_add_nan_r, f64_add_nan_l.
    + rewrite (f64_square_sub_nan z2 z1) by (by left).
      by rewrite f64_add_nan_r.
  - apply f64_calculate_distance_self.
Qed.

(** The decayed sample against itself, and a finite sample against itself. *)
Lemma calculate_distance_over_floats_witness :
  existsb F64.isnan [F64.NaN; F64.NaN; F64.NaN; F64.NaN; F64.NaN; F64.NaN] = true /\
  F64.calculate_distance (F64.NaN, F64.NaN, F64.NaN) (F64.NaN, F64.NaN, F64.NaN)
  = F64.NaN /\
  F64.calculate_distance (F64.Real 7000, F64.Real 0, F64.Real 0)
                         (F64.Real 7000, F64.Real 0, F64.Real 0) = F64.Real 0.
Proof.
  split; [reflexivity |]. split.
  - apply (proj1 (proj2 (proj2 calculate_distance_over_floats))). reflexivity.
  - apply (proj2 (proj2 (proj2 calculate_distance_over_floats))).
Defined.

(** ** The two embeddings agree on finite positions *)

Lemma f64_positions_at_of sat st deltas :
  F64.positions_at (of_satellite sat) st deltas =
    match positions_at sat st deltas with
    | Ok l => Ok (map of_vec3 l)
    | Raise e => Raise e
    end.
Proof.
  induction deltas as [| delta deltas IH]; [done |].
  cbn [F64.positions_at positions_at of_satellite F64.sat_at].
  destruct (sat_at sat _) as [km | e]; [| done].
  cbn [of_satellite F64.sat_at] in IH. rewrite IH.
  by destruct (positions_at sat st deltas).
Qed.

Lemma f64_orbit_path_of_of (p : SatelliteOrbitPredictor) name st d pts :
  F64.orbit_path_of (of_predictor p) name st d pts =
    match orbit_path_of (satellites p) name st d pts with
    | Ok path => Ok (of_path path)
    | Raise e => Raise e
    end.
Proof.
  unfold F64.orbit_path_of, orbit_path_of, of_predictor. cbn [F64.satellites].
  rewrite lookup_fmap. destruct (satellites p !! name) as [sat |]; [| done].
  cbn [fmap option_fmap option_map].
  destruct (np_linspace 0 d pts) as [deltas |]; [| done].
  rewrite f64_positions_at_of.
  destruct (positions_at sat st deltas) as [[| q ps] |]; [done | | done].
  unfold of_path. cbn [fst snd]. by rewrite !map_map.
Qed.

Lemma f64_calculate_distance_of (a b : vec3) :
  F64.calculate_distance (of_vec3 a) (of_vec3 b) = F64.Real (calculate_distance a b).
Proof.
  destruct a as [[x1 y1] z1], b as [[x2 y2] z2].
  unfold F64.calculate_distance, calculate_distance, of_vec3.
  cbn [fst snd F64.sub F64.square F64.add F64.sqrt].
  rewrite ltb_false; [done |].
  pose proof (pow2_ge_0 (x2 - x1)). pose proof (pow2_ge_0 (y2 - y1)).
  pose proof (pow2_ge_0 (z2 - z1)). lra.
Qed.

Lemma lookup_total_map_Real (l : list R) (i : nat) :
  (i < length l)%nat -> map F64.Real l !!! i = F64.Real (l !!! i).
Proof.
  intros Hi. destruct (lookup_lt_is_Some_2 l i Hi) as [x Hx].
  rewrite (list_lookup_total_correct _ _ _ Hx).
  apply list_lookup_total_correct. by rewrite list_lookup_fmap, Hx.
Qed.

Lemma f64_pair_distances_of (x1 y1 z1 x2 y2 z2 : list R) :
  length y1 = length x1 -> length z1 = length x1 ->
  length x2 = length x1 -> length y2 = length x1 -> length z2 = length x1 ->
  F64.pair_distances (of_path (x1, y1, z1)) (of_path (x2, y2, z2))
  = map F64.Real (pair_distances (x1, y1, z1) (x2, y2, z2)).
Proof.
  intros Hy1 Hz1 Hx2 Hy2 Hz2.
  unfold F64.pair_distances, pair_distances, of_path. cbn [fst snd].
  rewrite length_map, map_map. apply map_ext_in. intros i Hi.
  apply in_seq in Hi.
  rewrite !lookup_total_map_Real by lia.
  apply (f64_calculate_distance_of (_, _, _) (_, _, _)).
Qed.

Lemma f64_argmin_from_of (l : list R) (i : nat) (best : R) (bi : nat) :
  F64.argmin_from (map F64.Real l) i (F64.Real best) bi = argmin_from l i best bi.
Proof.
  revert i best bi. induction l as [| x l IH]; intros i best bi; [done |].
  cbn [map F64.argmin_from argmin_from F64.leb F64.isnan].
  destruct (Num.ltb x best); cbn [negb]; apply IH.
Qed.

Lemma f64_argmin_of (l : list R) : F64.argmin (map F64.Real l) = argmin l.
Proof. destruct l as [| x l]; [done |]. apply f64_argmin_from_of. Qed.

Lemma f64_np_less_of (l : list R) (b : R) :
  F64.np_less (map F64.Real l) (F64.Real b) = np_less l b.
Proof. unfold F64.np_less, np_less. by rewrite map_map. Qed.

Lemma f64_collision_risk_of (m : R) :
  F64.collision_risk (F64.Real m) = collision_risk m.
Proof. reflexivity. Qed.

Lemma f64_relative_velocity_of_of (distances : list R) (d : R) (pts : Z) :
  d <> 0%R -> 0 < pts ->
  F64.relative_velocity_of (map F64.Real distances) d pts
  = of_value (relative_velocity_of distances d pts).
Proof.
  intros Hd Hpts. unfold F64.relative_velocity_of, relative_velocity_of.
  rewrite f64_argmin_of, length_map.
  destruct (_ && _) eqn:Hc; [| done].
  apply andb_true_iff in Hc as [H0 H1]. apply Z.ltb_lt in H0, H1.
  rewrite !lookup_total_map_Real by lia.
  cbn [F64.sub F64.abs F64.div of_value].
  destruct (Req_dec_T _ 0) as [E | _]; [| done].
  exfalso. assert (0 < IZR pts)%R by (by apply IZR_lt).
  assert (Hq : (d / IZR pts)%R = 0%R) by lra.
  apply Hd. apply (Rmult_eq_compat_r (IZR pts)) in Hq.
  unfold Rdiv in Hq. rewrite Rmult_assoc, Rinv_l, Rmult_1_r, Rmult_0_l in Hq by lra.
  exact Hq.
Qed.

Lemma f64_result_dict_of s1 s2 (distances : list R) times warning (d : R) (pts : Z) :
  d <> 0%R -> 0 < pts -> distances <> [] ->
  F64.result_dict s1 s2 (map F64.Real distances) times warning d pts
  = of_value <$> result_dict s1 s2 distances times warning d pts.
Proof.
  intros Hd Hpts Hne. unfold F64.result_dict, result_dict.
  rewrite !fmap_insert, fmap_empty. cbn [of_value].
  rewrite f64_argmin_of, f64_np_less_of, f64_relative_velocity_of_of by done.
  rewrite lookup_total_map_Real by (by apply argmin_lt_length).
  reflexivity.
Qed.

(** On a catalog of the real-number model, whose propagators yield finite
    coordinates only, and for a window of non-zero duration, the analysis
    over floats returns the dictionary of the analysis over the reals, and
    leaves the same world. *)
Lemma float_analysis_of_finite_positions (s1 s2 : string) (d : R) (pts : Z)
    (w : world) :
  d <> 0%R ->
  F64.analyze_close_approach (of_predictor (predictor w)) s1 s2 d pts w =
    match analyze_close_approach s1 s2 d pts w with
    | (Ok dict, w') => (Ok (of_value <$> dict), w')
    | (Raise e, w') => (Raise e, w')
    end.
Proof.
  intros Hd.
  rewrite f64_analyze_close_approach_spec, analyze_close_approach_spec. cbv zeta.
  rewrite !f64_orbit_path_of_of.
  assert (Hreads : forall s,
            F64.reads (of_predictor (predictor w)) s
            = reads (satellites (predictor w)) s).
  { intros s. unfold F64.reads, reads, of_predictor. cbn [F64.satellites].
    rewrite lookup_fmap. by destruct (satellites (predictor w) !! s). }
  rewrite !Hreads.
  destruct (orbit_path_of _ s1 _ d pts) as [[[x1 y1] z1] | e1] eqn:H1; [| done].
  destruct (orbit_path_of _ s2 _ d pts) as [[[x2 y2] z2] | e2] eqn:H2; [| done].
  apply orbit_path_of_length in H1 as (Hpts & Hx1 & Hy1 & Hz1).
  apply orbit_path_of_length in H2 as (_ & Hx2 & Hy2 & Hz2).
  rewrite f64_pair_distances_of by congruence.
  rewrite f64_result_dict_of; [| done | done |].
  - unfold of_path. cbn [fst snd]. by rewrite length_map.
  - intros E.
    pose proof (pair_distances_length (x1, y1, z1) (x2, y2, z2)) as HL.
    rewrite E in HL. cbn [fst length] in HL. lia.
Qed.
